(** * Avatar chat monitoring dashboard: session lifecycle, provider client, statistics

    A shallow embedding of the dashboard's logic:
    - the tables [sessions], [messages] and [session_stats] of the hosted
      database, as the migrations create them and as the client reads and
      writes them;
    - the HeyGen client ([fetchHeyGenSessions], [getHeyGenSessionStatus],
      [stopHeyGenSession], [sendMessageToHeyGen], [getAllActiveSessions],
      [syncHeyGenMessages]);
    - the handlers of the [SessionsList] component ([handleRefresh],
      [handleStopSession], the flag handlers, [fetchSessions]);
    - [calculateAndStoreStats] and the figures of the [SessionStats] panel.

    Asynchronous functions are functions of the state of the database and of
    an environment [Env] that answers for everything outside the program: the
    provider's HTTP API, the clock, and whether the hosted database accepts a
    statement.  A promise is its settled state. *)

From Stdlib Require Import List String Ascii ZArith QArith Qabs Qround Bool Lia Lqa.
From Stdlib Require Import DecimalString DecimalPos Sorted Permutation.
Import ListNotations.
Local Open Scope string_scope.
Local Open Scope list_scope.
Local Open Scope Z_scope.

(** ** JavaScript values *)

(** The settled state of a promise; the rejection reason is not inspected by
    any caller. *)
Inductive Promise (A : Type) : Type :=
| Fulfilled (a : A)
| Rejected.
Arguments Fulfilled {A} a.
Arguments Rejected {A}.

(** A JavaScript number, a binary64 floating-point value: NaN, an infinity,
    or a finite value, kept as the exact rational it stands for.  The two
    zeros are one value.  The same type holds a numeral that [toFixed]
    prints, as the value of its digits. *)
Inductive number : Type :=
| NaN
| Num (q : Q)
| Infinity (negative : bool).

(** [floor (log2 (n / d))], for positive [n] and [d]; [Z.shiftl n k] is
    [n * 2^k]. *)
Definition exponent (n d : Z) : Z :=
  let e := Z.log2 n - Z.log2 d in
  if Z.shiftl n (Z.max 0 (- e)) <? Z.shiftl d (Z.max 0 e) then e - 1 else e.

(** The integer nearest to [n / d], the even one of two that are equally
    near; [n] is not negative and [d] is positive. *)
Definition round_even (n d : Z) : Z :=
  let (quotient, remainder) := Z.div_eucl n d in
  match 2 * remainder ?= d with
  | Lt => quotient
  | Gt => quotient + 1
  | Eq => if Z.even quotient then quotient else quotient + 1
  end.

(** The binary64 number nearest to the real [q] (round to nearest, ties to
    even): [m * 2^k] for the whole number [m] nearest to [q / 2^k], where
    [2^k] is the spacing of the numbers at the exponent of [q], 52 below it
    and never less than [2^-1074]; an infinity when [m * 2^k] reaches
    [2^1024].  Every arithmetic operation and every reading of a numeral
    gives the exact result rounded this way. *)
Definition double (q : Q) : number :=
  let n := Z.abs (Qnum q) in
  let d := Zpos (Qden q) in
  if n =? 0 then Num 0
  else
    let k := Z.max (exponent n d) (-1022) - 52 in
    let m := round_even (Z.shiftl n (Z.max 0 (- k))) (Z.shiftl d (Z.max 0 k)) in
    if 1024 <=? Z.log2 m + k then Infinity (Qnum q <? 0)
    else Num (Qred ((Z.sgn (Qnum q) * Z.shiftl m (Z.max 0 k))
                    # Z.to_pos (Z.shiftl 1 (Z.max 0 (- k))))).

(** [x + y] *)
Definition plus (x y : number) : number :=
  match x, y with
  | NaN, _ | _, NaN => NaN
  | Infinity a, Infinity b => if Bool.eqb a b then Infinity a else NaN
  | Infinity a, Num _ | Num _, Infinity a => Infinity a
  | Num a, Num b => double (a + b)
  end.

(** [x * k] and [x / k] for a positive whole constant [k] that is a number,
    as 60 and 1000 * 60 are. *)
Definition times (x : number) (k : positive) : number :=
  match x with
  | Num q => double (q * inject_Z (Zpos k))
  | _ => x
  end.

Definition divide (x : number) (k : positive) : number :=
  match x with
  | Num q => double (q / inject_Z (Zpos k))
  | _ => x
  end.

(** [x.toFixed(d)], as the value of the numeral it prints.  Below [10^21]
    in magnitude that is the multiple of [10^-d] nearest to the number, the
    larger in magnitude of two that are equally near.  From [10^21] on, and
    for NaN and the infinities, the number is printed as [String(x)] prints
    it, which reads back as the number. *)
Definition toFixed (d : nat) (x : number) : number :=
  match x with
  | Num q =>
      if Qle_bool (inject_Z (10 ^ 21)) (Qabs q) then x
      else
        let p := 10 ^ Z.of_nat d in
        let n := Qfloor (Qabs q * inject_Z p + (1 # 2)) in
        Num (Qred ((if Qlt_le_dec q 0 then - n else n) # Z.to_pos p))
  | _ => x
  end.

(** [parseFloat] of a numeral, and a numeral in a JSON text read as a
    number: the number nearest to its value. *)
Definition parseFloat (x : number) : number :=
  match x with
  | Num q => double q
  | _ => x
  end.

(** [x] is a finite number, not negative, within [eps] of the real [a]. *)
Definition near (x : number) (a eps : Q) : Prop :=
  exists q, x = Num q /\ (0 <= q /\ a - eps <= q /\ q <= a + eps)%Q.

(** The time value of [new Date(x)] for a number [x], and the range of
    [Date.parse]: [x] cut to a whole number of milliseconds when it is
    within 8.64e15 of the epoch, and otherwise no instant ([None], the time
    value NaN of an invalid date). *)
Definition TimeClip (x : number) : option Z :=
  match x with
  | Num q =>
      if Qle_bool (Qabs q) (inject_Z 8640000000000000)
      then Some (Z.quot (Qnum q) (Zpos (Qden q)))
      else None
  | _ => None
  end.

(** Instants (ISO strings, [timestamptz] columns, [Date] objects) are
    milliseconds since the epoch. *)
Definition timestamp : Type := Z.

(** ** Tables *)

Module sessions.

(** [status text CHECK (status = ANY ('active', 'connecting', 'connected',
    'completed', 'error'))]. *)
Inductive Status : Type := active | connecting | connected | completed | error.

Definition Status_eqb (a b : Status) : bool :=
  match a, b with
  | active, active | connecting, connecting | connected, connected
  | completed, completed | error, error => true
  | _, _ => false
  end.

(** A row of [sessions], with the columns the migrations create; the two
    flags are booleans, as the [Session] interface of the component has them.
    The column [duration] is generated ([end_time - start_time], stored), so
    it is a function of the row: see [duration]. *)
Record Row : Type := {
  id : string;
  session_id : string;
  start_time : timestamp;
  end_time : option timestamp;
  status : Status;
  created_at : timestamp;
  heygen_status : option string;
  last_sync_at : option timestamp;
  is_relevant : bool;
  is_archived : bool;
  deleted_at : option timestamp
}.

(** The payload of an update: a column that is absent keeps its value. *)
Record Update : Type := {
  u_end_time : option (option timestamp);
  u_status : option Status;
  u_heygen_status : option (option string);
  u_last_sync_at : option (option timestamp);
  u_is_relevant : option bool;
  u_is_archived : option bool;
  u_deleted_at : option (option timestamp)
}.

Definition assign {A : Type} (u : option A) (old : A) : A :=
  match u with Some v => v | None => old end.

Definition apply (u : Update) (r : Row) : Row :=
  {| id := id r;
     session_id := session_id r;
     start_time := start_time r;
     end_time := assign (u_end_time u) (end_time r);
     status := assign (u_status u) (status r);
     created_at := created_at r;
     heygen_status := assign (u_heygen_status u) (heygen_status r);
     last_sync_at := assign (u_last_sync_at u) (last_sync_at r);
     is_relevant := assign (u_is_relevant u) (is_relevant r);
     is_archived := assign (u_is_archived u) (is_archived r);
     deleted_at := assign (u_deleted_at u) (deleted_at r) |}.

(** The generated column, in milliseconds. *)
Definition duration (r : Row) : option Z :=
  match end_time r with
  | Some e => Some (e - start_time r)
  | None => None
  end.

(** The columns, to say which of them a statement leaves alone. *)
Inductive Column : Type :=
| c_id | c_session_id | c_start_time | c_end_time | c_duration | c_status
| c_created_at | c_heygen_status | c_last_sync_at | c_is_relevant
| c_is_archived | c_deleted_at.

Definition same_on (c : Column) (r r' : Row) : Prop :=
  match c with
  | c_id => id r' = id r
  | c_session_id => session_id r' = session_id r
  | c_start_time => start_time r' = start_time r
  | c_end_time => end_time r' = end_time r
  | c_duration => duration r' = duration r
  | c_status => status r' = status r
  | c_created_at => created_at r' = created_at r
  | c_heygen_status => heygen_status r' = heygen_status r
  | c_last_sync_at => last_sync_at r' = last_sync_at r
  | c_is_relevant => is_relevant r' = is_relevant r
  | c_is_archived => is_archived r' = is_archived r
  | c_deleted_at => deleted_at r' = deleted_at r
  end.

(** [r'] has the value of [r] in every column but [c]. *)
Definition unchanged_except (c : Column) (r r' : Row) : Prop :=
  forall c', c' <> c -> same_on c' r r'.

End sessions.

Module messages.

(** A row of [messages].  [id] and [created_at] are filled by the database
    ([uuid_generate_v4()], [now()]) and read by none of the functions below;
    they are left out. *)
Record Row : Type := {
  session_id : string;
  sender : string;
  message : string;
  timestamp : Z
}.

End messages.

Module session_stats.

(** A row of [session_stats], with the columns [calculateAndStoreStats]
    writes.  A number column holds [None] for SQL NULL. *)
Record Row : Type := {
  session_id : string;
  totalmessages : nat;
  usermessages : nat;
  avatarmessages : nat;
  averageresponsetime : option Q;
  sessionduration : string
}.

End session_stats.

(** The hosted database. *)
Record Database : Type := {
  tbl_sessions : list sessions.Row;
  tbl_messages : list messages.Row;
  tbl_session_stats : list session_stats.Row
}.

(** ** The provider's HTTP API *)

(** [HeyGenSession] of database.types.ts. *)
Record HeyGenSession : Type := {
  hs_session_id : string;
  hs_status : string;
  hs_created_at : Z
}.

(** A message as [syncHeyGenMessages] reads it: [role], [content] and
    [timestamp].  The timestamp is kept as the number [new Date] makes of
    it: the number itself, what a text parses to, NaN for a text that is no
    date or a member that is absent. *)
Record HeyGenMessage : Type := {
  role : string;
  content : string;
  hm_timestamp : number
}.

(** A parsed response body: JSON [null], or an object with the members the
    client reads ([status], [message], [sessions]), each possibly absent.
    Any other JSON value has none of these members and reads like the empty
    object.  [sessions], when present, is an array of sessions, as
    [HeyGenResponse] declares. *)
Record ApiObject : Type := {
  o_status : option string;
  o_message : option string;
  o_sessions : option (list HeyGenSession)
}.

Inductive Json : Type :=
| JNull
| JObject (o : ApiObject).

(** The four requests the client sends. *)
Inductive Request : Type :=
| streaming_list
| streaming_get (session_id : string)
| streaming_stop (session_id : string)
| streaming_chat (session_id : string) (message : string).

(** What [fetch] gives: it throws, or it resolves to a response with its [ok]
    flag and what [response.json()] settles to. *)
Inductive FetchResult : Type :=
| NetworkError
| Response (ok : bool) (json : Promise Json).

(** ** Statements sent to the hosted database *)

Inductive Statement : Type :=
| select_live_sessions
| select_session (session_id : string)
| select_completed_sessions
| select_sessions_list
| update_session (session_id : string)
| select_messages (session_id : string)
| insert_message (session_id : string) (message : string)
| insert_session_stats (session_id : string).

(** ** The environment *)

Record Env : Type := {
  (** [import.meta.env.VITE_HEYGEN_API_KEY] *)
  VITE_HEYGEN_API_KEY : option string;
  (** the provider's answer to a request *)
  fetch : Request -> FetchResult;
  (** Modelled from the spec: [fetchHeyGenMessages] is called by
      [syncHeyGenMessages] and defined in none of the sources; the spec says
      only that the provider is consulted to pull new messages, so what it
      settles to is an input. *)
  fetchHeyGenMessages : string -> Promise (list HeyGenMessage);
  (** whether the hosted database (or the network on the way to it) refuses a
      statement; the client then gets an error object and no data *)
  refused : Statement -> bool;
  (** [new Date()] while the statement for a session is built *)
  clock : string -> timestamp;
  (** [Date.parse] of the JavaScript engine on strings that are not a bare
      time of day, see [Date_parse] *)
  engine_Date_parse : string -> number
}.

(** ** The database client

    A call of the client never throws: it resolves to a pair of [data] and
    [error].  A refused statement changes nothing.

    The trash migration also installs a statement trigger on [sessions]
    ([cleanup_deleted_sessions]) whose body deletes rows that have been in the
    trash for more than thirty days.  The trigger function is not SECURITY
    DEFINER, and the migrations give the signed-in role policies for SELECT
    and UPDATE on [sessions] and none for DELETE; under row-level security
    its DELETE therefore sees no row when the statement comes from this
    client, and an update is its own effect only. *)
Module supabase.

Definition set_sessions (l : list sessions.Row) (db : Database) : Database :=
  {| tbl_sessions := l;
     tbl_messages := tbl_messages db;
     tbl_session_stats := tbl_session_stats db |}.

Definition set_messages (l : list messages.Row) (db : Database) : Database :=
  {| tbl_sessions := tbl_sessions db;
     tbl_messages := l;
     tbl_session_stats := tbl_session_stats db |}.

Definition set_session_stats (l : list session_stats.Row) (db : Database)
  : Database :=
  {| tbl_sessions := tbl_sessions db;
     tbl_messages := tbl_messages db;
     tbl_session_stats := l |}.

(** [.eq('session_id', sid)] on [sessions]. *)
Definition is_session (sid : string) (r : sessions.Row) : bool :=
  String.eqb (sessions.session_id r) sid.

(** [.eq('session_id', sid)] on [messages]. *)
Definition of_session (sid : string) (m : messages.Row) : bool :=
  String.eqb (messages.session_id m) sid.

(** [.from('sessions').update(u).eq('session_id', sid)]: the new database
    and whether an error came back. *)
Definition update_sessions (env : Env) (sid : string) (u : sessions.Update)
    (db : Database) : Database * bool :=
  if refused env (update_session sid) then (db, true)
  else (set_sessions
          (map (fun r => if is_session sid r then sessions.apply u r else r)
               (tbl_sessions db)) db,
        false).

(** [.in('status', ['active', 'connecting', 'connected'])
    .is('end_time', null)]. *)
Definition is_live (r : sessions.Row) : bool :=
  match sessions.status r with
  | sessions.active | sessions.connecting | sessions.connected =>
      match sessions.end_time r with None => true | Some _ => false end
  | _ => false
  end.

(** [.from('sessions').select('*').in(...).is('end_time', null)]: [None]
    when an error came back. *)
Definition select_live (env : Env) (db : Database)
  : option (list sessions.Row) :=
  if refused env select_live_sessions then None
  else Some (filter is_live (tbl_sessions db)).

(** [.from('sessions').select('*').eq('session_id', sid).single()]: an error
    unless exactly one row matches. *)
Definition select_single (env : Env) (sid : string) (db : Database)
  : option sessions.Row :=
  if refused env (select_session sid) then None
  else match filter (is_session sid) (tbl_sessions db) with
       | [r] => Some r
       | _ => None
       end.

(** [.from('messages').select(...).eq('session_id', sid)]. *)
Definition select_messages_of (env : Env) (sid : string) (db : Database)
  : option (list messages.Row) :=
  if refused env (select_messages sid) then None
  else Some (filter (of_session sid) (tbl_messages db)).

(** [.from('messages').insert(m)].  [messages.session_id] references
    [sessions(session_id)]: a row for an unknown session is an error. *)
Definition insert_into_messages (env : Env) (m : messages.Row)
    (db : Database) : Database * bool :=
  if refused env (insert_message (messages.session_id m) (messages.message m))
     || negb (existsb (is_session (messages.session_id m)) (tbl_sessions db))
  then (db, true)
  else (set_messages (tbl_messages db ++ [m]) db, false).

(** [.from('session_stats').insert(r)]. *)
Definition insert_into_session_stats (env : Env) (r : session_stats.Row)
    (db : Database) : Database * bool :=
  if refused env (insert_session_stats (session_stats.session_id r))
  then (db, true)
  else (set_session_stats (tbl_session_stats db ++ [r]) db, false).

End supabase.

(** ** src/lib/heygen.ts

    Every function returns the requests it sent to the provider, in order,
    and the settled state of the promise it returns. *)
Module heygen.

Definition checkHeyGenApiKey (env : Env) : bool :=
  match VITE_HEYGEN_API_KEY env with
  | None => false
  | Some apiKey =>
      negb (String.eqb apiKey "")
      && negb (String.eqb apiKey "your_heygen_api_key_here")
  end.

(** [{ sessions: l }] *)
Definition sessions_object (l : list HeyGenSession) : Json :=
  JObject {| o_status := None; o_message := None; o_sessions := Some l |}.

(** [{ status: s, message: m }] *)
Definition status_object (s m : string) : Json :=
  JObject {| o_status := Some s; o_message := Some m; o_sessions := None |}.

(** [errorData.message || fallback]: an absent or empty message is falsy. *)
Definition message_or (m : option string) (fallback : string) : string :=
  match m with
  | Some s => if String.eqb s "" then fallback else s
  | None => fallback
  end.

(** [v === s] for a member [v] that may be absent. *)
Definition is_string (s : string) (v : option string) : bool :=
  match v with
  | Some x => String.eqb x s
  | None => false
  end.

(** The branch [if (!response.ok)] of the three functions that answer with
    a status object: [errorData] is the parsed body, or [{}] when parsing
    fails; reading [.message] of [null] throws inside the [try], which the
    [catch] turns into the fallback. *)
Definition error_branch (body : Promise Json) (fallback : string) : Json :=
  match body with
  | Rejected => status_object "error" fallback
  | Fulfilled JNull => status_object "error" fallback
  | Fulfilled (JObject o) =>
      status_object "error" (message_or (o_message o) fallback)
  end.

Definition fetchHeyGenSessions (env : Env) : list Request * Promise Json :=
  if negb (checkHeyGenApiKey env) then ([], Fulfilled (sessions_object []))
  else
    ([streaming_list],
     match fetch env streaming_list with
     | NetworkError => Fulfilled (sessions_object [])
     | Response ok body =>
         if negb ok then Fulfilled (sessions_object [])
         else match body with
              | Fulfilled data => Fulfilled data
              | Rejected => Fulfilled (sessions_object [])
              end
     end).

(** On an OK response the function returns [response.json()] without
    awaiting it: the [try] block is left before that promise settles, so
    its rejection is the rejection of the returned promise. *)
Definition getHeyGenSessionStatus (env : Env) (sessionId : string)
  : list Request * Promise Json :=
  if negb (checkHeyGenApiKey env)
  then ([], Fulfilled (status_object "error" "HeyGen API key not configured"))
  else
    ([streaming_get sessionId],
     match fetch env (streaming_get sessionId) with
     | NetworkError =>
         Fulfilled (status_object "error" "Failed to get session status")
     | Response ok body =>
         if negb ok
         then Fulfilled (error_branch body "Failed to get session status")
         else body
     end).

Definition stopHeyGenSession (env : Env) (sessionId : string)
  : list Request * Promise Json :=
  if negb (checkHeyGenApiKey env)
  then ([], Fulfilled (status_object "error" "HeyGen API key not configured"))
  else
    let '(asked, sessionStatus) := getHeyGenSessionStatus env sessionId in
    match sessionStatus with
    | Rejected =>
        (* awaited inside the try *)
        (asked, Fulfilled (status_object "error" "Failed to stop session"))
    | Fulfilled JNull =>
        (* sessionStatus.status throws *)
        (asked, Fulfilled (status_object "error" "Failed to stop session"))
    | Fulfilled (JObject o) =>
        if is_string "completed" (o_status o)
        then (asked,
              Fulfilled (status_object "completed"
                                       "Session was already completed"))
        else
          (asked ++ [streaming_stop sessionId],
           match fetch env (streaming_stop sessionId) with
           | NetworkError =>
               Fulfilled (status_object "error" "Failed to stop session")
           | Response ok body =>
               if negb ok
               then Fulfilled (error_branch body "Failed to stop session")
               else body
           end)
    end.

Definition getAllActiveSessions (env : Env)
  : list Request * Promise (list HeyGenSession) :=
  if negb (checkHeyGenApiKey env) then ([], Fulfilled [])
  else
    let '(asked, response) := fetchHeyGenSessions env in
    (asked,
     match response with
     | Rejected => Fulfilled []
     | Fulfilled JNull => Fulfilled []
     | Fulfilled (JObject o) =>
         match o_sessions o with
         | None => Fulfilled []
         | Some l => Fulfilled l
         end
     end).

(** The row [syncHeyGenMessages] builds for a fetched message whose
    timestamp is the instant [t]. *)
Definition row_of (sessionId : string) (m : HeyGenMessage) (t : Z)
  : messages.Row :=
  {| messages.session_id := sessionId;
     messages.sender :=
       if String.eqb (role m) "user" then "user" else "avatar";
     messages.message := content m;
     messages.timestamp := t |}.

(** Building the row.  [None] when it throws:
    [new Date(message.timestamp).toISOString()] is a RangeError for an
    invalid date. *)
Definition to_row (sessionId : string) (m : HeyGenMessage)
  : option messages.Row :=
  match TimeClip (hm_timestamp m) with
  | None => None
  | Some t => Some (row_of sessionId m t)
  end.

(** [existingMessages?.some(existing => existing.message === c)]: when the
    select failed, [existingMessages] is null and the test is falsy. *)
Definition messageExists (existingMessages : option (list messages.Row))
    (c : string) : bool :=
  match existingMessages with
  | Some l => existsb (fun existing => String.eqb (messages.message existing) c) l
  | None => false
  end.

(** The body of the loop.  An insert error is logged and the loop goes on;
    [None] when the body throws, which it does when the row of a message
    that has to be inserted cannot be built. *)
Definition sync_one (env : Env) (sessionId : string)
    (existingMessages : option (list messages.Row))
    (db : Database) (m : HeyGenMessage) : option Database :=
  if messageExists existingMessages (content m) then Some db
  else match to_row sessionId m with
       | None => None
       | Some row => Some (fst (supabase.insert_into_messages env row db))
       end.

(** [for (const message of messages)] inside the one [try] of the function:
    an exception of the body ends the loop, and the [catch] block logs it;
    what was inserted before stays. *)
Fixpoint sync_each (env : Env) (sessionId : string)
    (existingMessages : option (list messages.Row))
    (fetched : list HeyGenMessage) (db : Database) : Database :=
  match fetched with
  | [] => db
  | m :: rest =>
      match sync_one env sessionId existingMessages db m with
      | None => db
      | Some db' => sync_each env sessionId existingMessages rest db'
      end
  end.

Definition syncHeyGenMessages (env : Env) (sessionId : string)
    (db : Database) : Database * Promise unit :=
  let existingMessages := supabase.select_messages_of env sessionId db in
  match fetchHeyGenMessages env sessionId with
  | Rejected => (db, Fulfilled tt)
  | Fulfilled fetched =>
      (sync_each env sessionId existingMessages fetched db, Fulfilled tt)
  end.

Definition sendMessageToHeyGen (env : Env) (sessionId message : string)
    (db : Database) : Database * (list Request * Promise Json) :=
  if negb (checkHeyGenApiKey env)
  then (db, ([], Fulfilled (status_object "error"
                                          "HeyGen API key not configured")))
  else
    match fetch env (streaming_chat sessionId message) with
    | NetworkError =>
        (db, ([streaming_chat sessionId message],
              Fulfilled (status_object "error" "Failed to send message")))
    | Response ok body =>
        if negb ok
        then (db, ([streaming_chat sessionId message],
                   Fulfilled (error_branch body "Failed to send message")))
        else match body with
             | Rejected =>
                 (db, ([streaming_chat sessionId message],
                       Fulfilled (status_object "error"
                                                "Failed to send message")))
             | Fulfilled data =>
                 (fst (syncHeyGenMessages env sessionId db),
                  ([streaming_chat sessionId message], Fulfilled data))
             end
    end.

(** The fetched messages the loop gets through: those before the first one
    that has to be inserted and whose timestamp is no instant. *)
Fixpoint reached (existingMessages : option (list messages.Row))
    (fetched : list HeyGenMessage) : list HeyGenMessage :=
  match fetched with
  | [] => []
  | m :: rest =>
      match messageExists existingMessages (content m),
            TimeClip (hm_timestamp m) with
      | false, None => []
      | _, _ => m :: reached existingMessages rest
      end
  end.

(** The rows of the messages of [l] whose timestamp is an instant. *)
Fixpoint rows_of (sessionId : string) (l : list HeyGenMessage)
  : list messages.Row :=
  match l with
  | [] => []
  | m :: rest =>
      match TimeClip (hm_timestamp m) with
      | Some t => row_of sessionId m t :: rows_of sessionId rest
      | None => rows_of sessionId rest
      end
  end.

(** The rows a run of [syncHeyGenMessages] appends to [messages]: of the
    fetched messages the loop gets through, those that pass the existence
    test and whose insert the database accepts. *)
Definition appended (env : Env) (sessionId : string) (db : Database)
  : list messages.Row :=
  match fetchHeyGenMessages env sessionId with
  | Rejected => []
  | Fulfilled fetched =>
      let existingMessages := supabase.select_messages_of env sessionId db in
      rows_of sessionId
        (filter
           (fun m =>
              negb (messageExists existingMessages (content m))
              && negb (refused env (insert_message sessionId (content m)))
              && existsb (supabase.is_session sessionId) (tbl_sessions db))
           (reached existingMessages fetched))
  end.

(** The provider answers the status query for a session with an OK response
    whose body has [status: 'completed']. *)
Definition reports_completed (env : Env) (sessionId : string) : Prop :=
  exists o,
    fetch env (streaming_get sessionId) = Response true (Fulfilled (JObject o))
    /\ o_status o = Some "completed".

End heygen.

(** ** src/components/SessionsList.tsx

    A handler is a closure of the render that created it: the state it tests
    in its guard ([isRefreshing], [stoppingSession], [updatingSession]) is the
    value that render captured, and is an argument here. *)
Module SessionsList.

Inductive ViewMode : Type := ACTIVE | ARCHIVED | TRASH.

(** The status filter: ['all'] or one status. *)
Inductive Filter : Type :=
| all
| only (s : sessions.Status).

(** How a handler ends: it returned at its guard, it ran to the end of its
    [try] block, or its [catch] block reported an error. *)
Inductive Outcome : Type := returned_at_guard | ran_through | error_reported.

(** The payload of [handleRefresh] and [handleStopSession]. *)
Definition mark_completed (now : timestamp) : sessions.Update :=
  {| sessions.u_end_time := Some (Some now);
     sessions.u_status := Some sessions.completed;
     sessions.u_heygen_status := Some (Some "completed");
     sessions.u_last_sync_at := Some (Some now);
     sessions.u_is_relevant := None;
     sessions.u_is_archived := None;
     sessions.u_deleted_at := None |}.

(** [activeHeygenSessionIds.has(id)] for the set built from
    [heygenSessions.map(s => s.session_id)]. *)
Definition isActiveInHeyGen (heygenSessions : list HeyGenSession)
    (id : string) : bool :=
  existsb (String.eqb id) (map hs_session_id heygenSessions).

(** The callback of [activeSessions.map] in [handleRefresh].  The result of
    the update is not looked at. *)
Definition reconcile (env : Env) (heygenSessions : list HeyGenSession)
    (db : Database) (session : sessions.Row) : Database :=
  let sid := sessions.session_id session in
  if negb (isActiveInHeyGen heygenSessions sid)
  then fst (supabase.update_sessions env sid (mark_completed (clock env sid)) db)
  else fst (heygen.syncHeyGenMessages env sid db).

(** Whether the callback for [session] rewrites the row [r]: the row is
    selected by the update, the update is issued, and it is accepted. *)
Definition rewrites (env : Env) (heygenSessions : list HeyGenSession)
    (session r : sessions.Row) : bool :=
  supabase.is_session (sessions.session_id session) r
  && negb (isActiveInHeyGen heygenSessions (sessions.session_id session))
  && negb (refused env (update_session (sessions.session_id session))).


(** [Promise.all] starts the callbacks in the order of the list.  Each one
    writes the row or the messages of its own session, and [session_id] is
    unique in [sessions], so their effects are composed in that order.  The
    closing [fetchSessions()] reloads the list the component shows and
    writes nothing. *)
Definition handleRefresh (isRefreshing : bool) (env : Env) (db : Database)
  : Database * Outcome :=
  if isRefreshing then (db, returned_at_guard)
  else
    match supabase.select_live env db with
    | None => (db, error_reported)
    | Some [] => (db, ran_through)
    | Some activeSessions =>
        match snd (heygen.getAllActiveSessions env) with
        | Rejected => (db, error_reported)
        | Fulfilled heygenSessions =>
            (fold_left (reconcile env heygenSessions) activeSessions db,
             ran_through)
        end
    end.



(** [if (stoppingSession)]: null and the empty string are falsy. *)
Definition truthy (s : option string) : bool :=
  match s with
  | Some x => negb (String.eqb x "")
  | None => false
  end.

(** The requests sent to the provider, the new database and the outcome.
    When [stopHeyGenSession] rejects, the [await] throws and the local
    update is not reached. *)
Definition handleStopSession (stoppingSession : option string) (env : Env)
    (sessionId : string) (db : Database)
  : list Request * (Database * Outcome) :=
  if truthy stoppingSession then ([], (db, returned_at_guard))
  else
    let '(sent, stopped) := heygen.stopHeyGenSession env sessionId in
    match stopped with
    | Rejected => (sent, (db, error_reported))
    | Fulfilled _ =>
        let '(db', updateError) :=
          supabase.update_sessions env sessionId
            (mark_completed (clock env sessionId)) db in
        (sent, (db', if updateError then error_reported else ran_through))
    end.

(** [updatingSession === sessionId] *)
Definition is_updating (updatingSession : option string) (sessionId : string)
  : bool :=
  match updatingSession with
  | Some x => String.eqb x sessionId
  | None => false
  end.

(** The common shape of the four flag handlers: the guard, one update, and
    the error thrown into the [catch] block. *)
Definition update_flag (updatingSession : option string) (env : Env)
    (sessionId : string) (u : sessions.Update) (db : Database)
  : Database * Outcome :=
  if is_updating updatingSession sessionId then (db, returned_at_guard)
  else
    let '(db', error) := supabase.update_sessions env sessionId u db in
    (db', if error then error_reported else ran_through).

Definition handleToggleRelevant (updatingSession : option string) (env : Env)
    (sessionId : string) (currentValue : bool) (db : Database)
  : Database * Outcome :=
  update_flag updatingSession env sessionId
    {| sessions.u_end_time := None; sessions.u_status := None;
       sessions.u_heygen_status := None; sessions.u_last_sync_at := None;
       sessions.u_is_relevant := Some (negb currentValue);
       sessions.u_is_archived := None; sessions.u_deleted_at := None |} db.

Definition handleMoveToTrash (updatingSession : option string) (env : Env)
    (sessionId : string) (db : Database) : Database * Outcome :=
  update_flag updatingSession env sessionId
    {| sessions.u_end_time := None; sessions.u_status := None;
       sessions.u_heygen_status := None; sessions.u_last_sync_at := None;
       sessions.u_is_relevant := None; sessions.u_is_archived := None;
       sessions.u_deleted_at := Some (Some (clock env sessionId)) |} db.

Definition handleRestoreFromTrash (updatingSession : option string)
    (env : Env) (sessionId : string) (db : Database) : Database * Outcome :=
  update_flag updatingSession env sessionId
    {| sessions.u_end_time := None; sessions.u_status := None;
       sessions.u_heygen_status := None; sessions.u_last_sync_at := None;
       sessions.u_is_relevant := None; sessions.u_is_archived := None;
       sessions.u_deleted_at := Some None |} db.

Definition handleToggleArchived (updatingSession : option string) (env : Env)
    (sessionId : string) (currentValue : bool) (db : Database)
  : Database * Outcome :=
  update_flag updatingSession env sessionId
    {| sessions.u_end_time := None; sessions.u_status := None;
       sessions.u_heygen_status := None; sessions.u_last_sync_at := None;
       sessions.u_is_relevant := None;
       sessions.u_is_archived := Some (negb currentValue);
       sessions.u_deleted_at := None |} db.

(** What a statement on the session [sid] may change when its column is [c]:
    nothing in the other tables, nothing in the rows of other sessions, and
    in the rows of [sid] no column but [c]. *)
Definition changes_at_most (c : sessions.Column) (sid : string)
    (db db' : Database) : Prop :=
  tbl_messages db' = tbl_messages db
  /\ tbl_session_stats db' = tbl_session_stats db
  /\ Forall2 (fun r r' =>
                if supabase.is_session sid r
                then sessions.unchanged_except c r r'
                else r' = r)
             (tbl_sessions db) (tbl_sessions db').

(** *** fetchSessions *)

Definition is_null {A : Type} (v : option A) : bool :=
  match v with None => true | Some _ => false end.

(** The condition the [switch (viewMode)] adds to the query. *)
Definition in_view (viewMode : ViewMode) (r : sessions.Row) : bool :=
  match viewMode with
  | ACTIVE => Bool.eqb (sessions.is_archived r) false
              && is_null (sessions.deleted_at r)
  | ARCHIVED => Bool.eqb (sessions.is_archived r) true
                && is_null (sessions.deleted_at r)
  | TRASH => negb (is_null (sessions.deleted_at r))
  end.

(** [.gte('start_time', startDate).lte('start_time', endDate)] and, unless
    the filter is ['all'], [.eq('status', filter)]. *)
Definition in_range_and_filter (filter : Filter) (startDate endDate : timestamp)
    (r : sessions.Row) : bool :=
  (startDate <=? sessions.start_time r)
  && (sessions.start_time r <=? endDate)
  && match filter with
     | all => true
     | only s => sessions.Status_eqb (sessions.status r) s
     end.

Definition matches_query (filter : Filter) (startDate endDate : timestamp)
    (viewMode : ViewMode) (r : sessions.Row) : bool :=
  in_range_and_filter filter startDate endDate r && in_view viewMode r.

(** [.order('start_time', { ascending: false })] *)
Fixpoint insert_desc (r : sessions.Row) (l : list sessions.Row)
  : list sessions.Row :=
  match l with
  | [] => [r]
  | x :: l' =>
      if sessions.start_time x <? sessions.start_time r
      then r :: l
      else x :: insert_desc r l'
  end.

Definition order_by_start_time_desc (l : list sessions.Row)
  : list sessions.Row :=
  fold_right insert_desc [] l.

(** The rows [fetchSessions] puts in the component's state; [None] when the
    query comes back with an error. *)
Definition fetchSessions (filter : Filter) (startDate endDate : timestamp)
    (viewMode : ViewMode) (env : Env) (db : Database)
  : option (list sessions.Row) :=
  if refused env select_sessions_list then None
  else Some (order_by_start_time_desc
               (List.filter (matches_query filter startDate endDate viewMode)
                       (tbl_sessions db))).

(** A row is in the list [fetchSessions] produces. *)
Definition listed (filter : Filter) (startDate endDate : timestamp)
    (viewMode : ViewMode) (env : Env) (db : Database) (r : sessions.Row)
  : Prop :=
  exists rows,
    fetchSessions filter startDate endDate viewMode env db = Some rows
    /\ In r rows.

(** The view a row belongs to. *)
Definition view_of (r : sessions.Row) : ViewMode :=
  match sessions.deleted_at r with
  | Some _ => TRASH
  | None => if sessions.is_archived r then ARCHIVED else ACTIVE
  end.

(** *** The refresh timer

    [setInterval(() => { handleRefresh(); }, 10000)] is installed by an
    effect with an empty dependency list, that is once, after the first
    render; the [handleRefresh] it calls is the closure of that render. *)
Definition REFRESH_INTERVAL_MS : Z := 10000.

(** Whether the timer calls back [t] milliseconds after it was set. *)
Definition interval_fires (t : Z) : bool :=
  (0 <? t) && (t mod REFRESH_INTERVAL_MS =? 0).

(** The component instance as far as refreshing goes: the state
    [isRefreshing] of the latest render, and the invocations of
    [handleRefresh] that are past the guard and have not reached [finally]. *)
Record Instance : Type := {
  isRefreshing : bool;
  running : nat
}.

(** [useState(false)] *)
Definition first_render : Instance :=
  {| isRefreshing := false; running := 0 |}.

Inductive Event : Type :=
| interval_tick      (* the timer calls back *)
| button_click       (* the Vernieuwen button of the latest render *)
| refresh_settled.   (* a running invocation reaches its finally block *)

(** The [isRefreshing] that the invoked closure captured. *)
Definition captured_isRefreshing (e : Event) (c : Instance) : bool :=
  match e with
  | interval_tick => isRefreshing first_render
  | _ => isRefreshing c
  end.

Definition step (c : Instance) (e : Event) : Instance :=
  match e with
  | interval_tick | button_click =>
      if captured_isRefreshing e c then c
      else {| isRefreshing := true; running := S (running c) |}
  | refresh_settled =>
      {| isRefreshing := false; running := Nat.pred (running c) |}
  end.

Definition run (events : list Event) : Instance :=
  fold_left step events first_render.

End SessionsList.

(** ** src/components/SessionStats.tsx *)
Module SessionStats.

(** *** What the database and the engine contribute *)

Definition dec (n : Z) : string := NilZero.string_of_int (Z.to_int n).

(** [%02d] *)
Definition pad2 (n : Z) : string :=
  ((if (n <? 10)%Z then "0" else "") ++ dec n)%string.

(** The fraction of a second, [f] milliseconds, without trailing zeros. *)
Definition fraction (f : Z) : string :=
  if f =? 0 then ""
  else if f mod 100 =? 0 then ("." ++ dec (f / 100)%Z)%string
  else if f mod 10 =? 0 then ("." ++ pad2 (f / 10)%Z)%string
  else ("." ++ (if (f <? 100)%Z then "0" else "") ++ pad2 f)%string.

(** How the database prints an interval of [ms] milliseconds that is the
    difference of two instants (the default interval style): whole days,
    then the time of day, each with the sign of the interval; the time is
    left out when it is zero and there are days. *)
Definition interval_out (ms : Z) : string :=
  let a := Z.abs ms in
  let days := a / 86400000 in
  let t := a mod 86400000 in
  let sign := if ms <? 0 then "-" else "" in
  let time :=
    (sign ++ pad2 (t / 3600000)%Z ++ ":" ++ pad2 (t / 60000 mod 60)%Z ++ ":"
     ++ pad2 (t / 1000 mod 60)%Z ++ fraction (t mod 1000)%Z)%string in
  let day :=
    (sign ++ dec days
     ++ (if ((days =? 1) && negb (ms <? 0))%Z then " day" else " days"))%string in
  if days =? 0 then time
  else if t =? 0 then day
  else (day ++ " " ++ time)%string.

(** [session.duration] as the client receives it. *)
Definition duration_text (r : sessions.Row) : option string :=
  option_map interval_out (sessions.duration r).

Definition is_digit (c : ascii) : bool :=
  (48 <=? nat_of_ascii c)%nat && (nat_of_ascii c <=? 57)%nat.

Fixpoint all_digits (s : string) : bool :=
  match s with
  | EmptyString => true
  | String c s' => is_digit c && all_digits s'
  end.

Definition digits (s : string) : bool :=
  negb (String.eqb s "") && all_digits s.

(** The pieces of [s] between occurrences of [sep]. *)
Fixpoint split (sep : ascii) (s : string) : list string :=
  match s with
  | EmptyString => [EmptyString]
  | String c s' =>
      if Ascii.eqb c sep then EmptyString :: split sep s'
      else match split sep s' with
           | [] => [String c EmptyString]
           | piece :: pieces => String c piece :: pieces
           end
  end.

(** A bare time of day, [h:m:s] with an optional fraction of a second. *)
Definition is_time_of_day (s : string) : bool :=
  match split ":" s with
  | [h; m; sec] =>
      digits h && digits m
      && match split "." sec with
         | [whole] => digits whole
         | [whole; frac] => digits whole && digits frac
         | _ => false
         end
  | _ => false
  end.

(** [Date.parse].  A string that is a bare time of day names no calendar
    date and is not a date-time string: the engines answer NaN.  Every other
    string is the engine's to read, as a time value: a whole number of
    milliseconds within the range of dates, or NaN. *)
Definition Date_parse (env : Env) (s : string) : number :=
  if is_time_of_day s then NaN
  else match TimeClip (engine_Date_parse env s) with
       | Some t => Num (inject_Z t)
       | None => NaN
       end.

(** A number in the body of an insert: [JSON.stringify] writes NaN and the
    infinities as [null]. *)
Definition to_column (x : number) : option Q :=
  match x with Num q => Some q | _ => None end.

(** A number column in arithmetic: the numeral is read as a number, and
    [null * 60] is [0]. *)
Definition of_column (v : option Q) : number :=
  match v with None => Num 0 | Some q => parseFloat (Num q) end.

(** *** calculateAndStoreStats *)

Definition is_sender (who : string) (m : messages.Row) : bool :=
  String.eqb (messages.sender m) who.

(** [session?.duration ? parseFloat((Date.parse(session.duration) /
    (1000 * 60)).toFixed(2)) : 0]; a string is truthy unless empty. *)
Definition averageResponseTime (env : Env) (duration : option string)
  : number :=
  match duration with
  | None => Num 0
  | Some d =>
      if String.eqb d "" then Num 0
      else parseFloat (toFixed 2 (divide (Date_parse env d) (1000 * 60)))
  end.

(** [session?.duration || '00:00:00'] *)
Definition sessionDuration (duration : option string) : string :=
  match duration with
  | None => "00:00:00"
  | Some d => if String.eqb d "" then "00:00:00" else d
  end.

(** The row the function builds from what the two selects return. *)
Definition stats_row (env : Env) (sessionId : string)
    (msgs : list messages.Row) (session : sessions.Row) : session_stats.Row :=
  {| session_stats.session_id := sessionId;
     session_stats.totalmessages := List.length msgs;
     session_stats.usermessages := List.length (filter (is_sender "user") msgs);
     session_stats.avatarmessages := List.length (filter (is_sender "avatar") msgs);
     session_stats.averageresponsetime :=
       to_column (averageResponseTime env (duration_text session));
     session_stats.sessionduration := sessionDuration (duration_text session) |}.

(** An error of either select or of the insert is thrown into the [catch]
    block, which logs it. *)
Definition calculateAndStoreStats (env : Env) (sessionId : string)
    (db : Database) : Database :=
  match supabase.select_messages_of env sessionId db with
  | None => db
  | Some msgs =>
      match supabase.select_single env sessionId db with
      | None => db
      | Some session =>
          fst (supabase.insert_into_session_stats env
                 (stats_row env sessionId msgs session) db)
      end
  end.

(** [updateAllSessions]: the statistics of every completed session. *)
Definition updateAllSessions (env : Env) (db : Database) : Database :=
  if refused env select_completed_sessions then db
  else
    fold_left
      (fun db session =>
         calculateAndStoreStats env (sessions.session_id session) db)
      (filter (fun r => sessions.Status_eqb (sessions.status r)
                                             sessions.completed)
              (tbl_sessions db))
      db.

(** *** The panel *)

(** [(stats.averageresponsetime * 60).toFixed(1)], shown with the unit
    [s]. *)
Definition responseTimeInSeconds (stats : session_stats.Row) : number :=
  toFixed 1 (times (of_column (session_stats.averageresponsetime stats)) 60).

End SessionStats.

(** ** Sample data *)
Module Sample.

(** A session row started at instant 5. *)
Definition session (sid : string) (st : sessions.Status)
    (ended : option timestamp) (archived : bool) (deleted : option timestamp)
  : sessions.Row :=
  {| sessions.id := sid; sessions.session_id := sid;
     sessions.start_time := 5; sessions.end_time := ended;
     sessions.status := st; sessions.created_at := 5;
     sessions.heygen_status := None; sessions.last_sync_at := None;
     sessions.is_relevant := false; sessions.is_archived := archived;
     sessions.deleted_at := deleted |}.

Definition database (l : list sessions.Row) (m : list messages.Row)
  : Database :=
  {| tbl_sessions := l; tbl_messages := m; tbl_session_stats := [] |}.

(** A configured key, a provider that answers each request with [answer],
    a transcript [transcript], a database that accepts every statement, and
    a clock that reads 100. *)
Definition env (answer : Request -> FetchResult)
    (transcript : list HeyGenMessage) : Env :=
  {| VITE_HEYGEN_API_KEY := Some "key";
     fetch := answer;
     fetchHeyGenMessages := fun _ => Fulfilled transcript;
     refused := fun _ => false;
     clock := fun _ => 100;
     engine_Date_parse := fun _ => NaN |}.

Definition offline : Request -> FetchResult := fun _ => NetworkError.

(** An OK response whose body cannot be read as JSON. *)
Definition unreadable : Request -> FetchResult :=
  fun _ => Response true Rejected.

(** The status query finds the session running; the answer to the stop
    request is OK with a body that cannot be read as JSON. *)
Definition running_then_unreadable : Request -> FetchResult :=
  fun request =>
    match request with
    | streaming_get _ =>
        Response true
          (Fulfilled (JObject {| o_status := Some "active";
                                 o_message := None; o_sessions := None |}))
    | _ => Response true Rejected
    end.

(** The provider lists the sessions [l] as active. *)
Definition listing (l : list string) : Request -> FetchResult :=
  fun request =>
    match request with
    | streaming_list =>
        Response true
          (Fulfilled
             (heygen.sessions_object
                (map (fun sid => {| hs_session_id := sid;
                                    hs_status := "connected";
                                    hs_created_at := 5 |}) l)))
    | _ => NetworkError
    end.

(** The provider reports every session completed. *)
Definition all_completed : Request -> FetchResult :=
  fun _ =>
    Response true
      (Fulfilled (JObject {| o_status := Some "completed";
                             o_message := None; o_sessions := None |})).

Definition hello : messages.Row :=
  {| messages.session_id := "b"; messages.sender := "user";
     messages.message := "hello"; messages.timestamp := 6 |}.

(** A transcript of two messages, the first of which [hello] stores. *)
Definition transcript : list HeyGenMessage :=
  [ {| role := "user"; content := "hello"; hm_timestamp := Num 6 |};
    {| role := "assistant"; content := "hi"; hm_timestamp := Num 7 |} ].

(** Two live sessions, ["a"] and ["b"]; ["b"] has one message. *)
Definition two_live : Database :=
  database [session "a" sessions.active None false None;
            session "b" sessions.connected None false None]
           [hello].

(** One session that ended 330000 ms after it started. *)
Definition one_completed : Database :=
  database [session "a" sessions.completed (Some 330005) false None] [].

End Sample.

(** ** More of src/components/SessionsList.tsx: what a row looks like *)
Module SessionsListDisplay.

(** The status as the string the database holds. *)
Definition status_text (s : sessions.Status) : string :=
  match s with
  | sessions.active => "active"
  | sessions.connecting => "connecting"
  | sessions.connected => "connected"
  | sessions.completed => "completed"
  | sessions.error => "error"
  end.

Definition STATUS_TRANSLATIONS (s : sessions.Status) : string :=
  match s with
  | sessions.active => "Actief"
  | sessions.connecting => "Verbinden"
  | sessions.connected => "Verbonden"
  | sessions.completed => "Voltooid"
  | sessions.error => "Fout"
  end.

Definition getStatusColor (s : sessions.Status) : string :=
  match s with
  | sessions.active | sessions.connected => "bg-green-500"
  | sessions.completed => "bg-blue-500"
  | sessions.connecting => "bg-yellow-500"
  | sessions.error => "bg-red-500"
  end.

(** [session.status === session.heygen_status || !session.heygen_status]:
    null and the empty string are falsy. *)
Definition getStatusDisplay (session : sessions.Row) : string :=
  let statusTranslation := STATUS_TRANSLATIONS (sessions.status session) in
  match sessions.heygen_status session with
  | None => statusTranslation
  | Some h =>
      if String.eqb (status_text (sessions.status session)) h
         || String.eqb h ""
      then statusTranslation
      else (statusTranslation ++ " (HeyGen: " ++ h ++ ")")%string
  end.

(** The stop button is rendered for a row that is not in the trash, has
    status 'active' and whose [heygen_status] is not 'completed'. *)
Definition shows_stop_button (session : sessions.Row) : bool :=
  SessionsList.is_null (sessions.deleted_at session)
  && sessions.Status_eqb (sessions.status session) sessions.active
  && negb (heygen.is_string "completed" (sessions.heygen_status session)).

End SessionsListDisplay.

(** ** supabase/migrations: the trash cleanup

    The body of [cleanup_deleted_sessions], as it runs for a role that
    row-level security lets delete from [sessions]:
    [DELETE FROM sessions WHERE deleted_at IS NOT NULL AND deleted_at <
    NOW() - INTERVAL '30 days'].  The database keeps time in UTC, where
    thirty days are 30 * 86400000 ms. *)
Module trash.

Definition THIRTY_DAYS : Z := 30 * 86400000.

(** The WHERE clause. *)
Definition expired (now : timestamp) (r : sessions.Row) : bool :=
  match sessions.deleted_at r with
  | Some d => d <? now - THIRTY_DAYS
  | None => false
  end.

(** A row of [messages] refers to the session of [r]
    ([session_id text REFERENCES sessions(session_id)]). *)
Definition referenced (db : Database) (r : sessions.Row) : bool :=
  existsb (supabase.of_session (sessions.session_id r)) (tbl_messages db).

(** The DELETE: [None] when it would take away a session that messages
    still refer to (the reference has no ON DELETE action, so the statement
    raises and nothing is deleted). *)
Definition cleanup_deleted_sessions (now : timestamp) (db : Database)
  : option Database :=
  if existsb (fun r => expired now r && referenced db r) (tbl_sessions db)
  then None
  else Some (supabase.set_sessions
               (filter (fun r => negb (expired now r)) (tbl_sessions db)) db).

End trash.

(** ** src/components/SessionDetails.tsx *)
Module SessionDetails.

(** [.order(column, { ascending: true })] and [Array.prototype.sort] with
    the comparator [a - b] on a key: a stable sort, elements with equal keys
    keep their order. *)
Fixpoint insert_by {A : Type} (key : A -> Z) (x : A) (l : list A) : list A :=
  match l with
  | [] => [x]
  | y :: l' => if key x <=? key y then x :: l else y :: insert_by key x l'
  end.

Definition sort_by {A : Type} (key : A -> Z) (l : list A) : list A :=
  fold_right (insert_by key) [] l.

(** What [fetchMessages] leaves in the component: the list it passed to
    [setMessages], if it got that far, and whether its [catch] block reported
    an error.  The statistics it computes next are texts formatted by the
    date library and the locale; of them only this matters here: they are
    read off [messagesData[0]], which is undefined for an empty list, and
    reading [created_at] of it throws. *)
Record Fetched : Type := {
  shown : option (list messages.Row);
  error : bool
}.

Definition fetchMessages (sessionId : string) (env : Env) (db : Database)
  : Fetched :=
  if String.eqb sessionId "" then {| shown := None; error := false |}
  else
    match supabase.select_single env sessionId db with
    | None => {| shown := None; error := true |}
    | Some _ =>
        match supabase.select_messages_of env sessionId db with
        | None => {| shown := None; error := true |}
        | Some rows =>
            let messagesData := sort_by messages.timestamp rows in
            match messagesData with
            | [] => {| shown := Some []; error := true |}
            | _ :: _ => {| shown := Some messagesData; error := false |}
            end
        end
    end.

(** [refreshMessages]: the guard [!sessionId || isRefreshing], then
    [syncHeyGenMessages], then [fetchMessages].  [None] when it returned at
    the guard. *)
Definition refreshMessages (isRefreshing : bool) (sessionId : string)
    (env : Env) (db : Database) : Database * option Fetched :=
  if String.eqb sessionId "" || isRefreshing then (db, None)
  else
    let db' := fst (heygen.syncHeyGenMessages env sessionId db) in
    (db', Some (fetchMessages sessionId env db')).

(** *** The change feed *)

(** [Message], as the change feed delivers it. *)
Record Message : Type := {
  id : string;
  session_id : string;
  sender : string;
  message : string;
  timestamp : Z;
  created_at : Z
}.

(** [payload.eventType] with [payload.new] or [payload.old]. *)
Inductive Payload : Type :=
| INSERT (new : Message)
| UPDATE (new : Message)
| DELETE (old : Message).

Record State : Type := {
  messages : list Message;
  newMessageCount : nat
}.

Definition has_id (i : string) (msg : Message) : bool := String.eqb (id msg) i.

(** The callback of the subscription, for the session the component shows;
    [isAtBottom] is what it reads off the scroll position. *)
Definition on_change (sessionId : string) (isAtBottom : bool) (st : State)
    (payload : Payload) : State :=
  match payload with
  | INSERT newMessage =>
      if negb (String.eqb (session_id newMessage) sessionId)
         || existsb (has_id (id newMessage)) (messages st)
      then st
      else {| messages := sort_by timestamp (messages st ++ [newMessage]);
              newMessageCount :=
                if isAtBottom then newMessageCount st
                else S (newMessageCount st) |}
  | DELETE deletedMessage =>
      if String.eqb (session_id deletedMessage) sessionId
      then {| messages :=
                filter (fun msg => negb (has_id (id deletedMessage) msg))
                       (messages st);
              newMessageCount := newMessageCount st |}
      else st
  | UPDATE updatedMessage =>
      if String.eqb (session_id updatedMessage) sessionId
      then {| messages :=
                sort_by timestamp
                  (map (fun msg => if has_id (id updatedMessage) msg
                                   then updatedMessage else msg)
                       (messages st));
              newMessageCount := newMessageCount st |}
      else st
  end.

(** The list is in the order of the timestamps. *)
Definition ordered (l : list Message) : Prop :=
  StronglySorted (fun a b => timestamp a <= timestamp b) l.

(** What the list of a component showing [sessionId] satisfies: only
    messages of the session, no id twice, in the order of the timestamps. *)
Definition well_formed (sessionId : string) (l : list Message) : Prop :=
  Forall (fun msg => session_id msg = sessionId) l
  /\ NoDup (map id l)
  /\ ordered l.

End SessionDetails.

(** ** More of src/components/SessionStats.tsx: the panel *)
Module SessionStatsPanel.

Import SessionStats.

(** [fetchStats]: [.from('session_stats').select('*').eq('session_id',
    sessionId).single()], an error unless exactly one row matches; on an
    error the panel keeps no statistics and shows "Geen statistieken
    beschikbaar".  [answered] is whether the database answers the select. *)
Definition fetchStats (answered : bool) (sessionId : string) (db : Database)
  : option session_stats.Row :=
  if String.eqb sessionId "" then None
  else if negb answered then None
  else match filter (fun r => String.eqb (session_stats.session_id r) sessionId)
                    (tbl_session_stats db) with
       | [r] => Some r
       | _ => None
       end.

(** *** parseInt *)

Definition is_space (c : ascii) : bool :=
  let n := nat_of_ascii c in
  ((9 <=? n)%nat && (n <=? 13)%nat) || (n =? 32)%nat.

Fixpoint skip_spaces (s : string) : string :=
  match s with
  | String c s' => if is_space c then skip_spaces s' else s
  | EmptyString => s
  end.

(** The value of a character as a digit in [radix], if it is one. *)
Definition digit_value (radix : Z) (c : ascii) : option Z :=
  let n := Z.of_nat (nat_of_ascii c) in
  let v := if (48 <=? n) && (n <=? 57) then Some (n - 48)
           else if (97 <=? n) && (n <=? 122) then Some (n - 87)
           else if (65 <=? n) && (n <=? 90) then Some (n - 55)
           else None in
  match v with
  | Some d => if d <? radix then Some d else None
  | None => None
  end.

(** The longest prefix of digits, read in [radix]; [acc] is what has been
    read so far, [None] when nothing has. *)
Fixpoint read_digits (radix : Z) (acc : option Z) (s : string) : option Z :=
  match s with
  | String c s' =>
      match digit_value radix c with
      | Some d =>
          read_digits radix
            (Some (radix * match acc with Some a => a | None => 0 end + d)) s'
      | None => acc
      end
  | EmptyString => acc
  end.

(** [parseInt(s)] without a radix: leading white space, a sign, the prefix
    [0x] or [0X] for hexadecimal, then the longest prefix of digits, as the
    number nearest to the whole number they write; NaN when there is no
    digit. *)
Definition parseInt (s : string) : number :=
  let s := skip_spaces s in
  let '(negative, s) :=
    match s with
    | String "-" s' => (true, s')
    | String "+" s' => (false, s')
    | _ => (false, s)
    end in
  let read :=
    match s with
    | String "0" (String "x" s') | String "0" (String "X" s') =>
        read_digits 16 None s'
    | _ => read_digits 10 None s
    end in
  match read with
  | None => NaN
  | Some n => double (inject_Z (if negative then - n else n))
  end.

(** [parseInt] of an element a destructuring may have left undefined. *)
Definition parseInt_of (v : option string) : number :=
  match v with
  | Some s => parseInt s
  | None => NaN
  end.

(** [(hours * 60 + minutes + seconds / 60).toFixed(1)], shown with the unit
    [m]. *)
Definition minutes_shown (hours minutes seconds : number) : number :=
  toFixed 1 (plus (plus (times hours 60) minutes) (divide seconds 60)).

(** [durationInMinutes]: [None] when the render throws, which it does when
    the text has fewer than three pieces between colons ([seconds] is then
    undefined and [seconds.split] is a type error). *)
Definition durationInMinutes (sessionduration : string) : option number :=
  let pieces := split ":" sessionduration in
  let hours := nth_error pieces 0 in
  let minutes := nth_error pieces 1 in
  match nth_error pieces 2 with
  | None => None
  | Some seconds =>
      Some (minutes_shown (parseInt_of hours) (parseInt_of minutes)
              (parseInt (hd "" (split "." seconds))))
  end.

End SessionStatsPanel.

(** ** More sample data *)
Module SampleMore.

(** No key is configured. *)
Definition unconfigured : Env :=
  {| VITE_HEYGEN_API_KEY := None;
     fetch := Sample.offline;
     fetchHeyGenMessages := fun _ => Fulfilled Sample.transcript;
     refused := fun _ => false;
     clock := fun _ => 100;
     engine_Date_parse := fun _ => NaN |}.

(** A transcript whose second message carries no timestamp. *)
Definition undated : list HeyGenMessage :=
  [ {| role := "user"; content := "hello"; hm_timestamp := Num 6 |};
    {| role := "assistant"; content := "hi"; hm_timestamp := NaN |};
    {| role := "user"; content := "bye"; hm_timestamp := Num 8 |} ].

(** The database answers no select on messages and accepts the inserts. *)
Definition no_select (transcript : list HeyGenMessage) : Env :=
  {| VITE_HEYGEN_API_KEY := Some "key";
     fetch := Sample.offline;
     fetchHeyGenMessages := fun _ => Fulfilled transcript;
     refused := fun statement =>
                  match statement with
                  | select_messages _ => true
                  | _ => false
                  end;
     clock := fun _ => 100;
     engine_Date_parse := fun _ => NaN |}.

(** The transcript cannot be fetched. *)
Definition no_transcript : Env :=
  {| VITE_HEYGEN_API_KEY := Some "key";
     fetch := Sample.offline;
     fetchHeyGenMessages := fun _ => Rejected;
     refused := fun _ => false;
     clock := fun _ => 100;
     engine_Date_parse := fun _ => NaN |}.

(** The status query is answered with a non-OK response. *)
Definition status_fails : Request -> FetchResult :=
  fun request =>
    match request with
    | streaming_get _ => Response false Rejected
    | _ => NetworkError
    end.

(** A message of session ["b"] as the change feed delivers it. *)
Definition feed_message (i : string) (t : Z) : SessionDetails.Message :=
  {| SessionDetails.id := i; SessionDetails.session_id := "b";
     SessionDetails.sender := "user"; SessionDetails.message := "hello";
     SessionDetails.timestamp := t; SessionDetails.created_at := t |}.

Definition feed_state : SessionDetails.State :=
  {| SessionDetails.messages := [feed_message "m1" 6; feed_message "m2" 8];
     SessionDetails.newMessageCount := 0 |}.

End SampleMore.

(** * Properties *)

(** ** The database client *)
Section Client.

Import supabase.

Lemma is_session_eq (sid : string) (r : sessions.Row) :
  is_session sid r = true <-> sessions.session_id r = sid.
Proof. unfold is_session. apply String.eqb_eq. Qed.

Lemma of_session_eq (sid : string) (m : messages.Row) :
  of_session sid m = true <-> messages.session_id m = sid.
Proof. unfold of_session. apply String.eqb_eq. Qed.

(** An update leaves the other two tables alone and rewrites [sessions]
    row by row. *)
Lemma update_sessions_tables env sid u db :
  let res := update_sessions env sid u db in
  tbl_messages (fst res) = tbl_messages db
  /\ tbl_session_stats (fst res) = tbl_session_stats db
  /\ tbl_sessions (fst res)
     = map (fun r => if is_session sid r && negb (snd res)
                     then sessions.apply u r else r)
           (tbl_sessions db).
Proof.
  unfold update_sessions. destruct (refused env (update_session sid)); cbn.
  - repeat split. rewrite <- (map_id (tbl_sessions db)) at 1.
    apply map_ext. intros r. now rewrite andb_false_r.
  - repeat split. apply map_ext. intros r. now rewrite andb_true_r.
Qed.

Lemma update_sessions_refused env sid u db :
  snd (update_sessions env sid u db) = true ->
  fst (update_sessions env sid u db) = db.
Proof.
  unfold update_sessions. now destruct (refused env (update_session sid)).
Qed.

(** An update never changes the key it selects on. *)
Lemma apply_session_id u r :
  sessions.session_id (sessions.apply u r) = sessions.session_id r.
Proof. reflexivity. Qed.

Lemma apply_session_id_is_session sid u r :
  is_session sid (sessions.apply u r) = is_session sid r.
Proof. reflexivity. Qed.

Lemma database_eq (a b : Database) :
  tbl_sessions a = tbl_sessions b ->
  tbl_messages a = tbl_messages b ->
  tbl_session_stats a = tbl_session_stats b ->
  a = b.
Proof. destruct a, b; cbn; congruence. Qed.

End Client.

(** ** The list of sessions and its three views *)
Section Views.

Import SessionsList.

Lemma insert_desc_In r x l : In x (insert_desc r l) <-> x = r \/ In x l.
Proof.
  induction l as [|y l IH]; cbn.
  - intuition congruence.
  - destruct (sessions.start_time y <? sessions.start_time r); cbn.
    + intuition congruence.
    + rewrite IH. intuition congruence.
Qed.

(** Ordering the rows keeps exactly the rows. *)
Lemma order_by_start_time_desc_In x l :
  In x (order_by_start_time_desc l) <-> In x l.
Proof.
  induction l as [|y l IH]; cbn; [tauto|].
  rewrite insert_desc_In, IH. intuition congruence.
Qed.

Lemma listed_iff filter startDate endDate viewMode env db r :
  refused env select_sessions_list = false ->
  listed filter startDate endDate viewMode env db r
  <-> In r (tbl_sessions db)
      /\ in_range_and_filter filter startDate endDate r = true
      /\ in_view viewMode r = true.
Proof.
  intros Hok. unfold listed, fetchSessions. rewrite Hok. split.
  - intros (rows & [= <-] & Hin).
    apply order_by_start_time_desc_In, filter_In in Hin.
    unfold matches_query in Hin. rewrite andb_true_iff in Hin. tauto.
  - intros (Hin & Hr & Hv). eexists. split; [reflexivity|].
    apply order_by_start_time_desc_In, filter_In.
    unfold matches_query. rewrite Hr, Hv. auto.
Qed.

Lemma in_view_iff v r : in_view v r = true <-> v = view_of r.
Proof.
  unfold in_view, view_of, is_null.
  destruct v, (sessions.is_archived r), (sessions.deleted_at r); cbn;
    split; congruence.
Qed.

(** C9.  Every session row satisfies exactly one of the three view
    conditions (Active: not archived and not deleted; Archived: archived
    and not deleted; Trash: deleted); so, for a fixed status filter and date
    range, every stored session inside them is listed by [fetchSessions]
    under exactly one view mode. *)
Theorem view_modes_partition (r : sessions.Row) :
  (exists! v, in_view v r = true)
  /\ forall filter startDate endDate env db,
       refused env select_sessions_list = false ->
       In r (tbl_sessions db) ->
       in_range_and_filter filter startDate endDate r = true ->
       exists! v, listed filter startDate endDate v env db r.
Proof.
  split.
  - exists (view_of r). split.
    + now apply in_view_iff.
    + intros v Hv. symmetry. now apply in_view_iff.
  - intros filter startDate endDate env db Hok Hin Hr.
    exists (view_of r). split.
    + apply listed_iff; auto. repeat split; auto. now apply in_view_iff.
    + intros v Hv. apply listed_iff in Hv; auto.
      symmetry. apply in_view_iff. tauto.
Qed.

End Views.

(** ** The lifecycle flags *)
Section Flags.

Import supabase SessionsList.

Lemma Forall2_map_same {A : Type} (P : A -> A -> Prop) (f : A -> A) l :
  (forall x, P x (f x)) -> Forall2 P l (map f l).
Proof. intros H. induction l; cbn; constructor; auto. Qed.

Lemma unchanged_refl c r : sessions.unchanged_except c r r.
Proof. intros c' _. destruct c'; reflexivity. Qed.

Lemma update_flag_changes_at_most c updating env sid u db :
  (forall r, sessions.unchanged_except c r (sessions.apply u r)) ->
  changes_at_most c sid db (fst (update_flag updating env sid u db)).
Proof.
  intros Hu. unfold update_flag.
  destruct (is_updating updating sid).
  - cbn. repeat split. rewrite <- (map_id (tbl_sessions db)) at 2.
    apply Forall2_map_same. intros r.
    destruct (is_session sid r); [apply unchanged_refl | reflexivity].
  - pose proof (update_sessions_tables env sid u db) as (Hm & Hs & Hr).
    destruct (update_sessions env sid u db) as [db' err]. cbn in *.
    repeat split; auto. rewrite Hr. apply Forall2_map_same. intros r.
    destruct (is_session sid r); cbn; [|reflexivity].
    destruct err; cbn; [apply unchanged_refl | apply Hu].
Qed.

(** C5.  Marking or unmarking as relevant, archiving or dearchiving, moving
    to trash and restoring from trash each leave the other tables as they
    are, leave every row of another session as it is, and in a row of the
    targeted session leave every column but their own ([is_relevant],
    [is_archived], [deleted_at]) as it is. *)
Theorem lifecycle_flags_frame updating env sessionId currentValue db :
  changes_at_most sessions.c_is_relevant sessionId db
    (fst (handleToggleRelevant updating env sessionId currentValue db))
  /\ changes_at_most sessions.c_is_archived sessionId db
       (fst (handleToggleArchived updating env sessionId currentValue db))
  /\ changes_at_most sessions.c_deleted_at sessionId db
       (fst (handleMoveToTrash updating env sessionId db))
  /\ changes_at_most sessions.c_deleted_at sessionId db
       (fst (handleRestoreFromTrash updating env sessionId db)).
Proof.
  split; [|split; [|split]];
    apply update_flag_changes_at_most; intros r c' Hc';
    destruct c'; try reflexivity; congruence.
Qed.

(** What a flag handler that ran to the end of its [try] block did. *)
Lemma update_flag_ran_through updating env sid u db :
  snd (update_flag updating env sid u db) = ran_through ->
  fst (update_flag updating env sid u db)
  = set_sessions
      (map (fun r => if is_session sid r then sessions.apply u r else r)
           (tbl_sessions db)) db.
Proof.
  unfold update_flag, update_sessions.
  destruct (is_updating updating sid); [discriminate|].
  destruct (refused env (update_session sid)); [discriminate|reflexivity].
Qed.

Lemma restore_after_trash now r :
  sessions.deleted_at r = None ->
  sessions.apply
    {| sessions.u_end_time := None; sessions.u_status := None;
       sessions.u_heygen_status := None; sessions.u_last_sync_at := None;
       sessions.u_is_relevant := None; sessions.u_is_archived := None;
       sessions.u_deleted_at := Some None |}
    (sessions.apply
       {| sessions.u_end_time := None; sessions.u_status := None;
          sessions.u_heygen_status := None; sessions.u_last_sync_at := None;
          sessions.u_is_relevant := None; sessions.u_is_archived := None;
          sessions.u_deleted_at := Some (Some now) |} r)
  = r.
Proof. destruct r; cbn. now intros ->. Qed.

(** C4, amended.  When moving a session to trash runs through, every row of
    the session has a non-null [deleted_at] (the time of the move); when
    restoring it runs through, every row of the session has [deleted_at]
    null; and for a session that is not in the trash beforehand, moving it to
    trash and then restoring it gives back the database as it was, hence the
    record as it was in every column. *)
Theorem trash_then_restore updating1 updating2 env1 env2 sessionId db :
  let trashed := handleMoveToTrash updating1 env1 sessionId db in
  let restored :=
    handleRestoreFromTrash updating2 env2 sessionId (fst trashed) in
  snd trashed = ran_through ->
  snd restored = ran_through ->
  (forall r, In r (tbl_sessions (fst trashed)) ->
             sessions.session_id r = sessionId ->
             sessions.deleted_at r = Some (clock env1 sessionId))
  /\ (forall r, In r (tbl_sessions (fst restored)) ->
                sessions.session_id r = sessionId ->
                sessions.deleted_at r = None)
  /\ ((forall r, In r (tbl_sessions db) ->
                 sessions.session_id r = sessionId ->
                 sessions.deleted_at r = None) ->
      fst restored = db).
Proof.
  intros trashed restored Ht Hr.
  unfold restored, handleRestoreFromTrash in *.
  rewrite (update_flag_ran_through _ _ _ _ _ Hr). clear Hr restored.
  unfold trashed, handleMoveToTrash in *.
  rewrite (update_flag_ran_through _ _ _ _ _ Ht). clear Ht trashed.
  cbn [tbl_sessions set_sessions]. split; [|split].
  - intros r Hin Hsid. apply in_map_iff in Hin as (r0 & <- & _).
    destruct (is_session sessionId r0) eqn:E; [reflexivity|].
    cbn in Hsid. apply is_session_eq in Hsid. congruence.
  - intros r Hin Hsid. apply in_map_iff in Hin as (r1 & <- & _).
    destruct (is_session sessionId r1) eqn:E; [reflexivity|].
    apply is_session_eq in Hsid. congruence.
  - intros Hnull. apply database_eq; cbn; auto.
    rewrite map_map. rewrite <- (map_id (tbl_sessions db)) at 2.
    apply map_ext_in. intros r Hin.
    destruct (is_session sessionId r) eqn:E.
    + rewrite apply_session_id_is_session, E.
      apply restore_after_trash. apply Hnull; auto. now apply is_session_eq.
    + now rewrite E.
Qed.

End Flags.

(** ** The provider client *)
Section Provider.

Import supabase heygen SessionsList.

(** Four of the six functions settle to a value whatever the provider and
    the database do. *)
Lemma fetchHeyGenSessions_fulfils env :
  exists data, snd (fetchHeyGenSessions env) = Fulfilled data.
Proof.
  unfold fetchHeyGenSessions.
  destruct (checkHeyGenApiKey env); cbn; [|eauto].
  destruct (fetch env streaming_list) as [|[] [data|]]; cbn; eauto.
Qed.

Lemma getAllActiveSessions_fulfils env :
  exists l, snd (getAllActiveSessions env) = Fulfilled l.
Proof.
  unfold getAllActiveSessions.
  destruct (checkHeyGenApiKey env); cbn; [|eauto].
  destruct (fetchHeyGenSessions env) as [asked [[|o]|]]; cbn; eauto.
  destruct (o_sessions o); eauto.
Qed.

Lemma syncHeyGenMessages_fulfils env sid db :
  snd (syncHeyGenMessages env sid db) = Fulfilled tt.
Proof.
  unfold syncHeyGenMessages. now destruct (fetchHeyGenMessages env sid).
Qed.

Lemma sendMessageToHeyGen_fulfils env sid message db :
  exists data,
    snd (snd (sendMessageToHeyGen env sid message db)) = Fulfilled data.
Proof.
  unfold sendMessageToHeyGen.
  destruct (checkHeyGenApiKey env); cbn; [|eauto].
  destruct (fetch env (streaming_chat sid message)) as [|[] [data|]];
    cbn; eauto.
Qed.

(** Without a configured key every function answers with its fallback and
    sends nothing. *)
Lemma missing_key_fallbacks env sid message db :
  checkHeyGenApiKey env = false ->
  fetchHeyGenSessions env = ([], Fulfilled (sessions_object []))
  /\ getHeyGenSessionStatus env sid
     = ([], Fulfilled (status_object "error" "HeyGen API key not configured"))
  /\ stopHeyGenSession env sid
     = ([], Fulfilled (status_object "error" "HeyGen API key not configured"))
  /\ sendMessageToHeyGen env sid message db
     = (db, ([], Fulfilled (status_object "error"
                                          "HeyGen API key not configured")))
  /\ getAllActiveSessions env = ([], Fulfilled []).
Proof.
  intros H.
  unfold fetchHeyGenSessions, getHeyGenSessionStatus, stopHeyGenSession,
    sendMessageToHeyGen, getAllActiveSessions.
  rewrite H. cbn. repeat split.
Qed.

(** [stopHeyGenSession] rejects exactly when it sends the stop request and
    the answer is OK with a body that cannot be read. *)
Lemma stopHeyGenSession_rejects env sid :
  snd (stopHeyGenSession env sid) = Rejected ->
  In (streaming_stop sid) (fst (stopHeyGenSession env sid))
  /\ fetch env (streaming_stop sid) = Response true Rejected.
Proof.
  unfold stopHeyGenSession, getHeyGenSessionStatus, error_branch.
  destruct (checkHeyGenApiKey env); cbn; [|discriminate].
  destruct (fetch env (streaming_get sid)) as [|[] [[|o]|]]; cbn;
    try discriminate;
    repeat match goal with
           | |- context [is_string ?s ?v] => destruct (is_string s v); cbn
           | |- context [message_or ?m ?f] => destruct (message_or m f); cbn
           end;
    try discriminate;
    destruct (fetch env (streaming_stop sid)) as [|[] [d|]]; cbn;
    try discriminate; auto.
Qed.

(** The other two reject exactly when the response is OK and its body
    cannot be read. *)
Lemma getHeyGenSessionStatus_rejects env sid :
  snd (getHeyGenSessionStatus env sid) = Rejected
  <-> checkHeyGenApiKey env = true
      /\ fetch env (streaming_get sid) = Response true Rejected.
Proof.
  unfold getHeyGenSessionStatus.
  destruct (checkHeyGenApiKey env); cbn; [|split; [|intros []]; discriminate].
  destruct (fetch env (streaming_get sid)) as [|[] [data|]]; cbn;
    split; try discriminate; try tauto; intros [_ H]; discriminate H.
Qed.

(** The requests [getHeyGenSessionStatus] sends. *)
Lemma getHeyGenSessionStatus_asks env sid :
  fst (getHeyGenSessionStatus env sid)
  = if checkHeyGenApiKey env then [streaming_get sid] else [].
Proof.
  unfold getHeyGenSessionStatus. now destruct (checkHeyGenApiKey env).
Qed.

(** C10 fails on the code.  With a configured key, when the provider answers
    the status query (or, for a running session, the stop request) with an OK
    response whose body cannot be read as JSON, [getHeyGenSessionStatus]
    (respectively [stopHeyGenSession]) returns a rejected promise instead of
    an object with status 'error'. *)
Theorem status_and_stop_propagate_unreadable_body :
  snd (getHeyGenSessionStatus (Sample.env Sample.unreadable []) "a")
  = Rejected
  /\ snd (stopHeyGenSession (Sample.env Sample.running_then_unreadable []) "a")
     = Rejected.
Proof. split; reflexivity. Qed.

(** Case analysis on what the provider and the database answer. *)
Ltac stop_cases :=
  repeat match goal with
         | |- context [fetch ?e ?r] =>
             destruct (fetch e r) as [|[] [[|?]|]]; cbn
         | |- context [is_string ?s ?v] => destruct (is_string s v); cbn
         | |- context [update_sessions ?e ?i ?u ?d] =>
             destruct (update_sessions e i u d); cbn
         | |- context [message_or ?m ?f] => destruct (message_or m f); cbn
         end.

(** C3.  [handleStopSession] sends the provider nothing, or the status query
    alone, or the status query followed by the stop request; with a
    configured key (and no stop under way) the status query comes first; it
    sends no stop request when the provider reports the session completed.
    The local update is issued whenever the handler passes its guard and
    [stopHeyGenSession] does not reject; when the database then accepts it,
    the handler reports no error.  And whenever the handler reports no
    error, every row of the session is the old row marked completed: status
    'completed', heygen_status 'completed', and [end_time] and
    [last_sync_at] set, the other rows being as they were. *)
Theorem stop_session stoppingSession env sessionId db :
  let sent := fst (handleStopSession stoppingSession env sessionId db) in
  let db' := fst (snd (handleStopSession stoppingSession env sessionId db)) in
  let outcome :=
    snd (snd (handleStopSession stoppingSession env sessionId db)) in
  let marked :=
    map (fun r => if is_session sessionId r
                  then sessions.apply (mark_completed (clock env sessionId)) r
                  else r)
        (tbl_sessions db) in
  (sent = [] \/ sent = [streaming_get sessionId]
   \/ sent = [streaming_get sessionId; streaming_stop sessionId])
  /\ (truthy stoppingSession = false -> checkHeyGenApiKey env = true ->
      exists rest, sent = streaming_get sessionId :: rest)
  /\ (reports_completed env sessionId ->
      ~ In (streaming_stop sessionId) sent)
  /\ (truthy stoppingSession = false ->
      snd (stopHeyGenSession env sessionId) <> Rejected ->
      refused env (update_session sessionId) = false ->
      outcome = ran_through /\ tbl_sessions db' = marked)
  /\ (outcome = ran_through ->
      tbl_sessions db' = marked
      /\ forall r, In r (tbl_sessions db') ->
                   sessions.session_id r = sessionId ->
                   sessions.status r = sessions.completed
                   /\ sessions.heygen_status r = Some "completed"
                   /\ sessions.end_time r <> None
                   /\ sessions.last_sync_at r <> None).
Proof.
  cbv zeta. split; [|split; [|split; [|split]]].
  - unfold handleStopSession, stopHeyGenSession, getHeyGenSessionStatus,
      error_branch.
    destruct (truthy stoppingSession); [cbn; auto|].
    destruct (checkHeyGenApiKey env); cbn; stop_cases; auto.
  - intros Hg Hk.
    unfold handleStopSession, stopHeyGenSession, getHeyGenSessionStatus,
      error_branch.
    rewrite Hg, Hk. cbn. stop_cases; eauto.
  - intros (o & Hf & Ho).
    unfold handleStopSession, stopHeyGenSession, getHeyGenSessionStatus.
    destruct (truthy stoppingSession); [cbn; tauto|].
    destruct (checkHeyGenApiKey env); cbn.
    + rewrite Hf. cbn. unfold is_string. rewrite Ho. cbn.
      destruct (update_sessions env sessionId _ db); cbn.
      intros [H|[]]. discriminate H.
    + destruct (update_sessions env sessionId _ db); cbn. tauto.
  - intros Hg Hstop Hacc. unfold handleStopSession. rewrite Hg.
    destruct (stopHeyGenSession env sessionId) as [sent [data|]];
      [|now destruct Hstop].
    unfold update_sessions. rewrite Hacc. cbn. split; reflexivity.
  - unfold handleStopSession.
    destruct (truthy stoppingSession); [cbn; discriminate|].
    destruct (stopHeyGenSession env sessionId) as [sent [data|]];
      [|cbn; discriminate].
    pose proof (update_sessions_tables env sessionId
                  (mark_completed (clock env sessionId)) db) as (_ & _ & Hr).
    destruct (update_sessions env sessionId _ db) as [db' [|]]; cbn in *;
      [discriminate|]. intros _.
    assert (Hmap : tbl_sessions db'
                   = map (fun r => if is_session sessionId r
                                   then sessions.apply
                                          (mark_completed (clock env sessionId)) r
                                   else r) (tbl_sessions db)).
    { rewrite Hr. apply map_ext. intros r. now rewrite andb_true_r. }
    split; [exact Hmap|].
    intros r Hin Hsid. rewrite Hmap in Hin.
    apply in_map_iff in Hin as (r0 & <- & _).
    destruct (is_session sessionId r0) eqn:E.
    + cbn. repeat split; discriminate.
    + apply is_session_eq in Hsid. congruence.
Qed.

End Provider.

(** ** Pulling messages *)
Section Sync.

Import supabase heygen.

Lemma set_messages_twice a b db :
  set_messages a (set_messages b db) = set_messages a db.
Proof. reflexivity. Qed.

Lemma set_messages_same db : set_messages (tbl_messages db) db = db.
Proof. now destruct db. Qed.

(** The loop appends the rows of the messages it gets through that pass the
    existence test and whose insert is accepted, in the order they were
    fetched. *)
Lemma sync_loop env sid existing fetched :
  forall db,
    sync_each env sid existing fetched db
    = set_messages
        (tbl_messages db
         ++ rows_of sid
              (filter
                 (fun m =>
                    negb (messageExists existing (content m))
                    && negb (refused env (insert_message sid (content m)))
                    && existsb (is_session sid) (tbl_sessions db))
                 (reached existing fetched)))
        db.
Proof.
  induction fetched as [|m fetched IH]; intros db.
  - cbn. rewrite app_nil_r. symmetry. apply set_messages_same.
  - cbn [sync_each reached]. unfold sync_one, to_row.
    destruct (messageExists existing (content m)) eqn:E.
    + rewrite IH. destruct (TimeClip (hm_timestamp m)); cbn [filter];
        rewrite E; reflexivity.
    + destruct (TimeClip (hm_timestamp m)) as [t|] eqn:Et.
      * rewrite IH. cbn [filter]. rewrite E. cbn [negb andb].
        unfold insert_into_messages.
        cbn [messages.session_id messages.message row_of].
        destruct (refused env (insert_message sid (content m))); cbn;
          [reflexivity|].
        destruct (existsb (is_session sid) (tbl_sessions db)) eqn:Es; cbn.
        -- rewrite Es, Et. cbn. unfold row_of.
           now rewrite <- app_assoc.
        -- rewrite Es. reflexivity.
      * cbn. rewrite app_nil_r. symmetry. apply set_messages_same.
Qed.

Lemma syncHeyGenMessages_appends env sid db :
  fst (syncHeyGenMessages env sid db)
  = set_messages (tbl_messages db ++ appended env sid db) db.
Proof.
  unfold syncHeyGenMessages, appended.
  destruct (fetchHeyGenMessages env sid) as [fetched|]; cbn.
  - apply sync_loop.
  - rewrite app_nil_r. symmetry. apply set_messages_same.
Qed.


(** A row is built for each message whose timestamp is an instant. *)
Lemma rows_of_spec sid l :
  Forall (fun m => TimeClip (hm_timestamp m) <> None) l ->
  Forall2 (fun m row =>
             messages.session_id row = sid
             /\ messages.sender row
                = (if String.eqb (role m) "user" then "user" else "avatar")
             /\ messages.message row = content m
             /\ TimeClip (hm_timestamp m) = Some (messages.timestamp row))
    l (rows_of sid l).
Proof.
  induction 1 as [|m l Hm Hl IH]; cbn; [constructor|].
  destruct (TimeClip (hm_timestamp m)) as [t|] eqn:Et; [|contradiction].
  constructor; [cbn; auto | exact IH].
Qed.

Lemma rows_of_In sid l row :
  In row (rows_of sid l) ->
  exists m t, In m l /\ TimeClip (hm_timestamp m) = Some t
              /\ row = row_of sid m t.
Proof.
  induction l as [|m l IH]; cbn; [intros []|].
  destruct (TimeClip (hm_timestamp m)) as [t|] eqn:Et.
  - intros [<- | H]; [exists m, t; auto|].
    destruct (IH H) as (m' & t' & Hin & Ht & ->). exists m', t'. auto.
  - intros H. destruct (IH H) as (m' & t' & Hin & Ht & ->).
    exists m', t'. auto.
Qed.

Lemma rows_of_intro sid l m t :
  In m l -> TimeClip (hm_timestamp m) = Some t ->
  In (row_of sid m t) (rows_of sid l).
Proof.
  induction l as [|x l IH]; cbn; [intros []|].
  intros [-> | Hin] Ht.
  - rewrite Ht. now left.
  - destruct (TimeClip (hm_timestamp x)); [right|]; now apply IH.
Qed.

(** Every appended row belongs to the session. *)
Lemma appended_of_session env sid db :
  filter (of_session sid) (appended env sid db) = appended env sid db.
Proof.
  apply forallb_filter_id. apply forallb_forall. intros row Hin.
  unfold appended in Hin.
  destruct (fetchHeyGenMessages env sid) as [fetched|]; [|destruct Hin].
  apply rows_of_In in Hin as (m & t & _ & _ & ->).
  unfold of_session. cbn. apply String.eqb_refl.
Qed.



(** The loop gets through the whole transcript when every message that has
    to be inserted carries an instant. *)
Lemma reached_all existing fetched :
  (forall m, In m fetched -> messageExists existing (content m) = false ->
             TimeClip (hm_timestamp m) <> None) ->
  reached existing fetched = fetched.
Proof.
  induction fetched as [|m fetched IH]; intros H; cbn; [reflexivity|].
  rewrite IH by (intros; apply H; auto; now right).
  destruct (messageExists existing (content m)) eqn:E; [reflexivity|].
  destruct (TimeClip (hm_timestamp m)) eqn:Et; [reflexivity|].
  now destruct (H m (or_introl eq_refl) E).
Qed.


End Sync.

(** ** The refresh reconciliation *)
Section Refresh.

Import supabase heygen SessionsList.

Lemma mark_completed_twice now r :
  sessions.apply (mark_completed now) (sessions.apply (mark_completed now) r)
  = sessions.apply (mark_completed now) r.
Proof. reflexivity. Qed.

Lemma rewrites_apply env hs s u r :
  rewrites env hs s (sessions.apply u r) = rewrites env hs s r.
Proof. reflexivity. Qed.

(** One callback, on the table of sessions. *)
Lemma reconcile_sessions env hs db s :
  tbl_sessions (reconcile env hs db s)
  = map (fun r => if rewrites env hs s r
                  then sessions.apply
                         (mark_completed (clock env (sessions.session_id r))) r
                  else r)
        (tbl_sessions db).
Proof.
  unfold reconcile, rewrites.
  destruct (isActiveInHeyGen hs (sessions.session_id s)); cbn [negb].
  - rewrite syncHeyGenMessages_appends. cbn.
    rewrite <- (map_id (tbl_sessions db)) at 1. apply map_ext. intros r.
    now rewrite andb_false_r.
  - unfold update_sessions.
    destruct (refused env (update_session (sessions.session_id s))); cbn.
    + rewrite <- (map_id (tbl_sessions db)) at 1. apply map_ext. intros r.
      now rewrite andb_false_r.
    + apply map_ext. intros r. rewrite !andb_true_r.
      destruct (is_session (sessions.session_id s) r) eqn:E; auto.
      apply is_session_eq in E. now rewrite E.
Qed.

(** All callbacks, on the table of sessions. *)
Lemma refresh_sessions env hs active :
  forall db,
    tbl_sessions (fold_left (reconcile env hs) active db)
    = map (fun r => if existsb (fun s => rewrites env hs s r) active
                    then sessions.apply
                           (mark_completed (clock env (sessions.session_id r)))
                           r
                    else r)
          (tbl_sessions db).
Proof.
  induction active as [|s active IH]; intros db; cbn.
  - symmetry. apply map_id.
  - rewrite IH, reconcile_sessions, map_map. apply map_ext. intros r.
    destruct (rewrites env hs s r) eqn:E; cbn.
    + assert (Hx : existsb (fun s0 => rewrites env hs s0
                      (sessions.apply
                         (mark_completed (clock env (sessions.session_id r))) r))
                     active
                   = existsb (fun s0 => rewrites env hs s0 r) active)
        by reflexivity.
      rewrite Hx. now destruct (existsb _ active).
    + reflexivity.
Qed.





Lemma Forall2_map_in {A : Type} (P : A -> A -> Prop) (f : A -> A) l :
  (forall x, In x l -> P x (f x)) -> Forall2 P l (map f l).
Proof.
  induction l as [|a l IH]; intros H; cbn; constructor.
  - apply H. now left.
  - apply IH. intros x Hx. apply H. now right.
Qed.


(** A run that passes the guard and whose select is answered runs the
    callback for every live session. *)
Lemma handleRefresh_runs env db hs :
  refused env select_live_sessions = false ->
  snd (getAllActiveSessions env) = Fulfilled hs ->
  handleRefresh false env db
  = (fold_left (reconcile env hs) (filter is_live (tbl_sessions db)) db,
     ran_through).
Proof.
  intros Hsel Hhs. unfold handleRefresh, select_live. rewrite Hsel, Hhs.
  now destruct (filter is_live (tbl_sessions db)).
Qed.



End Refresh.

(** ** Statistics *)
Section Statistics.

Import supabase SessionStats.

Lemma count_by_sender (l : list messages.Row) :
  (forall m, In m l ->
             messages.sender m = "user" \/ messages.sender m = "avatar") ->
  List.length l
  = (List.length (filter (is_sender "user") l)
     + List.length (filter (is_sender "avatar") l))%nat.
Proof.
  induction l as [|m l IH]; intros H; cbn; [reflexivity|].
  rewrite IH by (intros; apply H; now right).
  assert (E : is_sender "user" m = negb (is_sender "avatar" m)).
  { unfold is_sender. now destruct (H m (or_introl eq_refl)) as [-> | ->]. }
  rewrite E. destruct (is_sender "avatar" m); cbn; lia.
Qed.

(** When both selects are answered and the insert is accepted, one row is
    stored, the one [stats_row] builds. *)
Lemma calculateAndStoreStats_stores env sid db session :
  refused env (select_messages sid) = false ->
  select_single env sid db = Some session ->
  refused env (insert_session_stats sid) = false ->
  tbl_session_stats (calculateAndStoreStats env sid db)
  = tbl_session_stats db
    ++ [stats_row env sid (filter (of_session sid) (tbl_messages db)) session].
Proof.
  intros Hm Hs Hi. unfold calculateAndStoreStats, select_messages_of.
  rewrite Hm, Hs. unfold insert_into_session_stats. cbn. now rewrite Hi.
Qed.

(** C7.  The row [calculateAndStoreStats] stores for a session has
    [totalmessages] the number of the session's messages, [usermessages] the
    number of those with sender 'user' and [avatarmessages] the number with
    sender 'avatar'; when every sender is one of the two, [totalmessages] is
    the sum of the other two. *)
Theorem stats_counts env sessionId db session :
  refused env (select_messages sessionId) = false ->
  select_single env sessionId db = Some session ->
  refused env (insert_session_stats sessionId) = false ->
  let msgs := filter (of_session sessionId) (tbl_messages db) in
  exists row,
    tbl_session_stats (calculateAndStoreStats env sessionId db)
    = tbl_session_stats db ++ [row]
    /\ session_stats.session_id row = sessionId
    /\ session_stats.totalmessages row = List.length msgs
    /\ session_stats.usermessages row
       = List.length
           (filter (fun m => String.eqb (messages.sender m) "user") msgs)
    /\ session_stats.avatarmessages row
       = List.length
           (filter (fun m => String.eqb (messages.sender m) "avatar") msgs)
    /\ ((forall m, In m msgs ->
                   messages.sender m = "user" \/ messages.sender m = "avatar") ->
        session_stats.totalmessages row
        = (session_stats.usermessages row
           + session_stats.avatarmessages row)%nat).
Proof.
  intros Hm Hs Hi msgs.
  exists (stats_row env sessionId msgs session). split.
  - apply calculateAndStoreStats_stores; assumption.
  - cbn. repeat split. apply count_by_sender.
Qed.

Lemma time_of_day_not_empty d : is_time_of_day d = true -> d <> "".
Proof. intros H ->. discriminate H. Qed.

(** C6 fails on the code.  For a session whose duration reads as a time of
    day [h:m:s], [Date.parse] answers NaN, so the row
    [calculateAndStoreStats] stores has [averageresponsetime] null, not the
    duration in minutes, and the panel shows zero seconds. *)
Theorem duration_is_not_a_date env sessionId db session d :
  refused env (select_messages sessionId) = false ->
  select_single env sessionId db = Some session ->
  refused env (insert_session_stats sessionId) = false ->
  duration_text session = Some d ->
  is_time_of_day d = true ->
  exists row,
    tbl_session_stats (calculateAndStoreStats env sessionId db)
    = tbl_session_stats db ++ [row]
    /\ session_stats.sessionduration row = d
    /\ session_stats.averageresponsetime row = None
    /\ responseTimeInSeconds row = Num 0.
Proof.
  intros Hm Hs Hi Hd Ht.
  exists (stats_row env sessionId
            (filter (of_session sessionId) (tbl_messages db)) session).
  split.
  - apply calculateAndStoreStats_stores; assumption.
  - pose proof (time_of_day_not_empty d Ht) as Hne.
    apply String.eqb_neq in Hne.
    unfold stats_row, responseTimeInSeconds. cbn.
    rewrite Hd. cbn. unfold Date_parse. rewrite Hne, Ht. cbn.
    repeat split.
Qed.

End Statistics.

(** ** The refresh timer *)
Section Timer.

Import SessionsList.

Lemma handleRefresh_guard isRefreshing env db :
  snd (handleRefresh isRefreshing env db) = returned_at_guard
  <-> isRefreshing = true.
Proof.
  unfold handleRefresh. destruct isRefreshing; [tauto|].
  split; [|discriminate].
  destruct (supabase.select_live env db) as [[|s l]|]; cbn; try discriminate.
  destruct (snd (heygen.getAllActiveSessions env)); cbn; discriminate.
Qed.

(** An invocation starts a run exactly when [handleRefresh], with the state
    its closure captured, does not return at the guard. *)
Lemma step_starts c e env db :
  e <> refresh_settled ->
  running (step c e) = S (running c)
  <-> snd (handleRefresh (captured_isRefreshing e c) env db)
      <> returned_at_guard.
Proof.
  intros He. rewrite handleRefresh_guard.
  destruct e; try contradiction; cbn.
  - split; [discriminate|reflexivity].
  - destruct (isRefreshing c); cbn; split; intros; try congruence; lia.
Qed.

(** The button is guarded: while the state says a refresh is running, a
    click returns at the guard. *)
Lemma button_click_guarded c env db :
  isRefreshing c = true ->
  step c button_click = c
  /\ handleRefresh (captured_isRefreshing button_click c) env db
     = (db, returned_at_guard).
Proof. intros H. cbn. now rewrite H. Qed.

(** The timer calls back at the positive multiples of 10000 ms. *)
Lemma interval_fires_iff t :
  interval_fires t = true <-> exists k, 0 < k /\ t = k * 10000.
Proof.
  unfold interval_fires, REFRESH_INTERVAL_MS.
  rewrite andb_true_iff, Z.ltb_lt, Z.eqb_eq. split.
  - intros (Hpos & Hmod). exists (t / 10000). split.
    + apply Z.div_str_pos. split; [lia|].
      destruct (Z_lt_le_dec t 10000) as [Hlt|]; [|assumption].
      rewrite Z.mod_small in Hmod by lia. lia.
    + pose proof (Z.div_mod t 10000). lia.
  - intros (k & Hk & ->). split; [lia|]. apply Z.mod_mul. lia.
Qed.

(** C8 fails on the code.  The timer calls back every 10000 ms, but the
    closure it calls captured [isRefreshing = false] at the first render:
    when a refresh is still running at the next tick, the second invocation
    passes the guard, and two runs are under way at once. *)
Theorem interval_refresh_overlaps :
  interval_fires 10000 = true
  /\ interval_fires 20000 = true
  /\ isRefreshing (run [interval_tick]) = true
  /\ running (run [interval_tick; interval_tick]) = 2%nat
  /\ forall c env db,
       snd (handleRefresh (captured_isRefreshing interval_tick c) env db)
       <> returned_at_guard.
Proof.
  repeat split. intros c env db H.
  apply handleRefresh_guard in H. discriminate H.
Qed.

End Timer.

(** ** Witnesses and counterexamples *)
Section Witnesses.

Import SessionsList.

Lemma view_modes_partition_witness :
  exists! v,
    listed all 0 10 v (Sample.env Sample.offline [])
      (Sample.database [Sample.session "a" sessions.active None true None] [])
      (Sample.session "a" sessions.active None true None).
Proof.
  apply view_modes_partition.
  - reflexivity.
  - cbn. left. reflexivity.
  - reflexivity.
Defined.

(** C4 as stated fails: for a session that is already in the trash, moving
    it to trash and restoring it does not give back the record, its
    [deleted_at] is null instead of the earlier instant. *)
Lemma trash_then_restore_not_for_every_session :
  ~ (forall updating1 updating2 env1 env2 sessionId db,
       let trashed := handleMoveToTrash updating1 env1 sessionId db in
       let restored :=
         handleRestoreFromTrash updating2 env2 sessionId (fst trashed) in
       snd trashed = ran_through ->
       snd restored = ran_through ->
       tbl_sessions (fst restored) = tbl_sessions db).
Proof.
  intros H.
  specialize (H None None (Sample.env Sample.offline [])
                (Sample.env Sample.offline []) "a"
                (Sample.database
                   [Sample.session "a" sessions.completed (Some 9) true (Some 7)]
                   [])
                eq_refl eq_refl).
  cbn in H. discriminate H.
Qed.

Lemma trash_then_restore_witness :
  fst (handleRestoreFromTrash None (Sample.env Sample.offline []) "a"
         (fst (handleMoveToTrash None (Sample.env Sample.offline []) "a"
                 (Sample.database
                    [Sample.session "a" sessions.completed (Some 9) true None]
                    []))))
  = Sample.database
      [Sample.session "a" sessions.completed (Some 9) true None] [].
Proof.
  destruct (trash_then_restore None None (Sample.env Sample.offline [])
              (Sample.env Sample.offline []) "a"
              (Sample.database
                 [Sample.session "a" sessions.completed (Some 9) true None] [])
              eq_refl eq_refl) as (_ & _ & H).
  apply H. intros r [<-|[]] _. reflexivity.
Defined.



(** The provider reports ["a"] completed: no stop request is sent, and the
    update, which the database accepts, marks the row of ["a"] completed at
    the instant 100 and leaves the row of ["b"] alone. *)
Lemma stop_session_witness :
  ~ In (streaming_stop "a")
       (fst (handleStopSession None
               (Sample.env Sample.all_completed []) "a" Sample.two_live))
  /\ snd (snd (handleStopSession None
                 (Sample.env Sample.all_completed []) "a" Sample.two_live))
     = ran_through
  /\ tbl_sessions
       (fst (snd (handleStopSession None
                    (Sample.env Sample.all_completed []) "a"
                    Sample.two_live)))
     = [ {| sessions.id := "a"; sessions.session_id := "a";
            sessions.start_time := 5; sessions.end_time := Some 100;
            sessions.status := sessions.completed; sessions.created_at := 5;
            sessions.heygen_status := Some "completed";
            sessions.last_sync_at := Some 100;
            sessions.is_relevant := false; sessions.is_archived := false;
            sessions.deleted_at := None |};
         Sample.session "b" sessions.connected None false None ].
Proof.
  destruct (stop_session None (Sample.env Sample.all_completed []) "a"
              Sample.two_live) as (_ & _ & Hnostop & Hissued & _).
  split.
  - apply Hnostop. eexists. split; reflexivity.
  - destruct Hissued as (Hout & Htable); [reflexivity | discriminate
                                          | reflexivity |].
    split; [exact Hout | rewrite Htable; reflexivity].
Defined.

Lemma stats_counts_witness :
  exists row,
    tbl_session_stats
      (SessionStats.calculateAndStoreStats
         (Sample.env Sample.offline []) "b" Sample.two_live)
    = [row]
    /\ session_stats.session_id row = "b"
    /\ session_stats.totalmessages row = 1%nat
    /\ session_stats.usermessages row = 1%nat
    /\ session_stats.avatarmessages row = 0%nat.
Proof.
  destruct (stats_counts (Sample.env Sample.offline []) "b" Sample.two_live
              (Sample.session "b" sessions.connected None false None)
              eq_refl eq_refl eq_refl) as (row & H1 & H2 & H3 & H4 & H5 & _).
  exists row. repeat split; assumption.
Defined.

Lemma duration_is_not_a_date_witness :
  exists row,
    tbl_session_stats
      (SessionStats.calculateAndStoreStats
         (Sample.env Sample.offline []) "a" Sample.one_completed)
    = [row]
    /\ session_stats.sessionduration row = "00:05:30"
    /\ session_stats.averageresponsetime row = None
    /\ SessionStats.responseTimeInSeconds row = Num 0.
Proof.
  apply (duration_is_not_a_date (Sample.env Sample.offline []) "a"
           Sample.one_completed
           (Sample.session "a" sessions.completed (Some 330005) false None)
           "00:05:30");
    reflexivity.
Defined.

End Witnesses.

(** * Further properties *)

(** ** The provider client: errors and edge cases *)
Section ProviderEdges.

Import supabase heygen SessionsList.

(** X1.  [fetchHeyGenSessions], [getAllActiveSessions],
    [syncHeyGenMessages] and [sendMessageToHeyGen] never return a rejected
    promise, whatever the key, the provider and the database do. *)
Theorem four_functions_never_reject env sessionId message db :
  (exists data, snd (fetchHeyGenSessions env) = Fulfilled data)
  /\ (exists l, snd (getAllActiveSessions env) = Fulfilled l)
  /\ snd (syncHeyGenMessages env sessionId db) = Fulfilled tt
  /\ (exists data,
        snd (snd (sendMessageToHeyGen env sessionId message db))
        = Fulfilled data).
Proof.
  split; [apply fetchHeyGenSessions_fulfils|].
  split; [apply getAllActiveSessions_fulfils|].
  split; [apply syncHeyGenMessages_fulfils|].
  apply sendMessageToHeyGen_fulfils.
Qed.

Lemma unconfigured_key env :
  VITE_HEYGEN_API_KEY env = None
  \/ VITE_HEYGEN_API_KEY env = Some ""
  \/ VITE_HEYGEN_API_KEY env = Some "your_heygen_api_key_here" ->
  checkHeyGenApiKey env = false.
Proof.
  unfold checkHeyGenApiKey. intros [-> | [-> | ->]]; reflexivity.
Qed.

(** X2.  When the API key is absent, empty or the placeholder, the five
    functions that test it send the provider nothing and answer with their
    fallback: an empty list of sessions, or the status 'error' with the
    message 'HeyGen API key not configured'; [sendMessageToHeyGen] leaves the
    database as it is. *)
Theorem unconfigured_key_sends_nothing env sessionId message db :
  VITE_HEYGEN_API_KEY env = None
  \/ VITE_HEYGEN_API_KEY env = Some ""
  \/ VITE_HEYGEN_API_KEY env = Some "your_heygen_api_key_here" ->
  fetchHeyGenSessions env = ([], Fulfilled (sessions_object []))
  /\ getAllActiveSessions env = ([], Fulfilled [])
  /\ getHeyGenSessionStatus env sessionId
     = ([], Fulfilled (status_object "error" "HeyGen API key not configured"))
  /\ stopHeyGenSession env sessionId
     = ([], Fulfilled (status_object "error" "HeyGen API key not configured"))
  /\ sendMessageToHeyGen env sessionId message db
     = (db, ([], Fulfilled (status_object "error"
                                          "HeyGen API key not configured"))).
Proof.
  intros H. apply unconfigured_key in H.
  destruct (missing_key_fallbacks env sessionId message db H)
    as (H1 & H2 & H3 & H4 & H5).
  repeat split; assumption.
Qed.

(** X3.  [getAllActiveSessions] sends at most the list request, and the list
    it returns is non-empty only when the key is configured and the provider
    answered that request with an OK response whose body is an object with
    that list as its [sessions]: a network error, a non-OK response, an
    unreadable body, a null body or a body without [sessions] all give the
    empty list. *)
Theorem active_sessions_come_from_an_ok_answer env l :
  snd (getAllActiveSessions env) = Fulfilled l ->
  (fst (getAllActiveSessions env) = []
   \/ fst (getAllActiveSessions env) = [streaming_list])
  /\ (l <> [] ->
      checkHeyGenApiKey env = true
      /\ exists o,
           fetch env streaming_list = Response true (Fulfilled (JObject o))
           /\ o_sessions o = Some l).
Proof.
  unfold getAllActiveSessions, fetchHeyGenSessions.
  destruct (checkHeyGenApiKey env); cbn.
  - destruct (fetch env streaming_list) as [|[] [[|o]|]]; cbn;
      try (intros [= <-]; split; [auto|]; intros H; now contradiction H).
    destruct (o_sessions o) as [l'|] eqn:E; intros [= <-]; (split; [auto|]);
      intros H; [|now contradiction H].
    split; [reflexivity|]. exists o. auto.
  - intros [= <-]. split; [auto|]. intros H; now contradiction H.
Qed.

(** X5.  With a configured key, when the status query fails (a network
    error or a non-OK response), [stopHeyGenSession] still sends the stop
    request: the status it tests is then 'error', not 'completed'. *)
Theorem stop_is_sent_when_status_query_fails env sessionId :
  checkHeyGenApiKey env = true ->
  fetch env (streaming_get sessionId) = NetworkError
  \/ (exists body, fetch env (streaming_get sessionId) = Response false body) ->
  fst (stopHeyGenSession env sessionId)
  = [streaming_get sessionId; streaming_stop sessionId].
Proof.
  intros Hk H. unfold stopHeyGenSession, getHeyGenSessionStatus.
  rewrite Hk. cbn.
  destruct H as [-> | (body & ->)]; cbn; [reflexivity|].
  destruct body as [[|o]|]; reflexivity.
Qed.

(** X6.  [handleStopSession] past its guard: when [stopHeyGenSession]
    rejects, or the local update is refused, it reports an error and the
    database is as before; in every other case it runs through, whatever the
    provider answered. *)
Theorem stop_session_outcomes stoppingSession env sessionId db :
  truthy stoppingSession = false ->
  let result := snd (handleStopSession stoppingSession env sessionId db) in
  (snd (stopHeyGenSession env sessionId) = Rejected
   \/ refused env (update_session sessionId) = true ->
   result = (db, error_reported))
  /\ (snd (stopHeyGenSession env sessionId) <> Rejected ->
      refused env (update_session sessionId) = false ->
      snd result = ran_through).
Proof.
  intros Hg. unfold handleStopSession. rewrite Hg.
  destruct (stopHeyGenSession env sessionId) as [sent [data|]]; cbn.
  - unfold update_sessions.
    destruct (refused env (update_session sessionId)); cbn; split;
      try reflexivity; try discriminate.
    intros [H|H]; discriminate H.
  - split; [reflexivity|]. intros H. now contradiction H.
Qed.

(** X7.  [handleStopSession] changes nothing but the status, the provider
    status, [end_time] (with the generated [duration]) and [last_sync_at] of
    the rows of the session: [messages], [session_stats], the rows of other
    sessions and the other columns, the three lifecycle flags among them,
    stay as they are. *)
Theorem stop_session_frame stoppingSession env sessionId db :
  let db' := fst (snd (handleStopSession stoppingSession env sessionId db)) in
  tbl_messages db' = tbl_messages db
  /\ tbl_session_stats db' = tbl_session_stats db
  /\ Forall2
       (fun r r' =>
          if is_session sessionId r
          then sessions.id r' = sessions.id r
               /\ sessions.session_id r' = sessions.session_id r
               /\ sessions.start_time r' = sessions.start_time r
               /\ sessions.created_at r' = sessions.created_at r
               /\ sessions.is_relevant r' = sessions.is_relevant r
               /\ sessions.is_archived r' = sessions.is_archived r
               /\ sessions.deleted_at r' = sessions.deleted_at r
          else r' = r)
       (tbl_sessions db) (tbl_sessions db').
Proof.
  cbv zeta. unfold handleStopSession.
  assert (Hsame : Forall2
            (fun r r' =>
               if is_session sessionId r
               then sessions.id r' = sessions.id r
                    /\ sessions.session_id r' = sessions.session_id r
                    /\ sessions.start_time r' = sessions.start_time r
                    /\ sessions.created_at r' = sessions.created_at r
                    /\ sessions.is_relevant r' = sessions.is_relevant r
                    /\ sessions.is_archived r' = sessions.is_archived r
                    /\ sessions.deleted_at r' = sessions.deleted_at r
               else r' = r) (tbl_sessions db) (tbl_sessions db)).
  { rewrite <- (map_id (tbl_sessions db)) at 2. apply Forall2_map_same.
    intros r. destruct (is_session sessionId r); repeat split. }
  destruct (truthy stoppingSession); [cbn; auto|].
  destruct (stopHeyGenSession env sessionId) as [sent [data|]];
    [|cbn; auto].
  pose proof (update_sessions_tables env sessionId
                (mark_completed (clock env sessionId)) db) as (Hm & Hs & Hr).
  destruct (update_sessions env sessionId _ db) as [db' err]. cbn in *.
  repeat split; auto. rewrite Hr. apply Forall2_map_same. intros r.
  destruct (is_session sessionId r); cbn; [|reflexivity].
  destruct err; cbn; repeat split.
Qed.

End ProviderEdges.

(** ** The lifecycle flags: how the handlers compose *)
Section FlagsCompose.

Import supabase SessionsList.

Lemma apply_twice u r :
  sessions.apply u (sessions.apply u r) = sessions.apply u r.
Proof.
  destruct u as [e s h l rel arc del], r; cbn.
  destruct e, s, h, l, rel, arc, del; reflexivity.
Qed.

(** A flag handler leaves the database as it is or rewrites the rows of the
    session with its payload. *)
Lemma update_flag_cases updating env sid u db :
  update_flag updating env sid u db = (db, returned_at_guard)
  \/ update_flag updating env sid u db = (db, error_reported)
  \/ update_flag updating env sid u db
     = (set_sessions
          (map (fun r => if is_session sid r then sessions.apply u r else r)
               (tbl_sessions db)) db,
        ran_through).
Proof.
  unfold update_flag, update_sessions.
  destruct (is_updating updating sid); [auto|].
  destruct (refused env (update_session sid)); auto.
Qed.

Lemma update_flag_again updating1 updating2 env1 env2 sid u db :
  snd (update_flag updating1 env1 sid u db) = ran_through ->
  fst (update_flag updating2 env2 sid u
         (fst (update_flag updating1 env1 sid u db)))
  = fst (update_flag updating1 env1 sid u db).
Proof.
  intros H. rewrite (update_flag_ran_through _ _ _ _ _ H).
  destruct (update_flag_cases updating2 env2 sid u
              (set_sessions
                 (map (fun r => if is_session sid r
                                then sessions.apply u r else r)
                      (tbl_sessions db)) db)) as [E | [E | E]];
    rewrite E; cbn [fst]; try reflexivity.
  apply database_eq; cbn; auto.
  rewrite map_map. apply map_ext. intros r.
  destruct (is_session sid r) eqn:Er.
  - rewrite apply_session_id_is_session, Er. apply apply_twice.
  - now rewrite Er.
Qed.

(** X8.  The toggles write the negation of the value the caller passes, not
    of the value stored: once a toggle has run through, a second one given
    the same [currentValue] (a click on a list that has not been reloaded, or
    a second operator) changes nothing more, whether it runs through or not.
    The same holds for restoring from trash twice. *)
Theorem flag_handlers_are_idempotent
    updating1 updating2 env1 env2 sessionId currentValue db :
  (snd (handleToggleRelevant updating1 env1 sessionId currentValue db)
   = ran_through ->
   fst (handleToggleRelevant updating2 env2 sessionId currentValue
          (fst (handleToggleRelevant updating1 env1 sessionId currentValue db)))
   = fst (handleToggleRelevant updating1 env1 sessionId currentValue db))
  /\ (snd (handleToggleArchived updating1 env1 sessionId currentValue db)
      = ran_through ->
      fst (handleToggleArchived updating2 env2 sessionId currentValue
             (fst (handleToggleArchived updating1 env1 sessionId currentValue
                     db)))
      = fst (handleToggleArchived updating1 env1 sessionId currentValue db))
  /\ (snd (handleRestoreFromTrash updating1 env1 sessionId db) = ran_through ->
      fst (handleRestoreFromTrash updating2 env2 sessionId
             (fst (handleRestoreFromTrash updating1 env1 sessionId db)))
      = fst (handleRestoreFromTrash updating1 env1 sessionId db)).
Proof.
  split; [|split]; apply update_flag_again.
Qed.

Lemma map_fixed {A : Type} (f : A -> A) (l : list A) :
  map f l = l -> forall x, In x l -> f x = x.
Proof.
  induction l as [|a l IH]; cbn; [intros _ x []|].
  intros [= Ha Hl] x [<- | Hin]; [exact Ha | now apply IH].
Qed.

(** X9.  Toggling the relevant flag and toggling it back with the new value,
    both calls running through, gives back the database as it was exactly
    when every row of the session held the value the caller passed first;
    otherwise the rows of the session end with that value, not with the one
    they had.  The same holds for the archived flag. *)
Theorem toggle_and_toggle_back
    updating1 updating2 env1 env2 sessionId currentValue db :
  (snd (handleToggleRelevant updating1 env1 sessionId currentValue db)
   = ran_through ->
   snd (handleToggleRelevant updating2 env2 sessionId (negb currentValue)
          (fst (handleToggleRelevant updating1 env1 sessionId currentValue db)))
   = ran_through ->
   (fst (handleToggleRelevant updating2 env2 sessionId (negb currentValue)
           (fst (handleToggleRelevant updating1 env1 sessionId currentValue
                   db)))
    = db
    <-> forall r, In r (tbl_sessions db) ->
                  sessions.session_id r = sessionId ->
                  sessions.is_relevant r = currentValue))
  /\ (snd (handleToggleArchived updating1 env1 sessionId currentValue db)
      = ran_through ->
      snd (handleToggleArchived updating2 env2 sessionId (negb currentValue)
             (fst (handleToggleArchived updating1 env1 sessionId currentValue
                     db)))
      = ran_through ->
      (fst (handleToggleArchived updating2 env2 sessionId (negb currentValue)
              (fst (handleToggleArchived updating1 env1 sessionId currentValue
                      db)))
       = db
       <-> forall r, In r (tbl_sessions db) ->
                     sessions.session_id r = sessionId ->
                     sessions.is_archived r = currentValue)).
Proof.
  unfold handleToggleRelevant, handleToggleArchived.
  split; intros H1 H2;
    rewrite (update_flag_ran_through _ _ _ _ _ H2);
    rewrite (update_flag_ran_through _ _ _ _ _ H1);
    cbn [fst tbl_sessions set_sessions]; rewrite map_map; split.
  - intros Heq r Hin Hsid.
    apply (f_equal tbl_sessions) in Heq. cbn in Heq.
    pose proof (map_fixed _ _ Heq r Hin) as Hr. cbv beta in Hr.
    apply is_session_eq in Hsid. rewrite Hsid in Hr.
    rewrite apply_session_id_is_session, Hsid in Hr.
    apply (f_equal sessions.is_relevant) in Hr. cbn in Hr.
    now rewrite negb_involutive in Hr.
  - intros Hcur. apply database_eq; cbn; auto.
    rewrite <- (map_id (tbl_sessions db)) at 2.
    apply map_ext_in. intros r Hin.
    destruct (is_session sessionId r) eqn:E; [|now rewrite E].
    rewrite apply_session_id_is_session, E.
    apply is_session_eq in E. pose proof (Hcur r Hin E) as Hr.
    destruct r; cbn in *; subst; now rewrite negb_involutive.
  - intros Heq r Hin Hsid.
    apply (f_equal tbl_sessions) in Heq. cbn in Heq.
    pose proof (map_fixed _ _ Heq r Hin) as Hr. cbv beta in Hr.
    apply is_session_eq in Hsid. rewrite Hsid in Hr.
    rewrite apply_session_id_is_session, Hsid in Hr.
    apply (f_equal sessions.is_archived) in Hr. cbn in Hr.
    now rewrite negb_involutive in Hr.
  - intros Hcur. apply database_eq; cbn; auto.
    rewrite <- (map_id (tbl_sessions db)) at 2.
    apply map_ext_in. intros r Hin.
    destruct (is_session sessionId r) eqn:E; [|now rewrite E].
    rewrite apply_session_id_is_session, E.
    apply is_session_eq in E. pose proof (Hcur r Hin E) as Hr.
    destruct r; cbn in *; subst; now rewrite negb_involutive.
Qed.

(** X10.  Where the handlers put a session among the three views: moving
    to trash puts every row of the session in the Trash view; restoring puts
    it in the Archived view if it is archived and in the Active view
    otherwise; toggling the archived flag of a session that is not in the
    trash puts it in the Archived view when the caller passes [false] and in
    the Active view when it passes [true]; toggling the relevant flag leaves
    it in its view. *)
Theorem handlers_move_between_views updating env sessionId currentValue db :
  (snd (handleMoveToTrash updating env sessionId db) = ran_through ->
   Forall2 (fun r r' => is_session sessionId r = true -> view_of r' = TRASH)
     (tbl_sessions db)
     (tbl_sessions (fst (handleMoveToTrash updating env sessionId db))))
  /\ (snd (handleRestoreFromTrash updating env sessionId db) = ran_through ->
      Forall2 (fun r r' =>
                 is_session sessionId r = true ->
                 view_of r'
                 = if sessions.is_archived r then ARCHIVED else ACTIVE)
        (tbl_sessions db)
        (tbl_sessions (fst (handleRestoreFromTrash updating env sessionId db))))
  /\ (snd (handleToggleArchived updating env sessionId currentValue db)
      = ran_through ->
      Forall2 (fun r r' =>
                 is_session sessionId r = true ->
                 sessions.deleted_at r = None ->
                 view_of r' = if currentValue then ACTIVE else ARCHIVED)
        (tbl_sessions db)
        (tbl_sessions
           (fst (handleToggleArchived updating env sessionId currentValue db))))
  /\ Forall2 (fun r r' => view_of r' = view_of r)
       (tbl_sessions db)
       (tbl_sessions
          (fst (handleToggleRelevant updating env sessionId currentValue db))).
Proof.
  unfold handleMoveToTrash, handleRestoreFromTrash, handleToggleArchived,
    handleToggleRelevant.
  split; [|split; [|split]].
  - intros H. rewrite (update_flag_ran_through _ _ _ _ _ H). cbn.
    apply Forall2_map_same. intros r Hr. now rewrite Hr.
  - intros H. rewrite (update_flag_ran_through _ _ _ _ _ H). cbn.
    apply Forall2_map_same. intros r Hr. now rewrite Hr.
  - intros H. rewrite (update_flag_ran_through _ _ _ _ _ H). cbn.
    apply Forall2_map_same. intros r Hr Hd. rewrite Hr.
    unfold view_of. cbn. rewrite Hd. now destruct currentValue.
  - match goal with
    | |- context [update_flag ?a ?b ?c ?u ?d] =>
        destruct (update_flag_cases a b c u d) as [E | [E | E]]; rewrite E
    end; cbn.
    + rewrite <- (map_id (tbl_sessions db)) at 2.
      now apply Forall2_map_same.
    + rewrite <- (map_id (tbl_sessions db)) at 2.
      now apply Forall2_map_same.
    + apply Forall2_map_same. intros r.
      now destruct (is_session sessionId r).
Qed.

End FlagsCompose.

(** ** The list of sessions: order and range *)
Section ListOrder.

Import supabase SessionsList.


Lemma insert_desc_perm r l : Permutation (insert_desc r l) (r :: l).
Proof.
  induction l as [|x l IH]; cbn; [reflexivity|].
  destruct (sessions.start_time x <? sessions.start_time r); [reflexivity|].
  rewrite IH. apply perm_swap.
Qed.

Lemma order_by_start_time_desc_perm l :
  Permutation (order_by_start_time_desc l) l.
Proof.
  induction l as [|x l IH]; cbn; [reflexivity|].
  rewrite insert_desc_perm. now constructor.
Qed.

Lemma insert_desc_sorted r l :
  StronglySorted (fun a b => sessions.start_time b <= sessions.start_time a) l ->
  StronglySorted (fun a b => sessions.start_time b <= sessions.start_time a)
    (insert_desc r l).
Proof.
  induction 1 as [|x l Hs IH Hx]; cbn.
  - repeat constructor.
  - destruct (Z.ltb_spec (sessions.start_time x) (sessions.start_time r)).
    + constructor; [now constructor|].
      constructor; [lia|].
      rewrite Forall_forall in *. intros y Hy. specialize (Hx y Hy). lia.
    + constructor; [exact IH|].
      rewrite Forall_forall in *. intros y Hy.
      apply insert_desc_In in Hy as [-> | Hy]; [lia | now apply Hx].
Qed.

(** X11.  When the query is answered, [fetchSessions] gives the stored rows
    that match the date range, the status filter and the view mode, each as
    often as it is stored, with no row before one that started later. *)
Theorem fetchSessions_newest_first filter startDate endDate viewMode env db rows :
  fetchSessions filter startDate endDate viewMode env db = Some rows ->
  Permutation rows
    (List.filter (matches_query filter startDate endDate viewMode)
                 (tbl_sessions db))
  /\ StronglySorted
       (fun a b => sessions.start_time b <= sessions.start_time a) rows.
Proof.
  unfold fetchSessions.
  destruct (refused env select_sessions_list); [discriminate|].
  intros [= <-]. split; [apply order_by_start_time_desc_perm|].
  unfold order_by_start_time_desc.
  induction (List.filter _ (tbl_sessions db)) as [|x l IH]; cbn.
  - constructor.
  - now apply insert_desc_sorted.
Qed.


End ListOrder.

(** ** The refresh reconciliation: outage, frame, second run *)
Section RefreshMore.

Import supabase heygen SessionsList.

Lemma outage_gives_empty_list env :
  checkHeyGenApiKey env = false
  \/ fetch env streaming_list = NetworkError
  \/ (exists body, fetch env streaming_list = Response false body) ->
  snd (getAllActiveSessions env) = Fulfilled [].
Proof.
  unfold getAllActiveSessions, fetchHeyGenSessions.
  destruct (checkHeyGenApiKey env); cbn; [|reflexivity].
  intros [H | [-> | (body & ->)]]; [discriminate H | reflexivity | reflexivity].
Qed.

Lemma filter_map_none {A : Type} (p : A -> bool) (f : A -> A) l :
  (forall x, In x l -> p (f x) = false) -> filter p (map f l) = [].
Proof.
  induction l as [|a l IH]; intros H; cbn; [reflexivity|].
  rewrite (H a (or_introl eq_refl)). apply IH. intros x Hx. apply H. now right.
Qed.

Lemma mark_completed_not_live now r :
  is_live (sessions.apply (mark_completed now) r) = false.
Proof. reflexivity. Qed.

(** X4.  When the provider's list cannot be had (no configured key, a
    network error or a non-OK response), the list counts as empty: a run of
    the refresh whose statements the database accepts marks every live
    session completed, and no live session is left. *)
Theorem provider_outage_completes_every_live_session env db :
  checkHeyGenApiKey env = false
  \/ fetch env streaming_list = NetworkError
  \/ (exists body, fetch env streaming_list = Response false body) ->
  refused env select_live_sessions = false ->
  (forall r, In r (tbl_sessions db) -> is_live r = true ->
             refused env (update_session (sessions.session_id r)) = false) ->
  let db' := fst (handleRefresh false env db) in
  Forall2
    (fun r r' =>
       is_live r = true ->
       r' = sessions.apply
              (mark_completed (clock env (sessions.session_id r))) r)
    (tbl_sessions db) (tbl_sessions db')
  /\ filter is_live (tbl_sessions db') = [].
Proof.
  intros Hout Hsel Hacc db'. unfold db'.
  rewrite (handleRefresh_runs env db [] Hsel (outage_gives_empty_list env Hout)).
  cbn [fst]. rewrite refresh_sessions.
  assert (Hlive : forall r, In r (tbl_sessions db) -> is_live r = true ->
            existsb (fun s => rewrites env [] s r)
              (filter is_live (tbl_sessions db)) = true).
  { intros r Hin Hl. apply existsb_exists. exists r. split.
    - apply filter_In. auto.
    - unfold rewrites, is_session. rewrite String.eqb_refl, (Hacc r Hin Hl).
      reflexivity. }
  split.
  - apply Forall2_map_in. intros r Hin Hl. now rewrite (Hlive r Hin Hl).
  - apply filter_map_none. intros r Hin.
    destruct (is_live r) eqn:El.
    + now rewrite (Hlive r Hin El).
    + destruct (existsb _ _); [reflexivity | exact El].
Qed.

(** A run leaves the database as it is or runs the callbacks with the list
    the provider gave. *)
Lemma handleRefresh_cases isRefreshing env db :
  fst (handleRefresh isRefreshing env db) = db
  \/ exists hs,
       snd (getAllActiveSessions env) = Fulfilled hs
       /\ fst (handleRefresh isRefreshing env db)
          = fold_left (reconcile env hs) (filter is_live (tbl_sessions db)) db.
Proof.
  unfold handleRefresh, select_live.
  destruct isRefreshing; [auto|].
  destruct (refused env select_live_sessions); [auto|].
  destruct (filter is_live (tbl_sessions db)) as [|s l] eqn:E; [auto|].
  destruct (snd (getAllActiveSessions env)) as [hs|]; [|auto].
  right. exists hs. auto.
Qed.

(** The callbacks write no statistics and only append to [messages]. *)
Lemma refresh_appends env hs active :
  forall db,
    tbl_session_stats (fold_left (reconcile env hs) active db)
    = tbl_session_stats db
    /\ exists added,
         tbl_messages (fold_left (reconcile env hs) active db)
         = tbl_messages db ++ added.
Proof.
  induction active as [|s active IH]; intros db; cbn.
  - split; [reflexivity|]. exists []. now rewrite app_nil_r.
  - destruct (IH (reconcile env hs db s)) as (Hs & added & Hm).
    rewrite Hs, Hm. unfold reconcile.
    destruct (isActiveInHeyGen hs (sessions.session_id s)); cbn [negb].
    + rewrite syncHeyGenMessages_appends. cbn. split; [reflexivity|].
      eexists. now rewrite <- app_assoc.
    + destruct (update_sessions_tables env (sessions.session_id s)
                  (mark_completed (clock env (sessions.session_id s))) db)
        as (-> & -> & _).
      split; [reflexivity|]. now exists added.
Qed.

Lemma NoDup_map_eq {A B : Type} (f : A -> B) l a b :
  NoDup (map f l) -> In a l -> In b l -> f a = f b -> a = b.
Proof.
  induction l as [|x l IH]; cbn; intros Hnd Ha Hb Hf; [contradiction|].
  inversion Hnd as [|? ? Hnotin Hnd']; subst.
  destruct Ha as [-> | Ha], Hb as [-> | Hb]; auto.
  - exfalso. apply Hnotin. rewrite Hf. now apply in_map.
  - exfalso. apply Hnotin. rewrite <- Hf. now apply in_map.
Qed.

(** X13.  Whatever happens in it, a call of [handleRefresh] writes no
    statistics, takes no message away (the messages after it are those
    before it followed by the ones it pulled) and, session ids being
    unique, leaves every row that is not live as it is. *)
Theorem refresh_touches_only_live_sessions isRefreshing env db :
  let db' := fst (handleRefresh isRefreshing env db) in
  tbl_session_stats db' = tbl_session_stats db
  /\ (exists added, tbl_messages db' = tbl_messages db ++ added)
  /\ (NoDup (map sessions.session_id (tbl_sessions db)) ->
      Forall2 (fun r r' => is_live r = false -> r' = r)
        (tbl_sessions db) (tbl_sessions db')).
Proof.
  cbv zeta.
  destruct (handleRefresh_cases isRefreshing env db) as [-> | (hs & _ & ->)].
  - split; [reflexivity|]. split; [exists []; now rewrite app_nil_r|].
    intros _. rewrite <- (map_id (tbl_sessions db)) at 2.
    now apply Forall2_map_same.
  - destruct (refresh_appends env hs (filter is_live (tbl_sessions db)) db)
      as (Hs & Hm).
    split; [exact Hs|]. split; [exact Hm|].
    intros Hnd. rewrite refresh_sessions. apply Forall2_map_in.
    intros r Hin Hl.
    destruct (existsb (fun s => rewrites env hs s r)
                (filter is_live (tbl_sessions db))) eqn:E; [|reflexivity].
    apply existsb_exists in E as (s & Hs' & Hrw).
    apply filter_In in Hs' as (Hsin & Hsl). unfold rewrites in Hrw.
    apply andb_true_iff in Hrw as (Hrw & _).
    apply andb_true_iff in Hrw as (Hrw & _).
    apply is_session_eq in Hrw.
    rewrite (NoDup_map_eq _ _ r s Hnd Hin Hsin Hrw) in Hl. congruence.
Qed.

(** X14.  After a run whose select is answered and whose updates are
    accepted, a second run against the same list of the provider changes no
    row of [sessions]: the sessions that are still live are the ones the
    provider lists. *)
Theorem second_refresh_changes_no_session env env2 isRefreshing2 db hs :
  refused env select_live_sessions = false ->
  snd (getAllActiveSessions env) = Fulfilled hs ->
  snd (getAllActiveSessions env2) = Fulfilled hs ->
  (forall r, In r (tbl_sessions db) -> is_live r = true ->
             refused env (update_session (sessions.session_id r)) = false) ->
  let db1 := fst (handleRefresh false env db) in
  tbl_sessions (fst (handleRefresh isRefreshing2 env2 db1)) = tbl_sessions db1.
Proof.
  intros Hsel Hhs Hhs2 Hacc db1.
  destruct (handleRefresh_cases isRefreshing2 env2 db1)
    as [-> | (hs2 & Hh & ->)]; [reflexivity|].
  rewrite Hhs2 in Hh. injection Hh as <-.
  rewrite refresh_sessions.
  transitivity (map (fun r => r) (tbl_sessions db1)); [|apply map_id].
  apply map_ext_in. intros r1 _.
  destruct (existsb (fun s => rewrites env2 hs s r1)
              (filter is_live (tbl_sessions db1))) eqn:E; [|reflexivity].
  exfalso. apply existsb_exists in E as (s & Hs & Hrw).
  apply filter_In in Hs as (Hsin & Hsl).
  unfold db1 in Hsin.
  rewrite (handleRefresh_runs env db hs Hsel Hhs) in Hsin. cbn [fst] in Hsin.
  rewrite refresh_sessions in Hsin.
  apply in_map_iff in Hsin as (r0 & Hr0 & Hin0).
  destruct (existsb (fun s0 => rewrites env hs s0 r0)
              (filter is_live (tbl_sessions db))) eqn:E0.
  - rewrite <- Hr0 in Hsl. discriminate Hsl.
  - subst s.
    assert (Hlisted : isActiveInHeyGen hs (sessions.session_id r0) = true).
    { destruct (isActiveInHeyGen hs (sessions.session_id r0)) eqn:El;
        [reflexivity|].
      assert (Htrue : existsb (fun s0 => rewrites env hs s0 r0)
                        (filter is_live (tbl_sessions db)) = true).
      { apply existsb_exists. exists r0. split; [apply filter_In; auto|].
        unfold rewrites, is_session.
        now rewrite String.eqb_refl, El, (Hacc r0 Hin0 Hsl). }
      congruence. }
    unfold rewrites in Hrw. rewrite Hlisted in Hrw.
    rewrite andb_false_r in Hrw. discriminate Hrw.
Qed.

End RefreshMore.

(** ** Pulling messages: what it keeps and when it inserts again *)
Section SyncMore.

Import supabase heygen.

(** X15.  [syncHeyGenMessages] changes neither [sessions] nor
    [session_stats] and takes no message away: the messages after it are
    those before it followed by the rows it inserted, each of which belongs
    to the session and has sender 'user' or 'avatar', as the CHECK
    constraint on [messages.sender] demands. *)
Theorem sync_only_appends env sessionId db :
  let db' := fst (syncHeyGenMessages env sessionId db) in
  tbl_sessions db' = tbl_sessions db
  /\ tbl_session_stats db' = tbl_session_stats db
  /\ exists added,
       tbl_messages db' = tbl_messages db ++ added
       /\ Forall (fun row =>
                    messages.session_id row = sessionId
                    /\ (messages.sender row = "user"
                        \/ messages.sender row = "avatar"))
                 added.
Proof.
  cbv zeta. rewrite syncHeyGenMessages_appends. cbn.
  split; [reflexivity|]. split; [reflexivity|].
  exists (appended env sessionId db). split; [reflexivity|].
  unfold appended.
  destruct (fetchHeyGenMessages env sessionId) as [fetched|]; [|constructor].
  apply Forall_forall. intros row Hin.
  apply rows_of_In in Hin as (m & t & _ & _ & ->). cbn.
  split; [reflexivity|].
  destruct (String.eqb (role m) "user"); auto.
Qed.

(** The loop gets through the transcript up to the first message that has
    to be inserted and whose timestamp is no instant. *)
Lemma reached_split existing fetched :
  exists rest,
    fetched = reached existing fetched ++ rest
    /\ Forall (fun m => messageExists existing (content m) = false ->
                        TimeClip (hm_timestamp m) <> None)
         (reached existing fetched)
    /\ match rest with
       | [] => True
       | m :: _ => messageExists existing (content m) = false
                   /\ TimeClip (hm_timestamp m) = None
       end.
Proof.
  induction fetched as [|m fetched (rest & E & Hall & Hrest)]; cbn.
  - exists []. repeat split. constructor.
  - destruct (messageExists existing (content m)) eqn:Em.
    + exists rest. split; [cbn; now f_equal|]. split; [|exact Hrest].
      constructor; [intros H; congruence | exact Hall].
    + destruct (TimeClip (hm_timestamp m)) as [t|] eqn:Et.
      * exists rest. split; [cbn; now f_equal|]. split; [|exact Hrest].
        constructor; [intros _; congruence | exact Hall].
      * exists (m :: fetched). split; [reflexivity|].
        split; [constructor | auto].
Qed.

Lemma rows_of_filter_spec sid p l :
  Forall (fun m => p m = true -> TimeClip (hm_timestamp m) <> None) l ->
  Forall2 (fun m row =>
             messages.session_id row = sid
             /\ messages.sender row
                = (if String.eqb (role m) "user" then "user" else "avatar")
             /\ messages.message row = content m
             /\ TimeClip (hm_timestamp m) = Some (messages.timestamp row))
    (filter p l) (rows_of sid (filter p l)).
Proof.
  intros H. apply rows_of_spec. apply Forall_forall. intros m Hm.
  apply filter_In in Hm as (Hm & Hp).
  rewrite Forall_forall in H. now apply H.
Qed.

(** X16.  The loop ends at the first row that cannot be built, and the
    existence test relies on the select.  For a stored session whose inserts
    the database accepts, [syncHeyGenMessages] inserts, in the order of the
    transcript, the fetched messages whose content it does not know to be
    stored, up to the first such message whose timestamp is no instant; no
    message from that one on is inserted.  What it knows to be stored are
    the messages its select returns, and none when the select is refused:
    then messages that are stored are inserted again. *)
Theorem sync_stops_at_the_first_undated_message env sessionId db fetched :
  let known :=
    if refused env (select_messages sessionId) then []
    else filter (of_session sessionId) (tbl_messages db) in
  let to_insert m :=
    negb (existsb (fun existing =>
                     String.eqb (messages.message existing) (content m))
                  known) in
  existsb (is_session sessionId) (tbl_sessions db) = true ->
  fetchHeyGenMessages env sessionId = Fulfilled fetched ->
  (forall m, In m fetched ->
             refused env (insert_message sessionId (content m)) = false) ->
  exists before rest rows,
    fetched = before ++ rest
    /\ Forall (fun m => to_insert m = true ->
                        TimeClip (hm_timestamp m) <> None) before
    /\ match rest with
       | [] => True
       | m :: _ => to_insert m = true /\ TimeClip (hm_timestamp m) = None
       end
    /\ tbl_messages (fst (syncHeyGenMessages env sessionId db))
       = tbl_messages db ++ rows
    /\ Forall2
         (fun m row =>
            messages.session_id row = sessionId
            /\ messages.sender row
               = (if String.eqb (role m) "user" then "user" else "avatar")
            /\ messages.message row = content m
            /\ TimeClip (hm_timestamp m) = Some (messages.timestamp row))
         (filter to_insert before) rows.
Proof.
  intros known to_insert Hs Hf Hins.
  set (existing := select_messages_of env sessionId db).
  assert (Hknown : forall m,
            negb (messageExists existing (content m)) = to_insert m).
  { intros m. unfold existing, select_messages_of, to_insert, known.
    now destruct (refused env (select_messages sessionId)). }
  destruct (reached_split existing fetched) as (rest & E & Hall & Hrest).
  assert (Hall' : Forall (fun m => to_insert m = true ->
                                   TimeClip (hm_timestamp m) <> None)
                    (reached existing fetched)).
  { eapply Forall_impl; [|exact Hall]. cbv beta. intros m H Hm. apply H.
    rewrite <- Hknown in Hm. now apply negb_true_iff in Hm. }
  exists (reached existing fetched), rest,
         (rows_of sessionId (filter to_insert (reached existing fetched))).
  split; [exact E|]. split; [exact Hall'|]. split; [|split].
  - destruct rest as [|m rest']; [exact I|]. destruct Hrest as (Hm & Ht).
    split; [|exact Ht]. rewrite <- Hknown, Hm. reflexivity.
  - rewrite syncHeyGenMessages_appends. cbn.
    f_equal. unfold appended. rewrite Hf. fold existing. cbv zeta. f_equal.
    apply filter_ext_in. intros m Hm.
    assert (Hin : In m fetched) by (rewrite E; apply in_or_app; now left).
    now rewrite Hs, (Hins m Hin), Hknown, !andb_true_r.
  - now apply rows_of_filter_spec.
Qed.

(** X17.  [syncHeyGenMessages] leaves the database as it is when fetching
    the transcript fails, and when no stored session has the id: a message
    must refer to a session, so every insert is an error, which the loop
    logs. *)
Theorem sync_inserts_nothing env sessionId db :
  fetchHeyGenMessages env sessionId = Rejected
  \/ existsb (is_session sessionId) (tbl_sessions db) = false ->
  fst (syncHeyGenMessages env sessionId db) = db.
Proof.
  intros H. rewrite syncHeyGenMessages_appends.
  assert (E : appended env sessionId db = []).
  { unfold appended. destruct H as [-> | H]; [reflexivity|].
    destruct (fetchHeyGenMessages env sessionId) as [fetched|]; [|reflexivity].
    rewrite H. cbv zeta.
    induction (reached (select_messages_of env sessionId db) fetched)
      as [|m l IH]; cbn; [reflexivity|].
    now rewrite andb_false_r. }
  rewrite E, app_nil_r. apply set_messages_same.
Qed.

End SyncMore.

(** ** Statistics: storing, storing again, reading back *)
Section StatisticsMore.

Import supabase SessionStats SessionStatsPanel.

(** [calculateAndStoreStats] writes to [session_stats] only. *)
Lemma calculateAndStoreStats_tables env sid db :
  tbl_sessions (calculateAndStoreStats env sid db) = tbl_sessions db
  /\ tbl_messages (calculateAndStoreStats env sid db) = tbl_messages db.
Proof.
  unfold calculateAndStoreStats, insert_into_session_stats.
  destruct (select_messages_of env sid db); [|auto].
  destruct (select_single env sid db); [|auto].
  cbn. destruct (refused env (insert_session_stats sid)); cbn; auto.
Qed.

Lemma select_single_ext env sid db db' :
  tbl_sessions db' = tbl_sessions db ->
  select_single env sid db' = select_single env sid db.
Proof. intros H. unfold select_single. now rewrite H. Qed.

Lemma filter_none {A : Type} (p : A -> bool) l :
  (forall x, In x l -> p x = false) -> filter p l = [].
Proof.
  induction l as [|a l IH]; intros H; cbn; [reflexivity|].
  rewrite (H a (or_introl eq_refl)). apply IH. intros x Hx. apply H. now right.
Qed.

(** X18.  [calculateAndStoreStats] inserts a row each time it runs; it does
    not replace the one it stored before.  For a session without statistics,
    a first run stores the row the panel's [fetchStats] then reads; after a
    second run two rows have the id, [.single()] is an error and the panel
    has no statistics to show. *)
Theorem stats_are_stored_again_on_each_run env sessionId db session :
  sessionId <> "" ->
  refused env (select_messages sessionId) = false ->
  select_single env sessionId db = Some session ->
  refused env (insert_session_stats sessionId) = false ->
  (forall r, In r (tbl_session_stats db) ->
             session_stats.session_id r <> sessionId) ->
  let once := calculateAndStoreStats env sessionId db in
  let twice := calculateAndStoreStats env sessionId once in
  fetchStats true sessionId once
  = Some (stats_row env sessionId
            (filter (of_session sessionId) (tbl_messages db)) session)
  /\ fetchStats true sessionId twice = None.
Proof.
  intros Hne Hm Hs Hi Hfresh once twice.
  apply String.eqb_neq in Hne.
  destruct (calculateAndStoreStats_tables env sessionId db) as (Hts & Htm).
  assert (H1 : tbl_session_stats once
               = tbl_session_stats db
                 ++ [stats_row env sessionId
                       (filter (of_session sessionId) (tbl_messages db))
                       session])
    by (apply calculateAndStoreStats_stores; assumption).
  assert (H2 : tbl_session_stats twice
               = tbl_session_stats once
                 ++ [stats_row env sessionId
                       (filter (of_session sessionId) (tbl_messages db))
                       session]).
  { unfold twice. rewrite <- Htm.
    apply calculateAndStoreStats_stores; auto.
    rewrite <- Hs. now apply select_single_ext. }
  assert (Hold : filter (fun r => String.eqb (session_stats.session_id r)
                                             sessionId)
                        (tbl_session_stats db) = []).
  { apply filter_none. intros r Hr. apply String.eqb_neq. now apply Hfresh. }
  unfold fetchStats. rewrite Hne. cbn [negb].
  rewrite H2, H1, !filter_app, Hold. cbn. rewrite String.eqb_refl. cbn.
  split; reflexivity.
Qed.

Lemma filter_unique {A B : Type} (f : A -> B) (p : A -> bool) l a :
  NoDup (map f l) -> In a l ->
  (forall x, p x = true <-> f x = f a) ->
  filter p l = [a].
Proof.
  intros Hnd Hin Hp. induction l as [|x l IH]; [contradiction|].
  inversion Hnd as [|? ? Hnotin Hnd']; subst. cbn.
  destruct Hin as [-> | Hin].
  - rewrite (proj2 (Hp a) eq_refl). f_equal. apply filter_none.
    intros y Hy. destruct (p y) eqn:E; [|reflexivity].
    exfalso. apply Hnotin. apply Hp in E. rewrite <- E. now apply in_map.
  - destruct (p x) eqn:E; [|now apply IH].
    exfalso. apply Hnotin. apply Hp in E. rewrite E. now apply in_map.
Qed.

(** X19.  When the database accepts every statement and session ids are
    unique, [updateAllSessions] appends one statistics row for each session
    whose status is 'completed', in the order of the table and computed from
    the messages of that session, and changes nothing else. *)
Theorem updateAllSessions_adds_a_row_per_completed_session env db :
  (forall statement, refused env statement = false) ->
  NoDup (map sessions.session_id (tbl_sessions db)) ->
  let db' := updateAllSessions env db in
  tbl_sessions db' = tbl_sessions db
  /\ tbl_messages db' = tbl_messages db
  /\ tbl_session_stats db'
     = tbl_session_stats db
       ++ map (fun session =>
                 stats_row env (sessions.session_id session)
                   (filter (of_session (sessions.session_id session))
                           (tbl_messages db))
                   session)
            (filter (fun r => sessions.Status_eqb (sessions.status r)
                                                   sessions.completed)
                    (tbl_sessions db)).
Proof.
  intros Hok Hnd. cbv zeta. unfold updateAllSessions. rewrite Hok.
  assert (Hgen : forall l db0,
            (forall s, In s l -> In s (tbl_sessions db)) ->
            tbl_sessions db0 = tbl_sessions db ->
            tbl_messages db0 = tbl_messages db ->
            let out := fold_left
                         (fun d session =>
                            calculateAndStoreStats env
                              (sessions.session_id session) d) l db0 in
            tbl_sessions out = tbl_sessions db
            /\ tbl_messages out = tbl_messages db
            /\ tbl_session_stats out
               = tbl_session_stats db0
                 ++ map (fun session =>
                           stats_row env (sessions.session_id session)
                             (filter (of_session (sessions.session_id session))
                                     (tbl_messages db))
                             session) l).
  { induction l as [|s l IH]; intros db0 Hsub Hts Htm; cbn.
    - rewrite app_nil_r. auto.
    - destruct (calculateAndStoreStats_tables env (sessions.session_id s) db0)
        as (Hts' & Htm').
      destruct (IH (calculateAndStoreStats env (sessions.session_id s) db0))
        as (H1 & H2 & H3).
      + intros x Hx. apply Hsub. now right.
      + congruence.
      + congruence.
      + split; [exact H1|]. split; [exact H2|]. rewrite H3.
        rewrite (calculateAndStoreStats_stores env (sessions.session_id s) db0 s).
        * rewrite Htm, <- app_assoc. reflexivity.
        * apply Hok.
        * unfold select_single. rewrite Hok, Hts.
          rewrite (filter_unique sessions.session_id _ _ s Hnd);
            [reflexivity | apply Hsub; now left |].
          intros x. apply is_session_eq.
        * apply Hok. }
  apply Hgen; auto.
  intros s Hs. now apply filter_In in Hs.
Qed.

(** X20.  For a session that has not ended the generated [duration] is
    null: the stored row has [averageresponsetime] 0 and [sessionduration]
    '00:00:00', and the panel shows a response time of zero and a duration
    of zero minutes. *)
Theorem stats_of_a_session_that_has_not_ended env sessionId db session :
  refused env (select_messages sessionId) = false ->
  select_single env sessionId db = Some session ->
  refused env (insert_session_stats sessionId) = false ->
  sessions.end_time session = None ->
  exists row,
    tbl_session_stats (calculateAndStoreStats env sessionId db)
    = tbl_session_stats db ++ [row]
    /\ session_stats.averageresponsetime row = Some 0%Q
    /\ session_stats.sessionduration row = "00:00:00"
    /\ responseTimeInSeconds row = Num 0
    /\ durationInMinutes (session_stats.sessionduration row) = Some (Num 0).
Proof.
  intros Hm Hs Hi He.
  exists (stats_row env sessionId
            (filter (of_session sessionId) (tbl_messages db)) session).
  split; [apply calculateAndStoreStats_stores; assumption|].
  unfold stats_row, duration_text, sessions.duration. rewrite He. cbn.
  repeat split.
Qed.

End StatisticsMore.

(** ** The panel reads back the duration the database printed *)
(** ** Numbers *)
Section Numbers.

Import SessionStats SessionStatsPanel.

(** What [double] gives for some reals, as the binary64 format has them:
    a tenth and 0.15 are not numbers, the nearest ones lie above and below;
    [2^53 + 1] is halfway between two numbers and goes to the even one;
    the largest number is [2^1024 - 2^971], and halfway from it to [2^1024]
    the result is an infinity; the smallest number is [2^-1074], and half of
    it goes to zero. *)
Lemma double_samples :
  double (1 # 10) = Num (3602879701896397 # 36028797018963968)
  /\ double (3 # 20) = Num (5404319552844595 # 36028797018963968)
  /\ double (inject_Z (2 ^ 53 + 1)) = Num (inject_Z (2 ^ 53))
  /\ double (inject_Z (2 ^ 1024 - 2 ^ 971))
     = Num (inject_Z (2 ^ 1024 - 2 ^ 971))
  /\ double (inject_Z (2 ^ 1024 - 2 ^ 970)) = Infinity false
  /\ double (- inject_Z (2 ^ 1024)) = Infinity true
  /\ double (1 # Z.to_pos (2 ^ 1074)) = Num (1 # Z.to_pos (2 ^ 1074))
  /\ double (1 # Z.to_pos (2 ^ 1075)) = Num 0.
Proof. repeat split; vm_compute; reflexivity. Qed.

(** [0.1 + 0.2] is not [0.3], and [0.15.toFixed(1)] is [0.1]. *)
Lemma arithmetic_samples :
  plus (double (1 # 10)) (double (2 # 10))
  = Num (1351079888211149 # 4503599627370496)
  /\ double (3 # 10) = Num (5404319552844595 # 18014398509481984)
  /\ toFixed 1 (double (3 # 20)) = Num (1 # 10)
  /\ toFixed 1 (double (1 # 4)) = Num (3 # 10)
  /\ toFixed 2 (double (- (1 # 200))) = Num (- (1 # 100)).
Proof. repeat split; vm_compute; reflexivity. Qed.

Lemma round_even_spec n d :
  0 <= n -> 0 < d ->
  0 <= round_even n d /\ 2 * Z.abs (round_even n d * d - n) <= d.
Proof.
  intros Hn Hd. unfold round_even.
  pose proof (Z.div_eucl_eq n d ltac:(lia)) as E.
  pose proof (Z.mod_pos_bound n d Hd) as Hr. unfold Z.modulo in Hr.
  pose proof (Z.div_pos n d Hn Hd) as Hq. unfold Z.div in Hq.
  destruct (Z.div_eucl n d) as [quotient remainder]. cbn [fst snd] in *.
  destruct (2 * remainder ?= d) eqn:C.
  - apply Z.compare_eq in C. destruct (Z.even quotient); split; nia.
  - rewrite Z.compare_lt_iff in C. split; nia.
  - rewrite Z.compare_gt_iff in C. split; nia.
Qed.

Lemma exponent_below n d B :
  0 < n -> 0 < d -> 0 <= B -> n < d * 2 ^ B -> exponent n d <= B - 1.
Proof.
  intros Hn Hd HB Hlt. unfold exponent.
  destruct (Z.log2_spec n Hn) as (Hn1 & Hn2).
  destruct (Z.log2_spec d Hd) as (Hd1 & Hd2).
  pose proof (Z.log2_nonneg n) as Hln. pose proof (Z.log2_nonneg d) as Hld.
  set (e := Z.log2 n - Z.log2 d).
  assert (He : e <= B).
  { destruct (Z.le_gt_cases e B) as [H|H]; [exact H|exfalso].
    assert (Hp : 2 ^ (Z.succ (Z.log2 d) + B) <= 2 ^ Z.log2 n)
      by (apply Z.pow_le_mono_r; lia).
    rewrite Z.pow_add_r in Hp by lia.
    assert (0 < 2 ^ B) by (apply Z.pow_pos_nonneg; lia). nia. }
  destruct (Z.eq_dec e B) as [Heq | Hne].
  - rewrite Heq. replace (Z.max 0 (- B)) with 0 by lia.
    replace (Z.max 0 B) with B by lia.
    rewrite Z.shiftl_0_r, Z.shiftl_mul_pow2 by lia.
    apply Z.ltb_lt in Hlt. rewrite Hlt. lia.
  - destruct (_ <? _); lia.
Qed.

(** Rounding moves a real below [2^41] by at most [2^-13]: the numbers are
    at most [2^-12] apart there. *)
Lemma double_near q :
  (0 <= q)%Q -> (q < 2199023255552)%Q ->
  near (double q) q (1 # 8192).
Proof.
  destruct q as [qn qd]. intros H0 Hlt.
  assert (Hqn : 0 <= qn) by (unfold Qle in H0; cbn in H0; lia).
  assert (Hb : qn < Z.pos qd * 2 ^ 41)
    by (unfold Qlt in Hlt; cbn [Qnum Qden] in Hlt;
        change (2 ^ 41) with 2199023255552; lia).
  unfold double. cbn [Qnum Qden]. rewrite Z.abs_eq by exact Hqn.
  destruct (qn =? 0) eqn:Ez.
  - apply Z.eqb_eq in Ez. subst qn. exists 0%Q. split; [reflexivity|].
    unfold Qle, Qplus, Qminus, Qopp. cbn. lia.
  - apply Z.eqb_neq in Ez.
    pose proof (exponent_below qn (Z.pos qd) 41 ltac:(lia) ltac:(lia)
                  ltac:(lia) Hb) as He.
    set (k := Z.max (exponent qn (Z.pos qd)) (-1022) - 52) in *.
    assert (Hk : -1074 <= k <= -12) by lia.
    replace (Z.max 0 (- k)) with (- k) by lia.
    replace (Z.max 0 k) with 0 by lia.
    rewrite !Z.shiftl_0_r, !Z.shiftl_mul_pow2 by lia. rewrite Z.mul_1_l.
    set (P := 2 ^ (- k)).
    assert (HP : 4096 <= P).
    { change 4096 with (2 ^ 12). apply Z.pow_le_mono_r; lia. }
    destruct (round_even_spec (qn * P) (Z.pos qd) ltac:(nia) ltac:(lia))
      as (Hm0 & Hm).
    set (m := round_even (qn * P) (Z.pos qd)) in *.
    assert (Hmax : m <= 2 ^ 41 * P).
    { assert (m * Z.pos qd <= qn * P + Z.pos qd) by lia.
      assert (qn * P < Z.pos qd * 2 ^ 41 * P) by nia.
      assert ((m - 1) * Z.pos qd < (2 ^ 41 * P) * Z.pos qd) by lia.
      assert (m - 1 < 2 ^ 41 * P); [|lia].
      apply (Z.mul_lt_mono_pos_r (Z.pos qd)); lia. }
    assert (Hover : (1024 <=? Z.log2 m + k) = false).
    { apply Z.leb_gt.
      destruct (Z.eq_dec m 0) as [-> | Hm1]; [cbn; lia|].
      assert (Z.log2 m < 41 + - k + 1); [|lia].
      apply Z.log2_lt_pow2; [lia|].
      rewrite !Z.pow_add_r by lia. fold P. lia. }
    rewrite Hover.
    replace (Z.sgn qn) with 1 by (symmetry; apply Z.sgn_pos; lia).
    rewrite Z.mul_1_l.
    exists (Qred (m # Z.to_pos P)). split; [reflexivity|].
    rewrite !Qred_correct.
    unfold Qminus. unfold Qle, Qplus, Qopp. cbn [Qnum Qden].
    rewrite !Pos2Z.inj_mul, !Z2Pos.id by lia.
    repeat split; nia.
Qed.

(** [x.toFixed(1)] is the number of tenths nearest to [x]. *)
Lemma toFixed_1 p :
  (0 <= p)%Q -> (p < 2199023255552)%Q ->
  exists n,
    toFixed 1 (Num p) = Num (Qred (n # 10))
    /\ (inject_Z n <= p * 10 + (1 # 2))%Q
    /\ (p * 10 + (1 # 2) < inject_Z n + 1)%Q.
Proof.
  intros H0 Hlt. unfold toFixed.
  pose proof (Qabs_pos p H0) as Habs.
  assert (Hsmall : Qle_bool (inject_Z (10 ^ 21)) (Qabs p) = false).
  { apply not_true_is_false. intros H. apply Qle_bool_iff in H.
    change (inject_Z (10 ^ 21)) with 1000000000000000000000%Q in H.
    lra. }
  rewrite Hsmall.
  change (10 ^ Z.of_nat 1) with 10.
  change (Z.to_pos 10) with 10%positive.
  change (inject_Z 10) with 10%Q.
  destruct (Qlt_le_dec p 0) as [Hneg | _]; [lra|].
  exists (Qfloor (Qabs p * 10 + (1 # 2))). split; [reflexivity|].
  pose proof (Qfloor_le (Qabs p * 10 + (1 # 2))) as H1.
  pose proof (Qlt_floor (Qabs p * 10 + (1 # 2))) as H2.
  rewrite inject_Z_plus in H2. change (inject_Z 1) with 1%Q in H2.
  split; lra.
Qed.

(** A whole number. *)
Lemma near_whole z : 0 <= z -> near (Num (inject_Z z)) (inject_Z z) (1 # 8192).
Proof.
  intros Hz. exists (inject_Z z). split; [reflexivity|].
  assert (0 <= inject_Z z)%Q by (rewrite <- (Zle_Qle 0); exact Hz).
  repeat split; lra.
Qed.

(** What the panel shows for [h] hours, [m] minutes and [sec] seconds is a
    number of tenths within 3 seconds of them: each of the four operations
    rounds, by [2^-13] at most, and [toFixed] takes the nearest tenth of the
    sum. *)
Lemma minutes_shown_near x h m sec :
  0 <= h < 17179869184 -> 0 <= m < 60 -> 0 <= sec < 60 ->
  near x (inject_Z h) (1 # 8192) ->
  exists n,
    minutes_shown x (Num (inject_Z m)) (Num (inject_Z sec))
    = Num (Qred (n # 10))
    /\ 6 * n - 3 <= 3600 * h + 60 * m + sec <= 6 * n + 3.
Proof.
  intros Hh Hm Hs (q & -> & Hq0 & Hq1 & Hq2).
  assert (Hh' : (0 <= inject_Z h /\ inject_Z h <= 17179869183)%Q).
  { split; [rewrite <- (Zle_Qle 0); lia|].
    change 17179869183%Q with (inject_Z 17179869183).
    rewrite <- Zle_Qle. lia. }
  assert (Hm' : (0 <= inject_Z m /\ inject_Z m <= 59)%Q).
  { split; [rewrite <- (Zle_Qle 0); lia|].
    change 59%Q with (inject_Z 59). rewrite <- Zle_Qle. lia. }
  assert (Hs' : (0 <= inject_Z sec /\ inject_Z sec <= 59)%Q).
  { split; [rewrite <- (Zle_Qle 0); lia|].
    change 59%Q with (inject_Z 59). rewrite <- Zle_Qle. lia. }
  destruct Hh' as (Hh1 & Hh2), Hm' as (Hm1 & Hm2), Hs' as (Hs1 & Hs2).
  unfold minutes_shown, times, divide.
  change (inject_Z (Z.pos 60)) with 60%Q.
  destruct (double_near (q * 60)) as (p1 & -> & H10 & H11 & H12); [lra | lra|].
  cbn [plus].
  destruct (double_near (p1 + inject_Z m)) as (p2 & -> & H20 & H21 & H22);
    [lra | lra|].
  set (y := (inject_Z sec / 60)%Q).
  assert (Hy : (y * 60 == inject_Z sec)%Q) by (unfold y; field).
  destruct (double_near y) as (p3 & -> & H30 & H31 & H32); [lra | lra|].
  cbn [plus].
  destruct (double_near (p2 + p3)) as (p4 & -> & H40 & H41 & H42);
    [lra | lra|].
  destruct (toFixed_1 p4) as (n & -> & Hn1 & Hn2); [lra | lra|].
  exists n. split; [reflexivity|].
  assert (Hlo : (inject_Z (6 * n - 3) < inject_Z (3600 * h + 60 * m + sec + 1))%Q).
  { unfold Z.sub. rewrite !inject_Z_plus, !inject_Z_mult, inject_Z_opp.
    change (inject_Z 6) with 6%Q. change (inject_Z 3) with 3%Q.
    change (inject_Z 3600) with 3600%Q. change (inject_Z 60) with 60%Q.
    change (inject_Z 1) with 1%Q. lra. }
  assert (Hhi : (inject_Z (3600 * h + 60 * m + sec) < inject_Z (6 * n + 3 + 1))%Q).
  { rewrite !inject_Z_plus, !inject_Z_mult.
    change (inject_Z 6) with 6%Q. change (inject_Z 3) with 3%Q.
    change (inject_Z 3600) with 3600%Q. change (inject_Z 60) with 60%Q.
    change (inject_Z 1) with 1%Q. lra. }
  rewrite <- Zlt_Qlt in Hlo, Hhi. lia.
Qed.

End Numbers.

Section DurationRoundTrip.

Import SessionStats SessionStatsPanel.

Lemma range_check (p : Z -> bool) (k : nat) :
  forallb p (map Z.of_nat (seq 0 k)) = true ->
  forall n, 0 <= n < Z.of_nat k -> p n = true.
Proof.
  intros H n Hn. rewrite forallb_forall in H. apply H.
  rewrite <- (Z2Nat.id n) by lia. apply in_map. apply in_seq. lia.
Qed.

Lemma split_not_nil sep s : split sep s <> [].
Proof.
  destruct s as [|c s]; cbn; [discriminate|].
  destruct (Ascii.eqb c sep); [discriminate|].
  destruct (split sep s); discriminate.
Qed.

(** A text without the separator is one piece; put before a separator it is
    the first piece. *)
Lemma split_first sep a b :
  split sep a = [a] ->
  split sep (a ++ String sep b) = a :: split sep b.
Proof.
  induction a as [|c a IH]; cbn.
  - intros _. now rewrite Ascii.eqb_refl.
  - destruct (Ascii.eqb c sep); [discriminate|].
    destruct (split sep a) as [|piece pieces] eqn:E.
    + now destruct (split_not_nil sep a).
    + intros [= -> ->]. now rewrite IH.
Qed.

Lemma split_one_piece sep a b :
  split sep a = [a] -> split sep b = [b] ->
  split sep (a ++ b) = [(a ++ b)%string].
Proof.
  induction a as [|c a IH]; cbn; [auto|].
  destruct (Ascii.eqb c sep); [discriminate|].
  destruct (split sep a) as [|piece pieces] eqn:E.
  - now destruct (split_not_nil sep a).
  - intros [= -> ->] Hb. now rewrite IH.
Qed.

(** Two digits printed by the database: no colon, no dot, and [parseInt]
    reads the number back. *)
Lemma pad2_facts n :
  0 <= n < 100 ->
  split ":" (pad2 n) = [pad2 n]
  /\ split "." (pad2 n) = [pad2 n]
  /\ parseInt (pad2 n) = Num (inject_Z n).
Proof.
  intros Hn.
  assert (Hall : forallb
            (fun n => match split ":" (pad2 n), split "." (pad2 n),
                            parseInt (pad2 n) with
                      | [x], [y], Num q =>
                          String.eqb x (pad2 n) && String.eqb y (pad2 n)
                          && (Qnum q =? n) && (Qden q =? 1)%positive
                      | _, _, _ => false
                      end)
            (map Z.of_nat (seq 0 100)) = true)
    by (vm_compute; reflexivity).
  pose proof (range_check _ 100 Hall n Hn) as H.
  cbv beta in H.
  destruct (split ":" (pad2 n)) as [|x [|? ?]]; try discriminate H.
  destruct (split "." (pad2 n)) as [|y [|? ?]]; try discriminate H.
  destruct (parseInt (pad2 n)) as [|[qn qd]|]; try discriminate H.
  cbn in H. rewrite !andb_true_iff in H.
  destruct H as (((Hx & Hy) & Hq) & Hd).
  apply String.eqb_eq in Hx, Hy. apply Z.eqb_eq in Hq.
  destruct qd; try discriminate Hd. subst. repeat split.
Qed.

(** The fraction of a second the database prints: empty or a dot followed
    by digits, without a colon. *)
Lemma fraction_facts f :
  0 <= f < 1000 ->
  split ":" (fraction f) = [fraction f]
  /\ (fraction f = "" \/ exists rest, fraction f = String "." rest).
Proof.
  intros Hf.
  pose proof (range_check
    (fun f => match split ":" (fraction f) with
              | [x] => String.eqb x (fraction f)
              | _ => false
              end
              && match fraction f with
                 | EmptyString => true
                 | String c _ => Ascii.eqb c "."
                 end) 1000 eq_refl f Hf) as H.
  cbv beta in H. apply andb_true_iff in H as (H1 & H2). split.
  - destruct (split ":" (fraction f)) as [|x [|? ?]]; try discriminate H1.
    apply String.eqb_eq in H1. now subst.
  - destruct (fraction f) as [|c rest]; [now left|].
    apply Ascii.eqb_eq in H2. subst. right. now exists rest.
Qed.

Lemma interval_out_less_than_a_day d :
  0 <= d < 86400000 ->
  interval_out d
  = (pad2 (d / 3600000)
     ++ String ":" (pad2 (d / 60000 mod 60)
                    ++ String ":" (pad2 (d / 1000 mod 60)
                                   ++ fraction (d mod 1000))))%string.
Proof.
  intros Hd. unfold interval_out. cbv zeta.
  rewrite Z.abs_eq by lia. rewrite Z.div_small by lia.
  rewrite Z.mod_small by lia.
  replace (d <? 0) with false by (symmetry; apply Z.ltb_ge; lia).
  reflexivity.
Qed.

Lemma append_empty (s : string) : (s ++ "")%string = s.
Proof. induction s as [|c s IH]; cbn; [reflexivity | now rewrite IH]. Qed.

Lemma whole_seconds d :
  0 <= d ->
  3600 * (d / 3600000) + 60 * (d / 60000 mod 60) + d / 1000 mod 60 = d / 1000.
Proof.
  intros Hd.
  replace (d / 3600000) with (d / 1000 / 60 / 60)
    by (rewrite !Z.div_div by lia; reflexivity).
  replace (d / 60000) with (d / 1000 / 60)
    by (rewrite Z.div_div by lia; reflexivity).
  pose proof (Z.div_mod (d / 1000) 60).
  pose proof (Z.div_mod (d / 1000 / 60) 60). lia.
Qed.

(** X21.  For a session that lasted less than a day, the duration the
    database prints ([hh:mm:ss] with an optional fraction) is read back by
    the panel: [durationInMinutes] does not throw, and the number it shows
    is a whole number [n] of tenths of a minute that is within 0.05 minutes
    (3 seconds) of the whole seconds of the duration.  So [n] is the nearest
    tenth; for a duration halfway between two tenths it is one of the two
    (the sum is a binary floating-point number, which lies slightly to one
    side of such a point). *)
Theorem duration_of_less_than_a_day_is_read_back d :
  0 <= d < 86400000 ->
  exists n : Z,
    durationInMinutes (interval_out d) = Some (Num (Qred (n # 10)))
    /\ 6 * n - 3 <= d / 1000 <= 6 * n + 3.
Proof.
  intros Hd. rewrite (interval_out_less_than_a_day d Hd).
  assert (Hh : 0 <= d / 3600000 < 24).
  { split; [apply Z.div_pos; lia|]. apply Z.div_lt_upper_bound; lia. }
  assert (Hm : 0 <= d / 60000 mod 60 < 60)
    by (apply Z.mod_pos_bound; lia).
  assert (Hs : 0 <= d / 1000 mod 60 < 60)
    by (apply Z.mod_pos_bound; lia).
  assert (Hf : 0 <= d mod 1000 < 1000) by (apply Z.mod_pos_bound; lia).
  destruct (pad2_facts (d / 3600000) ltac:(lia)) as (Hh1 & _ & Hh3).
  destruct (pad2_facts (d / 60000 mod 60) ltac:(lia)) as (Hm1 & _ & Hm3).
  destruct (pad2_facts (d / 1000 mod 60) ltac:(lia)) as (Hs1 & Hs2 & Hs3).
  destruct (fraction_facts _ Hf) as (Hf1 & Hf2).
  unfold durationInMinutes.
  rewrite (split_first ":" _ _ Hh1), (split_first ":" _ _ Hm1),
    (split_one_piece ":" _ _ Hs1 Hf1).
  cbn [nth_error parseInt_of].
  assert (Hhd : hd "" (split "." (pad2 (d / 1000 mod 60)
                                  ++ fraction (d mod 1000)))
                = pad2 (d / 1000 mod 60)).
  { destruct Hf2 as [-> | (rest & ->)].
    - now rewrite append_empty, Hs2.
    - now rewrite (split_first "." _ _ Hs2). }
  rewrite Hhd, Hh3, Hm3, Hs3.
  destruct (minutes_shown_near (Num (inject_Z (d / 3600000))) (d / 3600000)
              (d / 60000 mod 60) (d / 1000 mod 60))
    as (n & -> & Hn); try lia.
  - apply near_whole. lia.
  - exists n. split; [reflexivity|].
    now rewrite (whole_seconds d (proj1 Hd)) in Hn.
Qed.

(** *** A day or more *)

Lemma append_assoc (a b c : string) :
  ((a ++ b) ++ c)%string = (a ++ (b ++ c))%string.
Proof. induction a as [|x a IH]; cbn; [reflexivity | now rewrite IH]. Qed.

(** The digits of a number hold no colon. *)
Lemma digits_one_piece d :
  split ":" (NilEmpty.string_of_uint d) = [NilEmpty.string_of_uint d].
Proof. induction d; cbn; try rewrite IHd; reflexivity. Qed.

(** Reading the digits of a number printed in decimal, after digits that
    amount to [acc], up to a space. *)
Lemma read_digits_after d :
  forall acc rest,
    read_digits 10 (Some (Z.pos acc))
      (NilEmpty.string_of_uint d ++ String " " rest)
    = Some (Z.pos (Pos.of_uint_acc d acc)).
Proof.
  induction d; intros acc rest;
    cbn [NilEmpty.string_of_uint append read_digits Pos.of_uint_acc].
  - reflexivity.
  - change (digit_value 10 "0") with (Some 0). cbv beta iota.
    replace (10 * Z.pos acc + 0) with (Z.pos (10 * acc)) by lia. apply IHd.
  - change (digit_value 10 "1") with (Some 1). cbv beta iota.
    replace (10 * Z.pos acc + 1) with (Z.pos (1 + 10 * acc)) by lia. apply IHd.
  - change (digit_value 10 "2") with (Some 2). cbv beta iota.
    replace (10 * Z.pos acc + 2) with (Z.pos (2 + 10 * acc)) by lia. apply IHd.
  - change (digit_value 10 "3") with (Some 3). cbv beta iota.
    replace (10 * Z.pos acc + 3) with (Z.pos (3 + 10 * acc)) by lia. apply IHd.
  - change (digit_value 10 "4") with (Some 4). cbv beta iota.
    replace (10 * Z.pos acc + 4) with (Z.pos (4 + 10 * acc)) by lia. apply IHd.
  - change (digit_value 10 "5") with (Some 5). cbv beta iota.
    replace (10 * Z.pos acc + 5) with (Z.pos (5 + 10 * acc)) by lia. apply IHd.
  - change (digit_value 10 "6") with (Some 6). cbv beta iota.
    replace (10 * Z.pos acc + 6) with (Z.pos (6 + 10 * acc)) by lia. apply IHd.
  - change (digit_value 10 "7") with (Some 7). cbv beta iota.
    replace (10 * Z.pos acc + 7) with (Z.pos (7 + 10 * acc)) by lia. apply IHd.
  - change (digit_value 10 "8") with (Some 8). cbv beta iota.
    replace (10 * Z.pos acc + 8) with (Z.pos (8 + 10 * acc)) by lia. apply IHd.
  - change (digit_value 10 "9") with (Some 9). cbv beta iota.
    replace (10 * Z.pos acc + 9) with (Z.pos (9 + 10 * acc)) by lia. apply IHd.
Qed.

(** Reading the digits of a number printed in decimal from the start, or
    after zeros only. *)
Lemma read_digits_from_start d :
  forall start rest,
    start = None \/ start = Some 0 ->
    d <> Decimal.Nil ->
    read_digits 10 start (NilEmpty.string_of_uint d ++ String " " rest)
    = Some (Z.of_N (Pos.of_uint d)).
Proof.
  induction d; intros start rest Hstart Hd; try contradiction;
    cbn [NilEmpty.string_of_uint append read_digits Pos.of_uint].
  - change (digit_value 10 "0") with (Some 0). cbv beta iota.
    replace (10 * match start with Some a => a | None => 0 end + 0) with 0
      by (destruct Hstart as [-> | ->]; reflexivity).
    destruct d; try (apply IHd; [now right | discriminate]).
    reflexivity.
  - change (digit_value 10 "1") with (Some 1). cbv beta iota.
    replace (10 * match start with Some a => a | None => 0 end + 1)
      with (Z.pos 1) by (destruct Hstart as [-> | ->]; reflexivity).
    apply read_digits_after.
  - change (digit_value 10 "2") with (Some 2). cbv beta iota.
    replace (10 * match start with Some a => a | None => 0 end + 2)
      with (Z.pos 2) by (destruct Hstart as [-> | ->]; reflexivity).
    apply read_digits_after.
  - change (digit_value 10 "3") with (Some 3). cbv beta iota.
    replace (10 * match start with Some a => a | None => 0 end + 3)
      with (Z.pos 3) by (destruct Hstart as [-> | ->]; reflexivity).
    apply read_digits_after.
  - change (digit_value 10 "4") with (Some 4). cbv beta iota.
    replace (10 * match start with Some a => a | None => 0 end + 4)
      with (Z.pos 4) by (destruct Hstart as [-> | ->]; reflexivity).
    apply read_digits_after.
  - change (digit_value 10 "5") with (Some 5). cbv beta iota.
    replace (10 * match start with Some a => a | None => 0 end + 5)
      with (Z.pos 5) by (destruct Hstart as [-> | ->]; reflexivity).
    apply read_digits_after.
  - change (digit_value 10 "6") with (Some 6). cbv beta iota.
    replace (10 * match start with Some a => a | None => 0 end + 6)
      with (Z.pos 6) by (destruct Hstart as [-> | ->]; reflexivity).
    apply read_digits_after.
  - change (digit_value 10 "7") with (Some 7). cbv beta iota.
    replace (10 * match start with Some a => a | None => 0 end + 7)
      with (Z.pos 7) by (destruct Hstart as [-> | ->]; reflexivity).
    apply read_digits_after.
  - change (digit_value 10 "8") with (Some 8). cbv beta iota.
    replace (10 * match start with Some a => a | None => 0 end + 8)
      with (Z.pos 8) by (destruct Hstart as [-> | ->]; reflexivity).
    apply read_digits_after.
  - change (digit_value 10 "9") with (Some 9). cbv beta iota.
    replace (10 * match start with Some a => a | None => 0 end + 9)
      with (Z.pos 9) by (destruct Hstart as [-> | ->]; reflexivity).
    apply read_digits_after.
Qed.

(** Digits followed by a space are read in decimal: they begin with no
    white space, no sign and no [0x]. *)
Lemma parseInt_reads_decimal d rest :
  d <> Decimal.Nil ->
  parseInt (NilEmpty.string_of_uint d ++ String " " rest)
  = match read_digits 10 None
            (NilEmpty.string_of_uint d ++ String " " rest) with
    | None => NaN
    | Some n => double (inject_Z n)
    end.
Proof.
  intros Hd. destruct d as [|l|l|l|l|l|l|l|l|l|l]; try contradiction;
    try reflexivity.
  destruct l; reflexivity.
Qed.

(** [parseInt] reads a positive number the database printed before a
    space, as the number nearest to it. *)
Lemma parseInt_dec k rest :
  0 < k -> parseInt (dec k ++ String " " rest) = double (inject_Z k).
Proof.
  intros Hk. destruct k as [|p|p]; try lia.
  unfold dec. cbn [Z.to_int NilZero.string_of_int].
  pose proof (DecimalPos.Unsigned.of_to p) as Hp.
  assert (Hd : Pos.to_uint p <> Decimal.Nil).
  { intros E. rewrite E in Hp. discriminate Hp. }
  assert (Hs : NilZero.string_of_uint (Pos.to_uint p)
               = NilEmpty.string_of_uint (Pos.to_uint p)).
  { destruct (Pos.to_uint p); [contradiction | reflexivity ..]. }
  rewrite Hs, (parseInt_reads_decimal _ _ Hd).
  rewrite (read_digits_from_start _ None rest (or_introl eq_refl) Hd), Hp.
  reflexivity.
Qed.

Lemma dec_one_piece k : 0 < k -> split ":" (dec k) = [dec k].
Proof.
  intros Hk. destruct k as [|p|p]; try lia.
  unfold dec. cbn [Z.to_int NilZero.string_of_int].
  destruct (Pos.to_uint p) eqn:E; try reflexivity;
    rewrite <- E; cbn [NilZero.string_of_uint];
    rewrite E; apply digits_one_piece.
Qed.

Lemma interval_out_a_day_or_more d :
  86400000 <= d ->
  interval_out d
  = if (d mod 86400000 =? 0)%Z
    then (dec (d / 86400000)%Z
          ++ String " " (if (d / 86400000 =? 1)%Z then "day" else "days"))%string
    else ((dec (d / 86400000)%Z
           ++ String " " (if (d / 86400000 =? 1)%Z then "day" else "days"))
          ++ String " "
               (pad2 (d mod 86400000 / 3600000)%Z
                ++ String ":"
                     (pad2 (d mod 86400000 / 60000 mod 60)%Z
                      ++ String ":"
                           (pad2 (d mod 86400000 / 1000 mod 60)%Z
                            ++ fraction (d mod 86400000 mod 1000)%Z))))%string.
Proof.
  intros Hd. unfold interval_out. cbv zeta.
  rewrite Z.abs_eq by lia.
  replace (d <? 0) with false by (symmetry; apply Z.ltb_ge; lia).
  assert (Hdays : 1 <= d / 86400000) by (apply Z.div_le_lower_bound; lia).
  replace (d / 86400000 =? 0) with false by (symmetry; apply Z.eqb_neq; lia).
  rewrite andb_true_r.
  destruct (d mod 86400000 =? 0), (d / 86400000 =? 1); reflexivity.
Qed.

(** X30.  For a session that lasted a day or more (and no longer than two
    instants of the range of dates can be apart) the database prints the
    days before the time ([2 days 03:04:05]), and the panel, which splits at
    the colons, reads the number of days where it expects the hours and
    loses the hours: it shows, to the nearest tenth, sixty minutes for each
    day, plus the minutes and the seconds of the time.  When the duration is
    a whole number of days the database prints no time at all, and
    [durationInMinutes] throws. *)
Theorem duration_of_a_day_or_more_is_misread d :
  86400000 <= d <= 17280000000000000 ->
  (d mod 86400000 = 0 -> durationInMinutes (interval_out d) = None)
  /\ (d mod 86400000 <> 0 ->
      exists n : Z,
        durationInMinutes (interval_out d) = Some (Num (Qred (n # 10)))
        /\ 6 * n - 3
           <= 3600 * (d / 86400000)
              + 60 * (d mod 86400000 / 60000 mod 60)
              + d mod 86400000 / 1000 mod 60
           <= 6 * n + 3).
Proof.
  intros (Hd & Hmax). rewrite (interval_out_a_day_or_more d Hd).
  assert (Hdays : 0 < d / 86400000)
    by (apply Z.div_str_pos; lia).
  pose proof (Z.mod_pos_bound d 86400000 ltac:(lia)) as Ht.
  set (t := d mod 86400000) in *.
  set (suffix := if (d / 86400000 =? 1)%Z then "day" else "days").
  assert (Hsuffix : forall tail,
            split ":" tail = [tail] ->
            split ":" (String " " (suffix ++ tail))
            = [String " " (suffix ++ tail)]).
  { intros tail Htail. unfold suffix.
    destruct (d / 86400000 =? 1); cbn; now rewrite Htail. }
  split.
  - intros H0. apply Z.eqb_eq in H0. rewrite H0.
    unfold durationInMinutes.
    rewrite (split_one_piece ":" _ _ (dec_one_piece _ Hdays)).
    + reflexivity.
    + rewrite <- (append_empty suffix). now apply Hsuffix.
  - intros H0. apply Z.eqb_neq in H0. rewrite H0.
    assert (Hh : 0 <= t / 3600000 < 100).
    { split; [apply Z.div_pos; lia|]. apply Z.div_lt_upper_bound; lia. }
    assert (Hm : 0 <= t / 60000 mod 60 < 100)
      by (pose proof (Z.mod_pos_bound (t / 60000) 60); lia).
    assert (Hs : 0 <= t / 1000 mod 60 < 100)
      by (pose proof (Z.mod_pos_bound (t / 1000) 60); lia).
    assert (Hf : 0 <= t mod 1000 < 1000) by (apply Z.mod_pos_bound; lia).
    destruct (pad2_facts _ Hh) as (Hh1 & _ & _).
    destruct (pad2_facts _ Hm) as (Hm1 & _ & Hm3).
    destruct (pad2_facts _ Hs) as (Hs1 & Hs2 & Hs3).
    destruct (fraction_facts _ Hf) as (Hf1 & Hf2).
    set (first := (dec (d / 86400000)%Z
                   ++ String " " (suffix ++ String " " (pad2 (t / 3600000)%Z)))
                  %string).
    assert (Hshape :
      ((dec (d / 86400000)%Z ++ String " " suffix)
       ++ String " "
            (pad2 (t / 3600000)%Z
             ++ String ":"
                  (pad2 (t / 60000 mod 60)%Z
                   ++ String ":"
                        (pad2 (t / 1000 mod 60)%Z ++ fraction (t mod 1000)%Z))))
      %string
      = (first
         ++ String ":"
              (pad2 (t / 60000 mod 60)%Z
               ++ String ":"
                    (pad2 (t / 1000 mod 60)%Z ++ fraction (t mod 1000)%Z)))
        %string).
    { unfold first. rewrite !append_assoc. cbn. now rewrite !append_assoc. }
    rewrite Hshape.
    assert (Hfirst : split ":" first = [first]).
    { unfold first. apply split_one_piece; [now apply dec_one_piece|].
      apply Hsuffix. cbn. now rewrite Hh1. }
    unfold durationInMinutes.
    rewrite (split_first ":" _ _ Hfirst), (split_first ":" _ _ Hm1),
      (split_one_piece ":" _ _ Hs1 Hf1).
    cbn [nth_error parseInt_of].
    assert (Hhd : hd "" (split "." (pad2 (t / 1000 mod 60)%Z
                                    ++ fraction (t mod 1000)%Z))
                  = pad2 (t / 1000 mod 60)%Z).
    { destruct Hf2 as [-> | (rest & ->)].
      - now rewrite append_empty, Hs2.
      - now rewrite (split_first "." _ _ Hs2). }
    unfold first at 1. rewrite (parseInt_dec _ _ Hdays).
    rewrite Hhd, Hm3, Hs3.
    assert (Hsmall : d / 86400000 < 17179869184)
      by (apply Z.div_lt_upper_bound; lia).
    assert (Hq : (0 <= inject_Z (d / 86400000)
                  /\ inject_Z (d / 86400000) < 2199023255552)%Q).
    { split; [rewrite <- (Zle_Qle 0); lia|].
      change 2199023255552%Q with (inject_Z 2199023255552).
      rewrite <- Zlt_Qlt. lia. }
    destruct (minutes_shown_near (double (inject_Z (d / 86400000)))
                (d / 86400000) (t / 60000 mod 60) (t / 1000 mod 60))
      as (n & -> & Hn).
    + lia.
    + apply Z.mod_pos_bound. lia.
    + apply Z.mod_pos_bound. lia.
    + destruct Hq as (Hq1 & Hq2). now apply double_near.
    + exists n. split; [reflexivity | exact Hn].
Qed.

End DurationRoundTrip.


(** ** The trash cleanup *)
Section TrashCleanup.

Import supabase SessionsList trash.

Lemma cleanup_result now db db' :
  cleanup_deleted_sessions now db = Some db' ->
  db' = set_sessions (filter (fun r => negb (expired now r)) (tbl_sessions db)) db
  /\ forall r, In r (tbl_sessions db) -> expired now r = true ->
               referenced db r = false.
Proof.
  unfold cleanup_deleted_sessions.
  destruct (existsb _ (tbl_sessions db)) eqn:E; [discriminate|].
  intros [= <-]. split; [reflexivity|]. intros r Hin Hex.
  destruct (referenced db r) eqn:Er; [|reflexivity].
  assert (existsb (fun r => expired now r && referenced db r)
                  (tbl_sessions db) = true).
  { apply existsb_exists. exists r. now rewrite Hex, Er. }
  congruence.
Qed.

(** X22.  The thirty days of grace.  A session moved to trash at an instant
    [t] is still stored after a cleanup that runs at any instant up to
    [t] plus thirty days; a session restored from trash is still stored
    after a cleanup at any instant. *)
Theorem trash_keeps_sessions_for_thirty_days updating env sessionId db now db' :
  (snd (handleMoveToTrash updating env sessionId db) = ran_through ->
   now <= clock env sessionId + THIRTY_DAYS ->
   cleanup_deleted_sessions now
     (fst (handleMoveToTrash updating env sessionId db)) = Some db' ->
   forall r, In r (tbl_sessions
                     (fst (handleMoveToTrash updating env sessionId db))) ->
             sessions.session_id r = sessionId ->
             In r (tbl_sessions db'))
  /\ (snd (handleRestoreFromTrash updating env sessionId db) = ran_through ->
      cleanup_deleted_sessions now
        (fst (handleRestoreFromTrash updating env sessionId db)) = Some db' ->
      forall r, In r (tbl_sessions
                        (fst (handleRestoreFromTrash updating env sessionId db))) ->
                sessions.session_id r = sessionId ->
                In r (tbl_sessions db')).
Proof.
  unfold handleMoveToTrash, handleRestoreFromTrash. split.
  - intros Hran Hnow Hc r Hin Hsid.
    apply cleanup_result in Hc as (-> & _). cbn.
    apply filter_In. split; [exact Hin|].
    rewrite (update_flag_ran_through _ _ _ _ _ Hran) in Hin. cbn in Hin.
    apply in_map_iff in Hin as (r0 & <- & _).
    destruct (is_session sessionId r0) eqn:E.
    + unfold expired. cbn. apply negb_true_iff. apply Z.ltb_ge.
      unfold THIRTY_DAYS in *. lia.
    + apply is_session_eq in Hsid. congruence.
  - intros Hran Hc r Hin Hsid.
    apply cleanup_result in Hc as (-> & _). cbn.
    apply filter_In. split; [exact Hin|].
    rewrite (update_flag_ran_through _ _ _ _ _ Hran) in Hin. cbn in Hin.
    apply in_map_iff in Hin as (r0 & <- & _).
    destruct (is_session sessionId r0) eqn:E.
    + reflexivity.
    + apply is_session_eq in Hsid. congruence.
Qed.

(** X23.  A cleanup that goes through deletes rows and changes none: the
    rows that stay are rows of before, [messages] and [session_stats] are as
    before, every message of a stored session still has its session, and a
    second cleanup at the same instant deletes nothing more. *)
Theorem cleanup_keeps_the_database_consistent now db db' :
  cleanup_deleted_sessions now db = Some db' ->
  tbl_messages db' = tbl_messages db
  /\ tbl_session_stats db' = tbl_session_stats db
  /\ (forall r, In r (tbl_sessions db') -> In r (tbl_sessions db))
  /\ (forall m, In m (tbl_messages db) ->
                existsb (is_session (messages.session_id m)) (tbl_sessions db)
                = true ->
                existsb (is_session (messages.session_id m)) (tbl_sessions db')
                = true)
  /\ cleanup_deleted_sessions now db' = Some db'.
Proof.
  intros Hc. destruct (cleanup_result now db db' Hc) as (-> & Href). cbn.
  split; [reflexivity|]. split; [reflexivity|]. split; [|split].
  - intros r Hin. now apply filter_In in Hin.
  - intros m Hm Hex. apply existsb_exists in Hex as (r & Hin & Hr).
    apply existsb_exists. exists r. split; [|exact Hr].
    apply filter_In. split; [exact Hin|].
    destruct (expired now r) eqn:E; [|reflexivity].
    specialize (Href r Hin E). unfold referenced in Href.
    assert (existsb (of_session (sessions.session_id r)) (tbl_messages db)
            = true).
    { apply existsb_exists. exists m. split; [exact Hm|].
      apply is_session_eq in Hr. unfold of_session. rewrite Hr.
      apply String.eqb_refl. }
    congruence.
  - unfold cleanup_deleted_sessions.
    destruct (existsb _ (tbl_sessions (set_sessions _ db))) eqn:H.
    + exfalso. apply existsb_exists in H as (r & Hin & Hr).
      cbn in Hin. apply filter_In in Hin as (_ & Hne).
      apply negb_true_iff in Hne. rewrite Hne in Hr. discriminate Hr.
    + f_equal. apply database_eq; cbn; auto.
      apply forallb_filter_id. apply forallb_forall. intros r Hin.
      now apply filter_In in Hin.
Qed.

End TrashCleanup.

(** ** The messages of a session: loading, refreshing, the change feed *)
Section Details.

Import supabase heygen SessionDetails.

Lemma insert_by_perm {A : Type} (key : A -> Z) x l :
  Permutation (insert_by key x l) (x :: l).
Proof.
  induction l as [|y l IH]; cbn; [reflexivity|].
  destruct (key x <=? key y); [reflexivity|].
  rewrite IH. apply perm_swap.
Qed.

Lemma sort_by_perm {A : Type} (key : A -> Z) l :
  Permutation (sort_by key l) l.
Proof.
  induction l as [|x l IH]; cbn; [reflexivity|].
  rewrite insert_by_perm. now constructor.
Qed.

Lemma insert_by_sorted {A : Type} (key : A -> Z) x l :
  StronglySorted (fun a b => key a <= key b) l ->
  StronglySorted (fun a b => key a <= key b) (insert_by key x l).
Proof.
  induction 1 as [|y l Hs IH Hy]; cbn.
  - repeat constructor.
  - destruct (Z.leb_spec (key x) (key y)).
    + constructor; [now constructor|].
      constructor; [assumption|].
      rewrite Forall_forall in *. intros z Hz. specialize (Hy z Hz). lia.
    + constructor; [exact IH|].
      rewrite Forall_forall in *. intros z Hz.
      apply (Permutation_in _ (insert_by_perm key x l)) in Hz.
      destruct Hz as [<- | Hz]; [lia | now apply Hy].
Qed.

Lemma sort_by_sorted {A : Type} (key : A -> Z) l :
  StronglySorted (fun a b => key a <= key b) (sort_by key l).
Proof.
  induction l as [|x l IH]; cbn; [constructor | now apply insert_by_sorted].
Qed.

(** Sorting a list that is in order gives the list. *)
Lemma sort_by_id {A : Type} (key : A -> Z) l :
  StronglySorted (fun a b => key a <= key b) l -> sort_by key l = l.
Proof.
  unfold sort_by.
  induction 1 as [|x l Hs IH Hx]; cbn; [reflexivity|].
  rewrite IH. destruct l as [|y l]; cbn; [reflexivity|].
  inversion Hx as [|? ? Hxy _]; subst.
  now apply Z.leb_le in Hxy as ->.
Qed.

(** Taking elements away and sorting can be done in either order. *)
Lemma filter_insert_by {A : Type} (key : A -> Z) (p : A -> bool) x l :
  StronglySorted (fun a b => key a <= key b) l ->
  filter p (insert_by key x l)
  = if p x then insert_by key x (filter p l) else filter p l.
Proof.
  induction 1 as [|y l Hs IH Hy]; cbn.
  - now destruct (p x).
  - destruct (Z.leb_spec (key x) (key y)) as [Hle | Hgt]; cbn.
    + destruct (p x) eqn:Ex, (p y) eqn:Ey; cbn; try reflexivity.
      * apply Z.leb_le in Hle as Hb. now rewrite Hb.
      * f_equal.
        assert (Hall : Forall (fun z => key x <= key z) (filter p l)).
        { rewrite Forall_forall in *. intros z Hz.
          apply filter_In in Hz as (Hz & _). specialize (Hy z Hz). lia. }
        destruct (filter p l) as [|z l']; cbn; [reflexivity|].
        inversion Hall as [|? ? Hxz _]; subst.
        now apply Z.leb_le in Hxz as ->.
    + rewrite IH. destruct (p x) eqn:Ex, (p y) eqn:Ey; cbn; try reflexivity.
      apply Z.leb_gt in Hgt as Hb. now rewrite Hb.
Qed.

Lemma filter_sort_by {A : Type} (key : A -> Z) (p : A -> bool) l :
  filter p (sort_by key l) = sort_by key (filter p l).
Proof.
  induction l as [|x l IH]; [reflexivity|].
  change (sort_by key (x :: l)) with (insert_by key x (sort_by key l)).
  rewrite filter_insert_by by apply sort_by_sorted.
  rewrite IH. cbn [filter]. now destruct (p x).
Qed.

(** X24.  The change feed keeps the list of the component in shape: if the
    list holds only messages of the session, holds no id twice and is in the
    order of the timestamps, it still does after any INSERT, UPDATE or DELETE
    event, whatever session the event is about. *)
Theorem change_feed_keeps_the_list_well_formed
    sessionId isAtBottom st payload :
  well_formed sessionId (messages st) ->
  well_formed sessionId
    (messages (on_change sessionId isAtBottom st payload)).
Proof.
  intros (Hs & Hn & Ho). unfold on_change.
  destruct payload as [new | new | old].
  - destruct (negb (String.eqb (session_id new) sessionId)) eqn:Esid;
      cbn [orb]; [now repeat split|].
    destruct (existsb (has_id (id new)) (messages st)) eqn:Eid;
      [now repeat split|].
    cbn [messages]. apply negb_false_iff, String.eqb_eq in Esid.
    pose proof (sort_by_perm timestamp (messages st ++ [new])) as Hp.
    split; [|split].
    + apply (Permutation_Forall (Permutation_sym Hp)).
      apply Forall_app. split; [exact Hs | now repeat constructor].
    + apply (Permutation_NoDup
               (Permutation_map id (Permutation_sym Hp))).
      rewrite map_app. cbn.
      apply (Permutation_NoDup (Permutation_cons_append _ _)).
      constructor; [|exact Hn].
      intros Hin. apply in_map_iff in Hin as (msg & Hid & Hin).
      assert (existsb (has_id (id new)) (messages st) = true).
      { apply existsb_exists. exists msg. split; [exact Hin|].
        unfold has_id. rewrite Hid. apply String.eqb_refl. }
      congruence.
    + apply sort_by_sorted.
  - destruct (String.eqb (session_id new) sessionId) eqn:Esid;
      [|now repeat split].
    cbn [messages]. apply String.eqb_eq in Esid.
    pose proof (sort_by_perm timestamp
                  (map (fun msg => if has_id (id new) msg then new else msg)
                       (messages st))) as Hp.
    split; [|split].
    + apply (Permutation_Forall (Permutation_sym Hp)).
      apply Forall_map. apply Forall_forall. intros msg Hin.
      destruct (has_id (id new) msg); [exact Esid|].
      rewrite Forall_forall in Hs. now apply Hs.
    + apply (Permutation_NoDup
               (Permutation_map id (Permutation_sym Hp))).
      rewrite map_map.
      rewrite (map_ext (fun msg => id (if has_id (id new) msg
                                       then new else msg)) id); [exact Hn|].
      intros msg. unfold has_id.
      destruct (String.eqb_spec (id msg) (id new)); congruence.
    + apply sort_by_sorted.
  - destruct (String.eqb (session_id old) sessionId); [|now repeat split].
    cbn [messages]. split; [|split].
    + apply Forall_forall. intros msg Hin. apply filter_In in Hin as (Hin & _).
      rewrite Forall_forall in Hs. now apply Hs.
    + clear Hs Ho. induction (messages st) as [|msg l IH]; cbn; [constructor|].
      inversion Hn as [|? ? Hnotin Hn']; subst.
      destruct (negb (has_id (id old) msg)); [|now apply IH].
      cbn. constructor; [|now apply IH].
      intros Hin. apply Hnotin. apply in_map_iff in Hin as (m & Hm & Hin).
      apply filter_In in Hin as (Hin & _). rewrite <- Hm. now apply in_map.
    + unfold ordered. clear Hs Hn.
      induction Ho as [|msg l Hsl IH Hm]; cbn; [constructor|].
      destruct (negb (has_id (id old) msg)); [|exact IH].
      constructor; [exact IH|].
      rewrite Forall_forall in *. intros z Hz.
      apply filter_In in Hz as (Hz & _). now apply Hm.
Qed.

(** X25.  An INSERT event delivered twice counts once: the second delivery
    changes neither the list nor the count of new messages. *)
Theorem insert_event_twice sessionId isAtBottom1 isAtBottom2 st new :
  on_change sessionId isAtBottom2
    (on_change sessionId isAtBottom1 st (INSERT new)) (INSERT new)
  = on_change sessionId isAtBottom1 st (INSERT new).
Proof.
  unfold on_change at 2.
  destruct (negb (String.eqb (session_id new) sessionId)) eqn:Esid;
    cbn [orb].
  - unfold on_change. now rewrite Esid.
  - destruct (existsb (has_id (id new)) (messages st)) eqn:Eid.
    + unfold on_change. now rewrite Esid, Eid.
    + unfold on_change. rewrite Esid, Eid. cbn [orb messages].
      assert (H : existsb (has_id (id new))
                    (sort_by timestamp (messages st ++ [new])) = true).
      { apply existsb_exists. exists new. split.
        - apply (Permutation_in _
                   (Permutation_sym (sort_by_perm timestamp _))).
          apply in_or_app. right. now left.
        - unfold has_id. apply String.eqb_refl. }
      now rewrite H.
Qed.

(** X26.  For a list in shape, the INSERT event of a message of the
    session whose id is new, followed by the DELETE event of that message,
    gives back the list. *)
Theorem insert_then_delete sessionId isAtBottom1 isAtBottom2 st new :
  well_formed sessionId (messages st) ->
  session_id new = sessionId ->
  existsb (has_id (id new)) (messages st) = false ->
  messages
    (on_change sessionId isAtBottom2
       (on_change sessionId isAtBottom1 st (INSERT new)) (DELETE new))
  = messages st.
Proof.
  intros (_ & _ & Ho) Hsid Hfresh. unfold on_change.
  rewrite Hsid, String.eqb_refl, Hfresh. cbn [negb orb messages].
  rewrite filter_sort_by, filter_app. cbn [filter].
  unfold has_id at 2. rewrite String.eqb_refl. cbn [negb].
  rewrite app_nil_r.
  rewrite forallb_filter_id; [now apply sort_by_id|].
  apply forallb_forall. intros msg Hin. apply negb_true_iff.
  destruct (has_id (id new) msg) eqn:E; [|reflexivity].
  assert (existsb (has_id (id new)) (messages st) = true)
    by (apply existsb_exists; eauto).
  congruence.
Qed.

Lemma select_single_known env sid db r :
  select_single env sid db = Some r ->
  existsb (is_session sid) (tbl_sessions db) = true.
Proof.
  unfold select_single. destruct (refused env (select_session sid));
    [discriminate|].
  destruct (filter (is_session sid) (tbl_sessions db)) as [|x [|y l]] eqn:E;
    try discriminate.
  intros _. apply existsb_exists. exists x.
  assert (Hin : In x (filter (is_session sid) (tbl_sessions db)))
    by (rewrite E; now left).
  now apply filter_In in Hin.
Qed.

(** X27.  [fetchMessages] for a stored session, the selects answered: when
    the session has messages it shows them in the order of their timestamps
    and reports no error; when it has none it sets the empty list and then
    reports an error, because the statistics are read off the first
    message. *)
Theorem fetchMessages_reports_an_error_for_no_messages
    sessionId env db session :
  sessionId <> "" ->
  select_single env sessionId db = Some session ->
  refused env (select_messages sessionId) = false ->
  let rows := filter (of_session sessionId) (tbl_messages db) in
  (rows = [] ->
   fetchMessages sessionId env db = {| shown := Some []; error := true |})
  /\ (rows <> [] ->
      exists l,
        fetchMessages sessionId env db = {| shown := Some l; error := false |}
        /\ Permutation l rows
        /\ StronglySorted
             (fun a b => messages.timestamp a <= messages.timestamp b) l).
Proof.
  intros Hne Hs Hm rows. apply String.eqb_neq in Hne.
  unfold fetchMessages, select_messages_of. rewrite Hne, Hs, Hm.
  fold rows. split.
  - intros ->. reflexivity.
  - intros Hrows.
    destruct (sort_by messages.timestamp rows) as [|x l] eqn:E.
    + exfalso. apply Hrows.
      apply Permutation_nil. rewrite <- E. apply sort_by_perm.
    + exists (x :: l). split; [reflexivity|]. rewrite <- E.
      split; [apply sort_by_perm | apply sort_by_sorted].
Qed.

(** X28.  [refreshMessages] past its guard, for a stored session, the
    selects answered and the inserts accepted, every message of the
    provider's transcript carrying a timestamp that is an instant: the list
    it shows is the stored messages of the session after the pull, and it
    has a message with the content of every message of the transcript. *)
Theorem refreshMessages_shows_the_transcript sessionId env db session fetched :
  sessionId <> "" ->
  select_single env sessionId db = Some session ->
  refused env (select_messages sessionId) = false ->
  fetchHeyGenMessages env sessionId = Fulfilled fetched ->
  (forall m, In m fetched ->
             refused env (insert_message sessionId (content m)) = false) ->
  (forall m, In m fetched -> TimeClip (hm_timestamp m) <> None) ->
  exists l err,
    snd (refreshMessages false sessionId env db)
    = Some {| shown := Some l; error := err |}
    /\ Permutation l
         (filter (of_session sessionId)
                 (tbl_messages (fst (refreshMessages false sessionId env db))))
    /\ forall m, In m fetched ->
                 exists row, In row l /\ messages.message row = content m.
Proof.
  intros Hne Hs Hm Hf Hins Hts.
  pose proof (select_single_known env sessionId db session Hs) as Hknown.
  apply String.eqb_neq in Hne.
  unfold refreshMessages. rewrite Hne. cbn [orb fst snd].
  rewrite syncHeyGenMessages_appends.
  unfold fetchMessages, select_messages_of. rewrite Hne, Hm.
  rewrite (select_single_ext env sessionId db
             (set_messages (tbl_messages db ++ appended env sessionId db) db)
             eq_refl), Hs.
  cbn [tbl_messages set_messages].
  set (rows := filter (of_session sessionId)
                      (tbl_messages db ++ appended env sessionId db)).
  assert (Hall : forall m, In m fetched ->
            exists row, In row rows /\ messages.message row = content m).
  { intros m Hin. unfold rows. rewrite filter_app, appended_of_session.
    destruct (existsb (fun existing =>
                         String.eqb (messages.message existing) (content m))
                      (filter (of_session sessionId) (tbl_messages db)))
      eqn:E.
    - apply existsb_exists in E as (row & Hrow & Heq).
      apply String.eqb_eq in Heq. exists row. split; [|exact Heq].
      apply in_or_app. now left.
    - destruct (TimeClip (hm_timestamp m)) as [t|] eqn:Et;
        [|now destruct (Hts m Hin)].
      exists (row_of sessionId m t). split; [|reflexivity].
      apply in_or_app. right. unfold appended, select_messages_of.
      rewrite Hf, Hm. cbv zeta. apply rows_of_intro; [|exact Et].
      rewrite reached_all by (intros m' Hm' _; now apply Hts).
      apply filter_In. split; [exact Hin|].
      cbn [messageExists]. now rewrite E, (Hins m Hin), Hknown. }
  destruct (sort_by messages.timestamp rows) as [|x l] eqn:E.
  - exists [], true. split; [reflexivity|]. split.
    + rewrite <- E. apply sort_by_perm.
    + intros m Hin. destruct (Hall m Hin) as (row & Hrow & _).
      apply (Permutation_in _
               (Permutation_sym (sort_by_perm messages.timestamp rows)))
        in Hrow.
      rewrite E in Hrow. contradiction.
  - exists (x :: l), false. split; [reflexivity|]. split.
    + rewrite <- E. apply sort_by_perm.
    + intros m Hin. destruct (Hall m Hin) as (row & Hrow & Heq).
      exists row. split; [|exact Heq]. rewrite <- E.
      now apply (Permutation_in _
                   (Permutation_sym (sort_by_perm messages.timestamp rows))).
Qed.

End Details.

(** ** What a stopped session looks like *)
Section Display.

Import supabase SessionsList SessionsListDisplay.

(** X29.  Once [handleStopSession] has run through, every row of the
    session shows as 'Voltooid' without a provider status beside it, in the
    colour of completed sessions, and no stop button is rendered for it. *)
Theorem stopped_session_shows_as_completed stoppingSession env sessionId db :
  snd (snd (handleStopSession stoppingSession env sessionId db)) = ran_through ->
  forall r,
    In r (tbl_sessions
            (fst (snd (handleStopSession stoppingSession env sessionId db)))) ->
    sessions.session_id r = sessionId ->
    getStatusDisplay r = "Voltooid"
    /\ getStatusColor (sessions.status r) = "bg-blue-500"
    /\ shows_stop_button r = false.
Proof.
  unfold handleStopSession.
  destruct (truthy stoppingSession); [discriminate|].
  destruct (heygen.stopHeyGenSession env sessionId) as [sent [data|]];
    [|discriminate].
  unfold update_sessions.
  destruct (refused env (update_session sessionId)); [discriminate|].
  cbn. intros _ r Hin Hsid.
  apply in_map_iff in Hin as (r0 & <- & _).
  destruct (is_session sessionId r0) eqn:E.
  - cbn. repeat split. unfold shows_stop_button. cbn.
    now rewrite andb_false_r.
  - apply is_session_eq in Hsid. congruence.
Qed.

End Display.

(** ** Witnesses of the further properties *)
Section MoreWitnesses.

Import supabase heygen SessionsList SessionStats SessionStatsPanel.

Lemma unconfigured_key_sends_nothing_witness :
  getAllActiveSessions SampleMore.unconfigured = ([], Fulfilled []).
Proof.
  apply (unconfigured_key_sends_nothing SampleMore.unconfigured "a" "hi"
           Sample.two_live).
  left. reflexivity.
Defined.

Lemma active_sessions_come_from_an_ok_answer_witness :
  fst (getAllActiveSessions (Sample.env (Sample.listing ["b"]) [])) = []
  \/ fst (getAllActiveSessions (Sample.env (Sample.listing ["b"]) []))
     = [streaming_list].
Proof.
  apply (active_sessions_come_from_an_ok_answer
           (Sample.env (Sample.listing ["b"]) [])
           [{| hs_session_id := "b"; hs_status := "connected";
               hs_created_at := 5 |}]).
  reflexivity.
Defined.

Lemma provider_outage_completes_every_live_session_witness :
  filter is_live
    (tbl_sessions
       (fst (handleRefresh false (Sample.env Sample.offline [])
               Sample.two_live)))
  = [].
Proof.
  apply (provider_outage_completes_every_live_session
           (Sample.env Sample.offline []) Sample.two_live).
  - right. left. reflexivity.
  - reflexivity.
  - intros r _ _. reflexivity.
Defined.

Lemma stop_is_sent_when_status_query_fails_witness :
  fst (stopHeyGenSession (Sample.env SampleMore.status_fails []) "a")
  = [streaming_get "a"; streaming_stop "a"].
Proof.
  apply (stop_is_sent_when_status_query_fails
           (Sample.env SampleMore.status_fails []) "a").
  - reflexivity.
  - right. exists Rejected. reflexivity.
Defined.

Lemma stop_session_outcomes_witness :
  snd (snd (handleStopSession None SampleMore.unconfigured
              "a" Sample.two_live))
  = ran_through.
Proof.
  apply (stop_session_outcomes None SampleMore.unconfigured "a"
           Sample.two_live eq_refl).
  - discriminate.
  - reflexivity.
Defined.

(** Session ["a"] of the sample is neither archived nor relevant.
    Archiving it and taking it out of the archive gives back the database;
    marking it relevant from a list that shows it as relevant already, and
    then toggling back, does not. *)
Lemma toggle_and_toggle_back_witness :
  fst (handleToggleArchived None (Sample.env Sample.offline []) "a" true
         (fst (handleToggleArchived None (Sample.env Sample.offline []) "a"
                 false Sample.two_live)))
  = Sample.two_live
  /\ fst (handleToggleRelevant None (Sample.env Sample.offline []) "a" false
            (fst (handleToggleRelevant None (Sample.env Sample.offline []) "a"
                    true Sample.two_live)))
     <> Sample.two_live.
Proof.
  split.
  - apply (proj2 (toggle_and_toggle_back None None
                    (Sample.env Sample.offline [])
                    (Sample.env Sample.offline []) "a" false Sample.two_live));
      try reflexivity.
    intros r [<- | [<- | []]] H; [reflexivity | discriminate H].
  - intros Heq.
    pose proof (proj1 (proj1 (toggle_and_toggle_back None None
                                (Sample.env Sample.offline [])
                                (Sample.env Sample.offline []) "a" true
                                Sample.two_live)
                             eq_refl eq_refl) Heq
                  _ (or_introl eq_refl) eq_refl) as Hr.
    discriminate Hr.
Defined.

Lemma fetchSessions_newest_first_witness :
  StronglySorted (fun a b => sessions.start_time b <= sessions.start_time a)
    [Sample.session "b" sessions.connected None false None;
     Sample.session "a" sessions.active None false None].
Proof.
  apply (fetchSessions_newest_first all 0 10 ACTIVE
           (Sample.env Sample.offline []) Sample.two_live).
  reflexivity.
Defined.


Lemma second_refresh_changes_no_session_witness :
  tbl_sessions
    (fst (handleRefresh false
            (Sample.env (Sample.listing ["b"]) Sample.transcript)
            (fst (handleRefresh false
                    (Sample.env (Sample.listing ["b"]) Sample.transcript)
                    Sample.two_live))))
  = tbl_sessions
      (fst (handleRefresh false
              (Sample.env (Sample.listing ["b"]) Sample.transcript)
              Sample.two_live)).
Proof.
  apply (second_refresh_changes_no_session
           (Sample.env (Sample.listing ["b"]) Sample.transcript)
           (Sample.env (Sample.listing ["b"]) Sample.transcript)
           false Sample.two_live
           [{| hs_session_id := "b"; hs_status := "connected";
               hs_created_at := 5 |}]).
  - reflexivity.
  - reflexivity.
  - reflexivity.
  - intros r _ _. reflexivity.
Defined.

(** A transcript whose second message carries no timestamp.  With the
    select answered nothing is inserted: ["hello"] is stored, the loop ends
    at ["hi"], and ["bye"] is not reached.  With the select refused
    ["hello"] is inserted again. *)
Lemma sync_stops_at_the_first_undated_message_witness :
  (exists before rest rows,
     SampleMore.undated = before ++ rest
     /\ Forall (fun m =>
                  negb (existsb
                          (fun existing =>
                             String.eqb (messages.message existing) (content m))
                          [Sample.hello]) = true ->
                  TimeClip (hm_timestamp m) <> None) before
     /\ match rest with
        | [] => True
        | m :: _ =>
            negb (existsb
                    (fun existing =>
                       String.eqb (messages.message existing) (content m))
                    [Sample.hello]) = true
            /\ TimeClip (hm_timestamp m) = None
        end
     /\ tbl_messages
          (fst (syncHeyGenMessages
                  (Sample.env Sample.offline SampleMore.undated)
                  "b" Sample.two_live))
        = tbl_messages Sample.two_live ++ rows
     /\ Forall2
          (fun m row =>
             messages.session_id row = "b"
             /\ messages.sender row
                = (if String.eqb (role m) "user" then "user" else "avatar")
             /\ messages.message row = content m
             /\ TimeClip (hm_timestamp m) = Some (messages.timestamp row))
          (filter
             (fun m =>
                negb (existsb
                        (fun existing =>
                           String.eqb (messages.message existing) (content m))
                        [Sample.hello]))
             before)
          rows)
  /\ fst (syncHeyGenMessages (Sample.env Sample.offline SampleMore.undated)
            "b" Sample.two_live)
     = Sample.two_live
  /\ tbl_messages
       (fst (syncHeyGenMessages (SampleMore.no_select SampleMore.undated)
               "b" Sample.two_live))
     = [Sample.hello; Sample.hello].
Proof.
  split; [|split; reflexivity].
  apply (sync_stops_at_the_first_undated_message
           (Sample.env Sample.offline SampleMore.undated) "b"
           Sample.two_live SampleMore.undated);
    reflexivity.
Defined.

Lemma sync_inserts_nothing_witness :
  fst (syncHeyGenMessages SampleMore.no_transcript "b" Sample.two_live)
  = Sample.two_live.
Proof.
  apply (sync_inserts_nothing SampleMore.no_transcript "b" Sample.two_live).
  left. reflexivity.
Defined.

Lemma stats_are_stored_again_on_each_run_witness :
  fetchStats true "a"
    (calculateAndStoreStats (Sample.env Sample.offline []) "a"
       (calculateAndStoreStats (Sample.env Sample.offline []) "a"
          Sample.one_completed))
  = None.
Proof.
  apply (stats_are_stored_again_on_each_run (Sample.env Sample.offline [])
           "a" Sample.one_completed
           (Sample.session "a" sessions.completed (Some 330005) false None)).
  - discriminate.
  - reflexivity.
  - reflexivity.
  - reflexivity.
  - intros r [].
Defined.

Lemma updateAllSessions_adds_a_row_per_completed_session_witness :
  tbl_sessions (updateAllSessions (Sample.env Sample.offline [])
                  Sample.one_completed)
  = tbl_sessions Sample.one_completed.
Proof.
  apply (updateAllSessions_adds_a_row_per_completed_session
           (Sample.env Sample.offline []) Sample.one_completed).
  - intros statement. reflexivity.
  - cbn. repeat constructor. intros [].
Defined.

Lemma stats_of_a_session_that_has_not_ended_witness :
  exists row,
    tbl_session_stats
      (calculateAndStoreStats (Sample.env Sample.offline []) "b"
         Sample.two_live)
    = tbl_session_stats Sample.two_live ++ [row]
    /\ session_stats.averageresponsetime row = Some 0%Q
    /\ session_stats.sessionduration row = "00:00:00"
    /\ responseTimeInSeconds row = Num 0
    /\ durationInMinutes (session_stats.sessionduration row) = Some (Num 0).
Proof.
  apply (stats_of_a_session_that_has_not_ended (Sample.env Sample.offline [])
           "b" Sample.two_live
           (Sample.session "b" sessions.connected None false None));
    reflexivity.
Defined.

(** Nine seconds are 0.15 minutes, halfway between two tenths; the sum
    is the binary number just below 0.15, and the panel shows 0.1. *)
Lemma duration_of_less_than_a_day_is_read_back_witness :
  (exists n : Z,
     durationInMinutes (interval_out 9000) = Some (Num (Qred (n # 10)))
     /\ 6 * n - 3 <= 9000 / 1000 <= 6 * n + 3)
  /\ durationInMinutes (interval_out 9000) = Some (Num (1 # 10)).
Proof.
  split; [|vm_compute; reflexivity].
  apply (duration_of_less_than_a_day_is_read_back 9000). lia.
Defined.

(** Two days show no duration at all; two days, three hours, four minutes
    and five seconds show as 124.1 minutes, two hours and four minutes. *)
Lemma duration_of_a_day_or_more_is_misread_witness :
  interval_out 183845000 = "2 days 03:04:05"
  /\ durationInMinutes (interval_out 172800000) = None
  /\ (exists n : Z,
        durationInMinutes (interval_out 183845000)
        = Some (Num (Qred (n # 10)))
        /\ 6 * n - 3
           <= 3600 * (183845000 / 86400000)
              + 60 * (183845000 mod 86400000 / 60000 mod 60)
              + 183845000 mod 86400000 / 1000 mod 60
           <= 6 * n + 3)
  /\ durationInMinutes (interval_out 183845000) = Some (Num (1241 # 10)).
Proof.
  split; [reflexivity|]. split; [|split].
  - apply (duration_of_a_day_or_more_is_misread 172800000); [lia | reflexivity].
  - apply (duration_of_a_day_or_more_is_misread 183845000); [lia | discriminate].
  - vm_compute. reflexivity.
Defined.

Lemma cleanup_keeps_the_database_consistent_witness :
  trash.cleanup_deleted_sessions 3000000000
    (Sample.database
       [Sample.session "b" sessions.connected None false None] [Sample.hello])
  = Some (Sample.database
            [Sample.session "b" sessions.connected None false None]
            [Sample.hello]).
Proof.
  apply (cleanup_keeps_the_database_consistent 3000000000
           (Sample.database
              [Sample.session "a" sessions.completed (Some 9) true (Some 7);
               Sample.session "b" sessions.connected None false None]
              [Sample.hello])).
  reflexivity.
Defined.

Lemma change_feed_keeps_the_list_well_formed_witness :
  SessionDetails.well_formed "b"
    (SessionDetails.messages
       (SessionDetails.on_change "b" false SampleMore.feed_state
          (SessionDetails.INSERT (SampleMore.feed_message "m3" 7)))).
Proof.
  apply (change_feed_keeps_the_list_well_formed "b" false
           SampleMore.feed_state).
  split; [|split].
  - repeat constructor.
  - cbn. repeat constructor; cbn; intuition discriminate.
  - unfold SessionDetails.ordered. cbn. repeat constructor; cbn; lia.
Defined.

Lemma insert_then_delete_witness :
  SessionDetails.messages
    (SessionDetails.on_change "b" true
       (SessionDetails.on_change "b" false SampleMore.feed_state
          (SessionDetails.INSERT (SampleMore.feed_message "m3" 7)))
       (SessionDetails.DELETE (SampleMore.feed_message "m3" 7)))
  = SessionDetails.messages SampleMore.feed_state.
Proof.
  apply (insert_then_delete "b" false true SampleMore.feed_state
           (SampleMore.feed_message "m3" 7)).
  - split; [|split].
    + repeat constructor.
    + cbn. repeat constructor; cbn; intuition discriminate.
    + unfold SessionDetails.ordered. cbn. repeat constructor; cbn; lia.
  - reflexivity.
  - reflexivity.
Defined.

Lemma fetchMessages_reports_an_error_for_no_messages_witness :
  SessionDetails.fetchMessages "a" (Sample.env Sample.offline [])
    Sample.two_live
  = {| SessionDetails.shown := Some []; SessionDetails.error := true |}.
Proof.
  apply (fetchMessages_reports_an_error_for_no_messages "a"
           (Sample.env Sample.offline []) Sample.two_live
           (Sample.session "a" sessions.active None false None)).
  - discriminate.
  - reflexivity.
  - reflexivity.
  - reflexivity.
Defined.

Lemma refreshMessages_shows_the_transcript_witness :
  exists l err,
    snd (SessionDetails.refreshMessages false "b"
           (Sample.env Sample.offline Sample.transcript) Sample.two_live)
    = Some {| SessionDetails.shown := Some l; SessionDetails.error := err |}
    /\ Permutation l
         (filter (of_session "b")
            (tbl_messages
               (fst (SessionDetails.refreshMessages false "b"
                       (Sample.env Sample.offline Sample.transcript)
                       Sample.two_live))))
    /\ forall m, In m Sample.transcript ->
                 exists row, In row l /\ messages.message row = content m.
Proof.
  apply (refreshMessages_shows_the_transcript "b"
           (Sample.env Sample.offline Sample.transcript) Sample.two_live
           (Sample.session "b" sessions.connected None false None)
           Sample.transcript).
  - discriminate.
  - reflexivity.
  - reflexivity.
  - reflexivity.
  - intros m _. reflexivity.
  - intros m [<- | [<- | []]]; discriminate.
Defined.

Lemma stopped_session_shows_as_completed_witness :
  SessionsListDisplay.getStatusDisplay
    (sessions.apply (mark_completed 100)
       (Sample.session "a" sessions.active None false None))
  = "Voltooid".
Proof.
  apply (stopped_session_shows_as_completed None
           (Sample.env Sample.offline []) "a" Sample.two_live eq_refl
           (sessions.apply (mark_completed 100)
              (Sample.session "a" sessions.active None false None))).
  - left. reflexivity.
  - reflexivity.
Defined.

Lemma flag_handlers_are_idempotent_witness :
  fst (handleToggleRelevant None (Sample.env Sample.offline []) "a" false
         (fst (handleToggleRelevant None (Sample.env Sample.offline []) "a"
                 false Sample.two_live)))
  = fst (handleToggleRelevant None (Sample.env Sample.offline []) "a" false
           Sample.two_live).
Proof.
  apply (proj1 (flag_handlers_are_idempotent None None
                  (Sample.env Sample.offline []) (Sample.env Sample.offline [])
                  "a" false Sample.two_live)).
  reflexivity.
Defined.

Lemma handlers_move_between_views_witness :
  Forall2 (fun r r' => is_session "a" r = true -> view_of r' = TRASH)
    (tbl_sessions Sample.two_live)
    (tbl_sessions
       (fst (handleMoveToTrash None (Sample.env Sample.offline []) "a"
               Sample.two_live))).
Proof.
  apply (proj1 (handlers_move_between_views None
                  (Sample.env Sample.offline []) "a" false Sample.two_live)).
  reflexivity.
Defined.

Lemma trash_keeps_sessions_for_thirty_days_witness :
  In (sessions.apply
        {| sessions.u_end_time := None; sessions.u_status := None;
           sessions.u_heygen_status := None; sessions.u_last_sync_at := None;
           sessions.u_is_relevant := None; sessions.u_is_archived := None;
           sessions.u_deleted_at := Some (Some 100) |}
        (Sample.session "a" sessions.active None false None))
     (tbl_sessions
        (fst (handleMoveToTrash None (Sample.env Sample.offline []) "a"
                Sample.two_live))).
Proof.
  apply (proj1 (trash_keeps_sessions_for_thirty_days None
                  (Sample.env Sample.offline []) "a" Sample.two_live
                  (100 + trash.THIRTY_DAYS)
                  (fst (handleMoveToTrash None (Sample.env Sample.offline [])
                          "a" Sample.two_live)))).
  - reflexivity.
  - cbn. lia.
  - reflexivity.
  - left. reflexivity.
  - reflexivity.
Defined.

End MoreWitnesses.
